(** * SayZhong: the learning-effectiveness scorer

    A shallow embedding of the scoring functions of
    [src/sayzhong/core/effectiveness_analyzer.py] (class
    [SemanticKernelEffectivenessAnalyzer]) and of the value objects of
    [src/sayzhong/core/learning_effectiveness.py], followed by the
    properties of the scorer.

    Modelling conventions.

    - Python [float]s are modelled by exact numbers.  Every finite float is
      a rational, so the inputs are in [Q]; the code adds, multiplies,
      divides and compares them, which stays in [Q], up to the single call
      of [math.sqrt] in [_calculate_difficulty_trend], from which point
      the value is a real number ([R]).  Rounding is not modelled: a
      number the code computes is the exact one here, and a test the code
      makes on a rounded number is made on the exact one.  The two tests
      can differ only within a rounding error of the threshold;
      properties that depend on such a test are stated for numbers that
      stay clear of it ([clearly_below], [clearly_above] in Part II).  On
      [Q], [==] is equality of the numbers ([1 # 2 == 2 # 4]).
    - Python [int]s are in [Z], [str] is [string], [bool] is [bool],
      [None]-able fields are [option]s.  An int has no bound, a float has:
      where the code turns an int into a float, or divides two ints, a
      result beyond the largest float raises [OverflowError].  A number
      that can be an int or a float (the mean of ints, a value of the
      progress summary) is in [Q]; at or beyond the overflow bound it can
      only be an int, no float being that large.
    - A Python [dict] is an association list in insertion order, which is
      the order [dict.items()] iterates in.
    - Exceptions are explicit: a computation yields [Returns v] or
      [Raises e].  Division by a variable raises [ZeroDivisionError] on a
      zero divisor, [statistics.mean] raises [StatisticsError] on empty
      data, [math.sqrt] raises [ValueError] on a negative argument.
      Division of a float by a non-zero literal cannot raise and is
      written directly.
    - The scoring methods are [async] but await nothing: they are modelled
      as functions. *)

From Stdlib Require Import String Ascii List Bool ZArith QArith Qminmax Qabs.
From Stdlib Require Import Reals Qreals Lia Lra Lqa Psatz DecimalString.
From Stdlib Require Import Permutation Sorted.
Import ListNotations.

Open Scope Q_scope.

(* ================================================================= *)
(** * Part I: the program *)
(* ================================================================= *)

(** ** Outcomes of a Python computation *)

Inductive exn : Type :=
| ZeroDivisionError
| StatisticsError
| ValueError
| OverflowError.

Inductive outcome (A : Type) : Type :=
| Returns (a : A)
| Raises (e : exn).

Arguments Returns {A} a.
Arguments Raises {A} e.

Definition bind {A B : Type} (c : outcome A) (k : A -> outcome B) : outcome B :=
  match c with
  | Returns a => k a
  | Raises e => Raises e
  end.

Notation "x <- c ;; k" := (bind c (fun x => k))
  (at level 61, c at next level, right associativity).

(** ** Python built-ins used by the scorer *)

(** [len(l)] *)
Definition len {A : Type} (l : list A) : Z := Z.of_nat (length l).

(** [sum(...)] over integers and over floats; Python adds from the left,
    starting at [0]. *)
Definition sum_int (l : list Z) : Z := fold_left Z.add l 0%Z.
Definition sum_float (l : list Q) : Q := fold_left Qplus l 0.

(** [sum(1 for i in l if p(i))] *)
Definition count_if {A : Type} (p : A -> bool) (l : list A) : Z :=
  sum_int (map (fun _ => 1%Z) (filter p l)).

(** [a / b] for a divisor that is not a literal. *)
Definition truediv (a b : Q) : outcome Q :=
  if Qeq_bool b 0 then Raises ZeroDivisionError else Returns (a / b).

Definition truediv_real (a b : R) : outcome R :=
  if Req_dec_T b 0%R then Raises ZeroDivisionError else Returns (a / b)%R.

(** [math.sqrt(x)] *)
Definition math_sqrt (x : R) : outcome R :=
  if Rlt_dec x 0%R then Raises ValueError else Returns (sqrt x).

(** [statistics.mean(data)]: exact sum over the number of data points. *)
Definition statistics_mean (data : list Q) : outcome Q :=
  match data with
  | [] => Raises StatisticsError
  | _ :: _ => Returns (sum_float data / inject_Z (len data))
  end.

(* [max(a, b)] returns [b] only when [a < b] and [min(a, b)] returns [b]
   only when [b < a]: on numbers these are [Qmax], [Qmin], [Rmax], [Rmin]. *)

(** ** Ints beyond the range of floats

    [float(n)] of an int, implicit where an int meets a float operand, and
    the quotient [a / b] of two ints are rounded to the nearest float, and
    raise [OverflowError] when that is beyond the largest float
    [2^1024 - 2^971]: when the magnitude of the exact result reaches
    [2^1024 - 2^970], half-way to the next power of two. *)
Definition float_overflow_bound : Z := (2 ^ 1024 - 2 ^ 970)%Z.

Definition overflows (x : Q) : bool :=
  Qle_bool (inject_Z float_overflow_bound) (Qabs x).

(** [float(x)] for a number [x] that is an int or a float. *)
Definition to_float (x : Q) : outcome Q :=
  if overflows x then Raises OverflowError else Returns x.

(** [x / c] for a number [x] that is an int or a float and a non-zero int
    literal [c].  The quotient of two ints overflows as said above; a
    float is below the bound, and so is its quotient by [c]. *)
Definition truediv_literal (x : Q) (c : Z) : outcome Q :=
  if overflows (x / inject_Z c) then Raises OverflowError
  else Returns (x / inject_Z c).

(** [x / c] and [x * c] for a number [x] that is an int or a float and a
    float literal [c]: [x] is made a float first. *)
Definition truediv_float (x c : Q) : outcome Q :=
  x' <- to_float x ;; Returns (x' / c).

Definition mul_float (x c : Q) : outcome Q :=
  x' <- to_float x ;; Returns (x' * c).

(** [statistics.mean(data)] on ints: the exact sum over the number of data
    points, returned as an int when it is one and as the nearest float
    otherwise. *)
Definition statistics_mean_int (data : list Z) : outcome Q :=
  match data with
  | [] => Raises StatisticsError
  | _ :: _ =>
      let mean := inject_Z (sum_int data) / inject_Z (len data) in
      if (sum_int data mod len data =? 0)%Z then Returns mean
      else to_float mean
  end.

(** [list(range(n))] *)
Definition range (n : Z) : list Z := map Z.of_nat (seq 0 (Z.to_nat n)).

(** [l[i]] for an index the caller keeps in [range(len(l))]. *)
Definition item {A : Type} (d : A) (l : list A) (i : Z) : A := nth (Z.to_nat i) l d.

(** [l[:k]] and [l[-k:]] *)
Definition first_items {A : Type} (k : nat) (l : list A) : list A := firstn k l.
Definition last_items {A : Type} (k : nat) (l : list A) : list A :=
  skipn (length l - k) l.

(** [str(n)] of an integer, and [str(l)] of a list of integers. *)
Definition str_int (n : Z) : string := NilZero.string_of_int (Z.to_int n).
Definition str_int_list (l : list Z) : string :=
  ("[" ++ String.concat ", " (map str_int l) ++ "]")%string.

(** ** Insertion-ordered dictionaries *)

Section Dict.
Context {K V : Type} (eqb : K -> K -> bool).

Definition dict : Type := list (K * V).

(** [k in d] *)
Fixpoint dict_mem (k : K) (d : dict) : bool :=
  match d with
  | [] => false
  | (k', _) :: d' => if eqb k k' then true else dict_mem k d'
  end.

(** [d.get(k)] *)
Fixpoint dict_get (k : K) (d : dict) : option V :=
  match d with
  | [] => None
  | (k', v) :: d' => if eqb k k' then Some v else dict_get k d'
  end.

(** [d.get(k, default)] *)
Definition dict_get_default (k : K) (default : V) (d : dict) : V :=
  match dict_get k d with
  | Some v => v
  | None => default
  end.

(** [d[k] = v]: an existing key keeps its place, a new key goes last. *)
Fixpoint dict_set (k : K) (v : V) (d : dict) : dict :=
  match d with
  | [] => [(k, v)]
  | (k', v') :: d' =>
      if eqb k k' then (k', v) :: d' else (k', v') :: dict_set k v d'
  end.
End Dict.

Arguments dict : clear implicits.

Section Grouping.
Context {K A V : Type} (eqb : K -> K -> bool) (key : A -> K) (val : A -> V).

(** One turn of the grouping loop:
    [if k not in groups: groups[k] = []; groups[k].append(v)]. *)
Definition group_step (groups : dict K (list V)) (x : A) : dict K (list V) :=
  let k := key x in
  let groups1 := if dict_mem eqb k groups then groups else dict_set eqb k [] groups in
  dict_set eqb k (dict_get_default eqb k [] groups1 ++ [val x]) groups1.

Definition group_by (l : list A) : dict K (list V) :=
  fold_left group_step l [].
End Grouping.

(** ** The data model ([learning_effectiveness.py]) *)

Inductive LearningDifficulty : Type :=
| BEGINNER | ELEMENTARY | INTERMEDIATE | ADVANCED | NATIVE.

Inductive ContentType : Type :=
| VOCABULARY | GRAMMAR | CONVERSATION | LISTENING | READING | WRITING.

(** A naive [datetime]; Python orders them field by field. *)
Record datetime : Type := {
  year : Z; month : Z; day : Z;
  hour : Z; minute : Z; second : Z; microsecond : Z
}.

Fixpoint lex_ltb (a b : list Z) : bool :=
  match a, b with
  | x :: a', y :: b' => if (x <? y)%Z then true else if (y <? x)%Z then false else lex_ltb a' b'
  | _, _ => false
  end.

Definition datetime_fields (t : datetime) : list Z :=
  [year t; month t; day t; hour t; minute t; second t; microsecond t].

Definition datetime_ltb (a b : datetime) : bool :=
  lex_ltb (datetime_fields a) (datetime_fields b).

Record LearningInteraction : Type := {
  interaction_id : string;
  user_id : string;
  session_id : string;
  timestamp : datetime;
  content_id : string;
  content_type : ContentType;
  difficulty_level : LearningDifficulty;
  question : string;
  user_answer : string;
  correct_answer : string;
  is_correct : bool;
  response_time_seconds : Q;
  confidence_level : option Q;
  hints_used : Z;
  attempts : Z;
  previous_attempts : list string;
  session_position : Z;
  time_since_last_review : option Q
}.

Record LearningPattern : Type := {
  pattern_id : string;
  pattern_type : string;
  description : string;
  effectiveness_score : Q;
  frequency : Z;
  applicable_users : list string;
  conditions : dict string (list Z);
  outcomes : dict string Q
}.

(** The scores and patterns of an [EffectivenessAnalysis]; the free-text
    and recommendation fields take no part in the scoring and are left
    out. *)
Record EffectivenessAnalysis : Type := {
  analysis_user_id : string;
  timeframe_days : Z;
  immediate_effectiveness : Q;
  retention_effectiveness : Q;
  progression_effectiveness : Q;
  overall_effectiveness : Q;
  learning_patterns : list LearningPattern
}.

(** ** [sorted(l, key=lambda x: x.timestamp)]

    Python's sort is stable and compares keys with [<] only.  Insertion
    from the right puts each element before the first one whose key is not
    smaller, hence before its equals that came later in the input. *)

Fixpoint insert_by_timestamp (x : LearningInteraction) (l : list LearningInteraction)
  : list LearningInteraction :=
  match l with
  | [] => [x]
  | y :: l' =>
      if datetime_ltb (timestamp y) (timestamp x)
      then y :: insert_by_timestamp x l'
      else x :: y :: l'
  end.

Definition sorted_by_timestamp (l : list LearningInteraction) : list LearningInteraction :=
  fold_right insert_by_timestamp [] l.

(** ** The scorer ([effectiveness_analyzer.py]) *)

(** [_calculate_immediate_effectiveness] *)
Definition _calculate_immediate_effectiveness (interactions : list LearningInteraction)
  : outcome Q :=
  match interactions with
  | [] => Returns 0.0
  | _ :: _ =>
      accuracy <- truediv (inject_Z (count_if is_correct interactions))
                          (inject_Z (len interactions)) ;;
      avg_response_time <- statistics_mean (map response_time_seconds interactions) ;;
      let response_efficiency := Qmax 0 (1 - avg_response_time / 30) in
      avg_hints <- statistics_mean_int (map hints_used interactions) ;;
      avg_attempts <- statistics_mean_int (map attempts interactions) ;;
      hints_term <- truediv_literal avg_hints 3 ;;
      attempts_term <- truediv_literal (avg_attempts - 1) 2 ;;
      let engagement := Qmax 0 (1 - hints_term - attempts_term) in
      Returns (accuracy * 0.5 + response_efficiency * 0.3 + engagement * 0.2)
  end.

(** The body of the loop over [content_groups.items()] in
    [_calculate_retention_effectiveness]: [None] stands for [continue],
    [Some s] for [retention_scores.append(s)]. *)
Definition retention_score_of (content_interactions : list LearningInteraction)
  : outcome (option Q) :=
  if (len content_interactions <? 2)%Z then Returns None
  else
    let sorted_interactions := sorted_by_timestamp content_interactions in
    initial_performance <-
      truediv (inject_Z (count_if is_correct (first_items 3 sorted_interactions)))
              (inject_Z (Z.min 3 (len sorted_interactions))) ;;
    later_performance <-
      truediv (inject_Z (count_if is_correct (last_items 3 sorted_interactions)))
              (inject_Z (Z.min 3 (len sorted_interactions))) ;;
    retention_score <-
      (if Qlt_le_dec 0 initial_performance
       then truediv later_performance initial_performance
       else Returns 0.5) ;;
    Returns (Some (Qmin retention_score 1.0)).

Fixpoint retention_loop (items : dict string (list LearningInteraction))
    (retention_scores : list Q) : outcome (list Q) :=
  match items with
  | [] => Returns retention_scores
  | (_, content_interactions) :: items' =>
      score <- retention_score_of content_interactions ;;
      match score with
      | None => retention_loop items' retention_scores
      | Some s => retention_loop items' (retention_scores ++ [s])
      end
  end.

(** [_calculate_retention_effectiveness]; [retention_data] is not read. *)
Definition _calculate_retention_effectiveness
    (interactions : list LearningInteraction) (retention_data : dict string Q)
  : outcome Q :=
  let content_groups := group_by String.eqb content_id (fun i => i) interactions in
  retention_scores <- retention_loop content_groups [] ;;
  match retention_scores with
  | [] => Returns 0.5
  | _ :: _ => statistics_mean retention_scores
  end.

(** [_calculate_progression_effectiveness] *)
Definition _calculate_progression_effectiveness (progress_data : dict string Q)
  : outcome Q :=
  match progress_data with
  | [] => Returns 0.5
  | _ :: _ =>
      let difficulty_progression :=
        dict_get_default String.eqb "difficulty_progression"%string 0 progress_data in
      let mastery_rate := dict_get_default String.eqb "mastery_rate"%string 0 progress_data in
      let learning_velocity :=
        dict_get_default String.eqb "learning_velocity"%string 0 progress_data in
      progression_ratio <- truediv_float difficulty_progression 5.0 ;;
      let normalized_progression := Qmin progression_ratio 1.0 in
      let normalized_mastery := Qmin mastery_rate 1.0 in
      velocity_ratio <- truediv_float learning_velocity 10.0 ;;
      let normalized_velocity := Qmin velocity_ratio 1.0 in
      mastery_term <- mul_float normalized_mastery 0.4 ;;
      Returns (normalized_progression * 0.4
               + mastery_term
               + normalized_velocity * 0.2)
  end.

(** The loop over [hour_performance.items()] that collects [best_hours]. *)
Fixpoint best_hours_loop (items : dict Z (list bool)) (best_hours : list Z)
  : outcome (list Z) :=
  match items with
  | [] => Returns best_hours
  | (hour, performance) :: items' =>
      if (5 <=? len performance)%Z then
        accuracy <- truediv (inject_Z (count_if (fun b => b) performance))
                            (inject_Z (len performance)) ;;
        if Qlt_le_dec 0.8 accuracy
        then best_hours_loop items' (best_hours ++ [hour])
        else best_hours_loop items' best_hours
      else best_hours_loop items' best_hours
  end.

(** [_identify_learning_patterns_ai]; [progress_data] and [retention_data]
    are not read. *)
Definition _identify_learning_patterns_ai
    (interactions : list LearningInteraction)
    (progress_data retention_data : dict string Q)
  : outcome (list LearningPattern) :=
  let patterns : list LearningPattern := [] in
  match interactions with
  | [] => Returns patterns
  | first :: _ =>
      let hour_performance :=
        group_by Z.eqb (fun i => hour (timestamp i)) is_correct interactions in
      best_hours <- best_hours_loop hour_performance [] ;;
      match best_hours with
      | [] => Returns patterns
      | _ :: _ =>
          Returns (patterns ++ [
            {| pattern_id := ("optimal_timing_" ++ str_int (len patterns))%string;
               pattern_type := "optimal_timing";
               description := ("User performs best during hours: "
                               ++ str_int_list best_hours)%string;
               effectiveness_score := 0.8;
               frequency := len best_hours;
               applicable_users := [user_id first];
               conditions := [("optimal_hours"%string, best_hours)];
               outcomes := [("accuracy_improvement"%string, 0.2)] |}])
      end
  end.

(** The [difficulty_values] table of [_calculate_difficulty_trend]. *)
Definition difficulty_values (d : LearningDifficulty) : Z :=
  match d with
  | BEGINNER => 1
  | ELEMENTARY => 2
  | INTERMEDIATE => 3
  | ADVANCED => 4
  | NATIVE => 5
  end.

(** [_calculate_difficulty_trend] *)
Definition _calculate_difficulty_trend (interactions : list LearningInteraction)
  : outcome R :=
  if (len interactions <? 3)%Z then Returns 0.5%R
  else
    let sorted_interactions := sorted_by_timestamp interactions in
    let difficulties :=
      map (fun i => difficulty_values (difficulty_level i)) sorted_interactions in
    if (len difficulties <? 2)%Z then Returns 0.5%R
    else
      let x_values := range (len difficulties) in
      let n := len difficulties in
      mean_x <- truediv (inject_Z (sum_int x_values)) (inject_Z n) ;;
      mean_y <- truediv (inject_Z (sum_int difficulties)) (inject_Z n) ;;
      let numerator :=
        sum_float (map (fun i => (inject_Z (item 0%Z x_values i) - mean_x)
                                 * (inject_Z (item 0%Z difficulties i) - mean_y))
                       (range n)) in
      let denominator_x :=
        sum_float (map (fun i => (inject_Z (item 0%Z x_values i) - mean_x) ^ 2)
                       (range n)) in
      let denominator_y :=
        sum_float (map (fun i => (inject_Z (item 0%Z difficulties i) - mean_y) ^ 2)
                       (range n)) in
      if Qeq_bool denominator_x 0 || Qeq_bool denominator_y 0 then Returns 0.5%R
      else
        root <- math_sqrt (Q2R (denominator_x * denominator_y)) ;;
        correlation <- truediv_real (Q2R numerator) root ;;
        Returns (Rmax 0 ((correlation + 1) / 2)).

(** [[i.confidence_level for i in interactions
      if i.confidence_level is not None]] *)
Fixpoint confidence_scores_of (interactions : list LearningInteraction) : list Q :=
  match interactions with
  | [] => []
  | i :: l =>
      match confidence_level i with
      | Some c => c :: confidence_scores_of l
      | None => confidence_scores_of l
      end
  end.

(** [calculate_real_time_effectiveness] *)
Definition calculate_real_time_effectiveness (interactions : list LearningInteraction)
  : outcome R :=
  match interactions with
  | [] => Returns 0.5%R
  | _ :: _ =>
      accuracy <- truediv (inject_Z (count_if is_correct interactions))
                          (inject_Z (len interactions)) ;;
      avg_response_time <- statistics_mean (map response_time_seconds interactions) ;;
      let response_efficiency := Qmax 0 (1 - avg_response_time / 30) in
      let confidence_scores := confidence_scores_of interactions in
      avg_confidence <-
        match confidence_scores with
        | [] => Returns 0.5
        | _ :: _ => statistics_mean confidence_scores
        end ;;
      difficulty_trend <- _calculate_difficulty_trend interactions ;;
      let effectiveness :=
        (Q2R accuracy * 0.4
         + Q2R response_efficiency * 0.2
         + Q2R avg_confidence * 0.2
         + difficulty_trend * 0.2)%R in
      Returns (Rmin (Rmax effectiveness 0.0) 1.0)
  end.

(** [_create_empty_analysis] *)
Definition _create_empty_analysis (user : string) (days : Z) : EffectivenessAnalysis :=
  {| analysis_user_id := user;
     timeframe_days := days;
     immediate_effectiveness := 0.5;
     retention_effectiveness := 0.5;
     progression_effectiveness := 0.5;
     overall_effectiveness := 0.5;
     learning_patterns := [] |}.

(** ** The utility functions of [learning_effectiveness.py] *)

(** [calculate_learning_velocity] *)
Definition calculate_learning_velocity (interactions : list LearningInteraction)
    (timeframe_hours : Q) : outcome Q :=
  match interactions with
  | [] => Returns 0.0
  | _ :: _ =>
      let correct_answers := count_if is_correct interactions in
      truediv (inject_Z correct_answers) timeframe_hours
  end.

(** [calculate_retention_rate] *)
Definition calculate_retention_rate
    (review_interactions initial_interactions : list LearningInteraction) : outcome Q :=
  match review_interactions, initial_interactions with
  | [], _ | _, [] => Returns 0.0
  | _ :: _, _ :: _ =>
      initial_accuracy <- truediv (inject_Z (count_if is_correct initial_interactions))
                                  (inject_Z (len initial_interactions)) ;;
      review_accuracy <- truediv (inject_Z (count_if is_correct review_interactions))
                                 (inject_Z (len review_interactions)) ;;
      ratio <- (if Qlt_le_dec 0 initial_accuracy
                then truediv review_accuracy initial_accuracy
                else Returns 0.0) ;;
      Returns (Qmin ratio 1.0)
  end.

(** [calculate_difficulty_progression_rate].  [sorted_interactions[0]] and
    [sorted_interactions[-1]] are read after the length test, on a list
    that is not empty; the first interaction of the input stands for the
    default that is never used. *)
Definition calculate_difficulty_progression_rate
    (interactions : list LearningInteraction) (timeframe_days : Z) : outcome Q :=
  match interactions with
  | [] => Returns 0.0
  | first :: _ =>
      if (len interactions <? 2)%Z then Returns 0.0
      else
        let sorted_interactions := sorted_by_timestamp interactions in
        let start_difficulty :=
          difficulty_values (difficulty_level (hd first sorted_interactions)) in
        let end_difficulty :=
          difficulty_values (difficulty_level (last sorted_interactions first)) in
        let progression := (end_difficulty - start_difficulty)%Z in
        truediv (inject_Z progression) (inject_Z timeframe_days)
  end.

(** *** Differences of [datetime]s

    [(a - b).total_seconds()] for naive datetimes, with the proleptic
    Gregorian day count of Python's [datetime] module ([_is_leap],
    [_days_before_year], [_days_before_month], [_ymd2ord]). *)

Definition _is_leap (y : Z) : bool :=
  ((y mod 4 =? 0) && (negb (y mod 100 =? 0) || (y mod 400 =? 0)))%Z.

Definition _days_before_year (y : Z) : Z :=
  let y' := (y - 1)%Z in (y' * 365 + y' / 4 - y' / 100 + y' / 400)%Z.

Definition _DAYS_BEFORE_MONTH : list Z :=
  [-1; 0; 31; 59; 90; 120; 151; 181; 212; 243; 273; 304; 334]%Z.

Definition _days_before_month (y m : Z) : Z :=
  (item 0 _DAYS_BEFORE_MONTH m + (if (2 <? m) && _is_leap y then 1 else 0))%Z.

Definition toordinal (t : datetime) : Z :=
  (_days_before_year (year t) + _days_before_month (year t) (month t) + day t)%Z.

Definition seconds_of_day (t : datetime) : Z :=
  (second t + minute t * 60 + hour t * 3600)%Z.

Definition total_seconds_between (a b : datetime) : Q :=
  inject_Z (((toordinal a - toordinal b) * 86400
             + (seconds_of_day a - seconds_of_day b)) * 1000000
            + (microsecond a - microsecond b))
  / inject_Z 1000000.

(** A [timedelta], as its three normalized fields. *)
Record timedelta : Type := {
  td_days : Z;
  td_seconds : Z;
  td_microseconds : Z
}.

(** [timedelta(0)] and [timedelta(minutes=m)] for [0 <= m < 1440]. *)
Definition timedelta_zero : timedelta :=
  {| td_days := 0; td_seconds := 0; td_microseconds := 0 |}.
Definition timedelta_minutes (m : Z) : timedelta :=
  {| td_days := 0; td_seconds := m * 60; td_microseconds := 0 |}.

Section MasteryTime.
(** [timedelta(seconds=x)] for a float [x] rounds to microseconds and
    rejects values out of its range; the function below hands its estimate
    to it and returns what it gives, whatever that is. *)
Variable timedelta_of_seconds : Q -> outcome timedelta.

(** [estimate_mastery_time].  The tests [current_accuracy >=
    mastery_threshold] and [improvement_rate > 0] are made on the exact
    quotients. *)
Definition estimate_mastery_time (interactions : list LearningInteraction)
    (mastery_threshold : Q) : outcome (option timedelta) :=
  match interactions with
  | [] => Returns None
  | first :: _ =>
      let window_size := Z.min 10 (len interactions) in
      let recent_interactions := last_items (Z.to_nat window_size) interactions in
      current_accuracy <- truediv (inject_Z (count_if is_correct recent_interactions))
                                  (inject_Z (len recent_interactions)) ;;
      if Qle_bool mastery_threshold current_accuracy
      then Returns (Some timedelta_zero)
      else if (1 <? len interactions)%Z
      then
        let time_elapsed :=
          total_seconds_between (timestamp (last interactions first)) (timestamp first) in
        improvement_rate <- truediv current_accuracy time_elapsed ;;
        if Qlt_le_dec 0 improvement_rate
        then
          let remaining_improvement := mastery_threshold - current_accuracy in
          estimated_seconds <- truediv remaining_improvement improvement_rate ;;
          estimate <- timedelta_of_seconds estimated_seconds ;;
          Returns (Some estimate)
        else Returns None
      else Returns None
  end.
End MasteryTime.

(** ** Strengths, weaknesses and recommendations
       ([effectiveness_analyzer.py]) *)

(** [ContentType.value] *)
Definition content_type_value (c : ContentType) : string :=
  match c with
  | VOCABULARY => "vocabulary"
  | GRAMMAR => "grammar"
  | CONVERSATION => "conversation"
  | LISTENING => "listening"
  | READING => "reading"
  | WRITING => "writing"
  end.

(** The loop over [content_performance.items()] of
    [_analyze_strengths_weaknesses]. *)
Fixpoint content_performance_loop (items : dict string (list bool))
    (strengths improvement_areas : list string)
  : outcome (list string * list string) :=
  match items with
  | [] => Returns (strengths, improvement_areas)
  | (content_type, performance) :: items' =>
      accuracy <- truediv (inject_Z (count_if (fun b => b) performance))
                          (inject_Z (len performance)) ;;
      if Qlt_le_dec 0.8 accuracy
      then content_performance_loop items'
             (strengths ++ [("Strong performance in " ++ content_type)%string])
             improvement_areas
      else if Qlt_le_dec accuracy 0.6
      then content_performance_loop items' strengths
             (improvement_areas ++ [("Needs improvement in " ++ content_type)%string])
      else content_performance_loop items' strengths improvement_areas
  end.

(** [_analyze_strengths_weaknesses]; [patterns] is not read.  The tests on
    the accuracy and on the mean response time are made on the exact
    quotient and on the exact mean. *)
Definition _analyze_strengths_weaknesses (interactions : list LearningInteraction)
    (patterns : list LearningPattern) : outcome (list string * list string) :=
  match interactions with
  | [] => Returns ([], [])
  | _ :: _ =>
      let content_performance :=
        group_by String.eqb (fun i => content_type_value (content_type i)) is_correct
                 interactions in
      lists <- content_performance_loop content_performance [] [] ;;
      let strengths := fst lists in
      let improvement_areas := snd lists in
      avg_response_time <- statistics_mean (map response_time_seconds interactions) ;;
      if Qlt_le_dec avg_response_time 10
      then Returns (strengths ++ ["Quick response time"%string], improvement_areas)
      else if Qlt_le_dec 30 avg_response_time
      then Returns (strengths, improvement_areas ++ ["Slow response time"%string])
      else Returns (strengths, improvement_areas)
  end.

(** [s.lower()] on ASCII text, and [needle in s]. *)
Definition lower_ascii (c : ascii) : ascii :=
  let n := nat_of_ascii c in
  if (65 <=? n)%nat && (n <=? 90)%nat then ascii_of_nat (n + 32) else c.

Fixpoint lower (s : string) : string :=
  match s with
  | EmptyString => EmptyString
  | String c s' => String (lower_ascii c) (lower s')
  end.

Fixpoint contains (needle s : string) : bool :=
  if String.prefix needle s then true
  else match s with
       | EmptyString => false
       | String _ s' => contains needle s'
       end.

(** The values an adaptation entry holds. *)
Inductive value : Type :=
| Text (s : string)
| Number (q : Q).

(** The [recommendations] dictionary, by its four fixed keys. *)
Record Recommendations : Type := {
  adaptations : list (dict string value);
  content_types : list ContentType;
  difficulty_progression : Q;
  session_length : timedelta
}.

(** The loop over [improvement_areas] of [_generate_recommendations]. *)
Fixpoint adaptations_loop (improvement_areas : list string)
    (adaptations : list (dict string value)) : list (dict string value) :=
  match improvement_areas with
  | [] => adaptations
  | area :: areas' =>
      if contains "vocabulary" (lower area)
      then adaptations_loop areas'
             (adaptations ++ [[("type"%string, Text "additional_practice");
                               ("focus"%string, Text "vocabulary");
                               ("duration_increase"%string, Number 0.3)]])
      else if contains "response time" (lower area)
      then adaptations_loop areas'
             (adaptations ++ [[("type"%string, Text "pacing_adjustment");
                               ("pacing_multiplier"%string, Number 0.8)]])
      else adaptations_loop areas' adaptations
  end.

(** The loop over [strengths] of [_generate_recommendations]. *)
Fixpoint content_types_loop (strengths : list string) (content_types : list ContentType)
  : list ContentType :=
  match strengths with
  | [] => content_types
  | strength :: strengths' =>
      if contains "vocabulary" (lower strength)
      then content_types_loop strengths' (content_types ++ [VOCABULARY])
      else if contains "conversation" (lower strength)
      then content_types_loop strengths' (content_types ++ [CONVERSATION])
      else content_types_loop strengths' content_types
  end.

(** [_generate_recommendations]; [patterns] is not read. *)
Definition _generate_recommendations (patterns : list LearningPattern)
    (strengths improvement_areas : list string) : Recommendations :=
  let adaptations := adaptations_loop improvement_areas [] in
  let content_types := content_types_loop strengths [] in
  {| adaptations := adaptations;
     content_types := match content_types with
                      | [] => [VOCABULARY; GRAMMAR]
                      | _ :: _ => content_types
                      end;
     difficulty_progression := 1.0;
     session_length := timedelta_minutes 20 |}.

(** The fields of the analysis that [EffectivenessAnalysis] above leaves
    out. *)
Record AnalysisDetails : Type := {
  strengths : list string;
  improvement_areas : list string;
  recommended_adaptations : list (dict string value);
  optimal_content_types : list ContentType;
  optimal_difficulty_progression : Q;
  recommended_session_length : timedelta
}.

(** Those fields in [_create_empty_analysis]. *)
Definition _create_empty_details : AnalysisDetails :=
  {| strengths := [];
     improvement_areas := ["Need more learning interactions for analysis"%string];
     recommended_adaptations := [];
     optimal_content_types := [VOCABULARY];
     optimal_difficulty_progression := 1.0;
     recommended_session_length := timedelta_minutes 20 |}.

(** [_save_effectiveness_analysis]: its whole body is inside a [try] whose
    handler prints the error and returns, so that the call returns
    whatever the data lake does. *)
Definition _save_effectiveness_analysis (analysis : EffectivenessAnalysis)
  : outcome unit :=
  Returns tt.

(** [analyze_user_effectiveness], from the point where the interactions,
    the progress summary and the retention data have been fetched (each
    fetch catches its own exceptions): the [try] block, then the
    [except Exception] handler.  The analysis built is given by the two
    records above.  [self.performance_manager] is [None], or an object
    given by what its [track_performance] does when it is called.  The
    write to [self.effectiveness_cache] cannot raise and nothing here reads
    the cache: it is left out. *)
Definition analyze_user_effectiveness_try
    (performance_manager : option (outcome unit))
    (user : string) (days : Z)
    (interactions : list LearningInteraction)
    (progress_data retention_data : dict string Q)
  : outcome (EffectivenessAnalysis * AnalysisDetails) :=
  match interactions with
  | [] => Returns (_create_empty_analysis user days, _create_empty_details)
  | _ :: _ =>
      immediate <- _calculate_immediate_effectiveness interactions ;;
      retention <- _calculate_retention_effectiveness interactions retention_data ;;
      progression <- _calculate_progression_effectiveness progress_data ;;
      let overall := immediate * 0.4 + retention * 0.4 + progression * 0.2 in
      patterns <- _identify_learning_patterns_ai interactions progress_data retention_data ;;
      lists <- _analyze_strengths_weaknesses interactions patterns ;;
      let recommendations :=
        _generate_recommendations patterns (fst lists) (snd lists) in
      let analysis :=
        {| analysis_user_id := user;
           timeframe_days := days;
           immediate_effectiveness := immediate;
           retention_effectiveness := retention;
           progression_effectiveness := progression;
           overall_effectiveness := overall;
           learning_patterns := patterns |} in
      let details :=
        {| strengths := fst lists;
           improvement_areas := snd lists;
           recommended_adaptations := adaptations recommendations;
           optimal_content_types := content_types recommendations;
           optimal_difficulty_progression := difficulty_progression recommendations;
           recommended_session_length := session_length recommendations |} in
      _ <- _save_effectiveness_analysis analysis ;;
      _ <- match performance_manager with
           | Some track_performance => track_performance
           | None => Returns tt
           end ;;
      Returns (analysis, details)
  end.

(** The scores and patterns of the analysis returned, and its other
    fields. *)
Definition analyze_user_effectiveness
    (performance_manager : option (outcome unit))
    (user : string) (days : Z)
    (interactions : list LearningInteraction)
    (progress_data retention_data : dict string Q)
  : EffectivenessAnalysis :=
  match analyze_user_effectiveness_try performance_manager user days interactions
          progress_data retention_data with
  | Returns analysis => fst analysis
  | Raises _ => _create_empty_analysis user days
  end.


(** ** [identify_learning_patterns] and the detectors it calls *)

Definition _identify_optimal_timing_pattern (interactions : list LearningInteraction)
  : option LearningPattern := None.
Definition _identify_content_preference_pattern (interactions : list LearningInteraction)
  : option LearningPattern := None.
Definition _identify_difficulty_progression_pattern (interactions : list LearningInteraction)
  : option LearningPattern := None.
Definition _identify_learning_velocity_pattern (interactions : list LearningInteraction)
  : option LearningPattern := None.
Definition _identify_advanced_patterns_ai
    (interactions : option (list LearningInteraction)) (progress : option (dict string Q))
  : list LearningPattern := [].

(** [identify_learning_patterns]; [user_data] is given by what it holds
    under ["interactions"] and ["progress"], if anything. *)
Definition identify_learning_patterns
    (user_interactions : option (list LearningInteraction))
    (user_progress : option (dict string Q)) : list LearningPattern :=
  let interactions := match user_interactions with Some l => l | None => [] end in
  let patterns : list LearningPattern := [] in
  let patterns :=
    match _identify_optimal_timing_pattern interactions with
    | Some p => patterns ++ [p] | None => patterns end in
  let patterns :=
    match _identify_content_preference_pattern interactions with
    | Some p => patterns ++ [p] | None => patterns end in
  let patterns :=
    match _identify_difficulty_progression_pattern interactions with
    | Some p => patterns ++ [p] | None => patterns end in
  let patterns :=
    match _identify_learning_velocity_pattern interactions with
    | Some p => patterns ++ [p] | None => patterns end in
  patterns ++ _identify_advanced_patterns_ai user_interactions user_progress.

(* ================================================================= *)
(** * Part II: the specification's notions *)
(* ================================================================= *)

(** These definitions follow the words of the specification, not the
    code; the theorems of Part III compare the two. *)

(** The arithmetic mean of a sequence: its total over its length. *)
Definition total (xs : list Q) : Q := fold_right Qplus 0 xs.
Definition arithmetic_mean (xs : list Q) : Q := total xs / inject_Z (len xs).

(** The fraction of correct interactions of a sequence. *)
Definition number_correct (l : list LearningInteraction) : nat :=
  length (filter is_correct l).
Definition fraction_correct (l : list LearningInteraction) : Q :=
  inject_Z (Z.of_nat (number_correct l)) / inject_Z (len l).

(** Immediate effectiveness as the specification writes it. *)
Definition immediate_formula (l : list LearningInteraction) : Q :=
  let accuracy := fraction_correct l in
  let avg_latency := arithmetic_mean (map response_time_seconds l) in
  let avg_hints := arithmetic_mean (map (fun i => inject_Z (hints_used i)) l) in
  let avg_attempts := arithmetic_mean (map (fun i => inject_Z (attempts i)) l) in
  accuracy * 0.5
  + Qmax 0 (1 - avg_latency / 30) * 0.3
  + Qmax 0 (1 - avg_hints / 3 - (avg_attempts - 1) / 2) * 0.2.

(** Progression effectiveness as the specification writes it:
    [min(value / cap, 1.0)] for each field, weighted 0.4 / 0.4 / 0.2. *)
Definition normalized (value cap : Q) : Q := Qmin (value / cap) 1.
Definition progression_formula (difficulty_progression mastery_rate learning_velocity : Q)
  : Q :=
  normalized difficulty_progression 5 * 0.4
  + normalized mastery_rate 1 * 0.4
  + normalized learning_velocity 10 * 0.2.



(** A number within the range of a float: its magnitude is below the bound
    at which [float()] overflows.  An interaction whose hint and attempt
    counts are within that range, and a summary whose three fields are. *)
Definition in_float_range (x : Q) : Prop := Qabs x < inject_Z float_overflow_bound.

Definition counts_in_float_range (i : LearningInteraction) : Prop :=
  in_float_range (inject_Z (hints_used i)) /\ in_float_range (inject_Z (attempts i)).

Definition summary_in_float_range (progress_data : dict string Q) : Prop :=
  in_float_range (dict_get_default String.eqb "difficulty_progression"%string 0 progress_data)
  /\ in_float_range (dict_get_default String.eqb "mastery_rate"%string 0 progress_data)
  /\ in_float_range (dict_get_default String.eqb "learning_velocity"%string 0 progress_data).

(** A score in the unit interval. *)
Definition unit_score (v : Q) : Prop := 0 <= v /\ v <= 1.
Definition unit_score_real (v : R) : Prop := (0 <= v /\ v <= 1)%R.

(** An input that carries a negative latency, hint count or attempt count. *)
Definition negative_field (i : LearningInteraction) : Prop :=
  response_time_seconds i < 0 \/ (hints_used i < 0)%Z \/ (attempts i < 0)%Z.

(** The distinct elements of a list, in the order of their first
    occurrence. *)
Fixpoint distinct {K : Type} (eqb : K -> K -> bool) (l : list K) : list K :=
  match l with
  | [] => []
  | k :: l' => k :: filter (fun k' => negb (eqb k' k)) (distinct eqb l')
  end.

(** The values of the elements of [l] filed under the key [k], in the
    order of [l]. *)
Definition filed_under {K A V : Type} (eqb : K -> K -> bool) (key : A -> K)
    (val : A -> V) (k : K) (l : list A) : list V :=
  map val (filter (fun x => eqb (key x) k) l).

(** Timestamp order: [a] is not later than [b]. *)
Definition not_later (a b : LearningInteraction) : Prop :=
  datetime_ltb (timestamp b) (timestamp a) = false.

(** The interactions of [l] recorded at the time [t], in the order of [l]. *)
Definition same_time (a b : datetime) : bool :=
  if list_eq_dec Z.eq_dec (datetime_fields a) (datetime_fields b) then true else false.

Definition recorded_at (t : datetime) (l : list LearningInteraction)
  : list LearningInteraction :=
  filter (fun i => same_time (timestamp i) t) l.

(** [s] is [g] in timestamp order: [s] holds the interactions of [g], none
    of them later than the one that follows it, and those recorded at one
    and the same time in the order they have in [g]. *)
Definition in_timestamp_order (g s : list LearningInteraction) : Prop :=
  Permutation g s
  /\ Sorted not_later s
  /\ forall t, recorded_at t s = recorded_at t g.

(** The first three and the last three elements of a sequence. *)
Definition first_three {A : Type} (l : list A) : list A := firstn 3 l.
Definition last_three {A : Type} (l : list A) : list A := rev (firstn 3 (rev l)).

(** Retention, in the specification's words: the interactions on one
    content; the contents seen; those with at least two interactions; for
    the interactions [s] of one content, taken in timestamp order, the
    ratio later/initial of the mean correctness of the last three and of
    the first three, 0.5 when initial is not positive, capped at 1.0. *)
Definition interactions_on (c : string) (l : list LearningInteraction)
  : list LearningInteraction :=
  filter (fun i => String.eqb (content_id i) c) l.

Definition contents_seen (l : list LearningInteraction) : list string :=
  distinct String.eqb (map content_id l).

Definition repeated_contents (l : list LearningInteraction) : list string :=
  filter (fun c => (2 <=? len (interactions_on c l))%Z) (contents_seen l).

Definition window_ratio (s : list LearningInteraction) : Q :=
  let initial := fraction_correct (first_three s) in
  let later := fraction_correct (last_three s) in
  Qmin (if Qlt_le_dec 0 initial then later / initial else 0.5) 1.0.

(** The mean of the ratios, 0.5 when there is none. *)
Definition mean_or_half (ratios : list Q) : Q :=
  match ratios with
  | [] => 0.5
  | _ :: _ => arithmetic_mean ratios
  end.

(** For the proofs: the ratio of one content and the mean of the ratios
    with the order the program's own [sorted] gives.  The theorems state
    the order through [in_timestamp_order]. *)
Definition retention_ratio (content_interactions : list LearningInteraction) : Q :=
  let in_time_order := sorted_by_timestamp content_interactions in
  let initial := fraction_correct (first_three in_time_order) in
  let later := fraction_correct (last_three in_time_order) in
  Qmin (if Qlt_le_dec 0 initial then later / initial else 0.5) 1.0.

Definition retention_ratios (l : list LearningInteraction) : list Q :=
  map (fun c => retention_ratio (interactions_on c l)) (repeated_contents l).

Definition retention_formula (l : list LearningInteraction) : Q :=
  match retention_ratios l with
  | [] => 0.5
  | _ :: _ => arithmetic_mean (retention_ratios l)
  end.

(** Pattern identification, in the specification's words: the interactions
    of one hour of the day; an hour qualifies with at least 5 observations
    and an accuracy above 0.8. *)
Definition at_hour (h : Z) (l : list LearningInteraction) : list LearningInteraction :=
  filter (fun i => (hour (timestamp i) =? h)%Z) l.

Definition hours_seen (l : list LearningInteraction) : list Z :=
  distinct Z.eqb (map (fun i => hour (timestamp i)) l).

Definition qualifying (l : list LearningInteraction) (h : Z) : Prop :=
  (5 <= len (at_hour h l))%Z /\ 0.8 < fraction_correct (at_hour h l).

Definition qualifyingb (l : list LearningInteraction) (h : Z) : bool :=
  (5 <=? len (at_hour h l))%Z
  && (if Qlt_le_dec 0.8 (fraction_correct (at_hour h l)) then true else false).

Definition qualifying_hours (l : list LearningInteraction) : list Z :=
  filter (qualifyingb l) (hours_seen l).

(** The test the code applies to one entry of [hour_performance]. *)
Definition entry_qualifies (entry : Z * list bool) : bool :=
  (5 <=? len (snd entry))%Z
  && (if Qlt_le_dec 0.8 (inject_Z (count_if (fun b => b) (snd entry))
                         / inject_Z (len (snd entry)))
      then true else false).

(** The hours a pattern records under ["optimal_hours"]. *)
Definition optimal_hours (p : LearningPattern) : list Z :=
  dict_get_default String.eqb "optimal_hours"%string [] (conditions p).

(** The difficulty trend, in the specification's words: the difficulty
    levels mapped to 1..5, taken in timestamp order, against the order
    indices 0, 1, ..., and the Pearson correlation of two integer series:
    the sum of the products of their deviations from the mean, over the
    square root of the product of the sums of the squared deviations. *)
Definition levels_in_time_order (l : list LearningInteraction) : list Z :=
  map (fun i => difficulty_values (difficulty_level i)) (sorted_by_timestamp l).

Definition order_indices (n : nat) : list Z := map Z.of_nat (seq 0 n).

Definition series_mean (xs : list Z) : Q :=
  inject_Z (fold_right Z.add 0%Z xs) / inject_Z (len xs).

Definition deviations (xs : list Z) : list Q :=
  map (fun x => inject_Z x - series_mean xs) xs.

Definition dot (a b : list Q) : Q :=
  total (map (fun p => fst p * snd p) (combine a b)).

Definition covariation (xs ys : list Z) : Q := dot (deviations xs) (deviations ys).

Definition zero_variance (xs : list Z) : Prop := covariation xs xs == 0.

Definition pearson (xs ys : list Z) : R :=
  (Q2R (covariation xs ys)
   / sqrt (Q2R (covariation xs xs * covariation ys ys)))%R.


(** A series that starts at [a] and moves by the same step [d] each time. *)
Definition constant_step (a d : Z) (ys : list Z) : Prop :=
  ys = map (fun x => (a + d * x)%Z) (order_indices (length ys)).

(** The interactions the specification calls all-correct, low-latency,
    zero-hint and single-attempt. *)
Definition quick_unaided (i : LearningInteraction) : Prop :=
  is_correct i = true
  /\ response_time_seconds i <= 1
  /\ hints_used i = 0%Z
  /\ attempts i = 1%Z.

(** Agreement of two scores up to the tolerance customary for comparing
    floats in tests. *)
Definition float_tolerance : Q := 1e-6.
Definition approximately (a b : Q) : Prop := Qabs (a - b) <= float_tolerance.

(** ** Sample data for the concrete cases *)

Definition at_time (h m : Z) : datetime :=
  {| year := 2025; month := 1; day := 15;
     hour := h; minute := m; second := 0; microsecond := 0 |}.

Definition sample (content : string) (t : datetime) (d : LearningDifficulty)
    (correct : bool) (latency : Q) (hints tries : Z) : LearningInteraction :=
  {| interaction_id := "interaction_0123456789ab";
     user_id := "learner";
     session_id := "session_0123456789ab";
     timestamp := t;
     content_id := content;
     content_type := VOCABULARY;
     difficulty_level := d;
     question := "ni hao";
     user_answer := "hello";
     correct_answer := "hello";
     is_correct := correct;
     response_time_seconds := latency;
     confidence_level := None;
     hints_used := hints;
     attempts := tries;
     previous_attempts := [];
     session_position := 0;
     time_since_last_review := None |}.

(** One correct answer given in exactly one second, without hints, at the
    first attempt. *)
Definition one_second_answer : list LearningInteraction :=
  [sample "c1" (at_time 9 0) BEGINNER true 1 0 1].

(** Six interactions on one content, in time order: three correct, then
    three wrong. *)
Definition three_right_three_wrong : list LearningInteraction :=
  [sample "c1" (at_time 9 0) BEGINNER true 4 0 1;
   sample "c1" (at_time 9 10) BEGINNER true 4 0 1;
   sample "c1" (at_time 9 20) BEGINNER true 4 0 1;
   sample "c1" (at_time 9 30) BEGINNER false 4 0 1;
   sample "c1" (at_time 9 40) BEGINNER false 4 0 1;
   sample "c1" (at_time 9 50) BEGINNER false 4 0 1].

(** The same six interactions, recorded out of time order. *)
Definition three_right_three_wrong_shuffled : list LearningInteraction :=
  [sample "c1" (at_time 9 30) BEGINNER false 4 0 1;
   sample "c1" (at_time 9 0) BEGINNER true 4 0 1;
   sample "c1" (at_time 9 40) BEGINNER false 4 0 1;
   sample "c1" (at_time 9 10) BEGINNER true 4 0 1;
   sample "c1" (at_time 9 20) BEGINNER true 4 0 1;
   sample "c1" (at_time 9 50) BEGINNER false 4 0 1].

(** [n] correct answers in the hour [h], at minutes 0, 1, ... *)
Fixpoint correct_answers_at (h : Z) (n : nat) : list LearningInteraction :=
  match n with
  | O => []
  | S n' => correct_answers_at h n'
            ++ [sample "c1" (at_time h (Z.of_nat n')) BEGINNER true 4 0 1]
  end.

(** Three interactions in time order at the levels beginner, elementary,
    advanced (1, 2, 4), and three at advanced, elementary, beginner. *)
Definition rising_unevenly : list LearningInteraction :=
  [sample "c1" (at_time 9 0) BEGINNER true 4 0 1;
   sample "c2" (at_time 9 10) ELEMENTARY true 4 0 1;
   sample "c3" (at_time 9 20) ADVANCED true 4 0 1].


(** Levels 1, 3, 5 and 4, 3, 2, 1, recorded out of time order. *)
Definition rising_evenly : list LearningInteraction :=
  [sample "c2" (at_time 9 10) INTERMEDIATE true 4 0 1;
   sample "c3" (at_time 9 20) NATIVE true 4 0 1;
   sample "c1" (at_time 9 0) BEGINNER true 4 0 1].

Definition falling_evenly : list LearningInteraction :=
  [sample "c4" (at_time 10 30) BEGINNER true 4 0 1;
   sample "c1" (at_time 9 0) ADVANCED true 4 0 1;
   sample "c3" (at_time 9 20) ELEMENTARY true 4 0 1;
   sample "c2" (at_time 9 10) INTERMEDIATE true 4 0 1].



Definition negative_countless_hints_answer : list LearningInteraction :=
  [sample "c1" (at_time 9 0) BEGINNER true 4 (- 10 ^ 400) 1].

Definition boundless_progression : dict string Q :=
  [("difficulty_progression"%string, inject_Z (10 ^ 400))].

(** ** Notions for the further properties of Part IV *)

(** A float is within one part in [2^52] of the number it rounds.  A
    number that stays clear of a threshold by one part in [2^50] is on the
    same side of it after rounding, so that a test of the rounded number
    against the threshold has the result of the test of the number
    itself. *)
Definition rounding_margin : Q := 1 # (2 ^ 50).

Definition clearly_below (x threshold : Q) : Prop :=
  x < threshold * (1 - rounding_margin).


(** The mapped difficulty levels of the earliest and of the latest
    interaction. *)
Definition earliest_level (l : list LearningInteraction) : Z :=
  hd 0%Z (levels_in_time_order l).
Definition latest_level (l : list LearningInteraction) : Z :=
  last (levels_in_time_order l) 0%Z.

(** What [estimate_mastery_time] measures: the accuracy over the last ten
    interactions (or all, when fewer), and the seconds from the first
    interaction of the input to its last. *)
Definition recent_accuracy (l : list LearningInteraction) : Q :=
  fraction_correct (last_items (Z.to_nat (Z.min 10 (len l))) l).

Definition elapsed_seconds (l : list LearningInteraction) : Q :=
  match l with
  | [] => 0
  | first :: _ => total_seconds_between (timestamp (last l first)) (timestamp first)
  end.












(** What one strength, and one improvement area, adds to the
    recommendations. *)
Definition types_for (strength : string) : list ContentType :=
  if contains "vocabulary" (lower strength) then [VOCABULARY]
  else if contains "conversation" (lower strength) then [CONVERSATION]
  else [].

(** The two adaptation entries the code can emit. *)
Definition additional_practice : dict string value :=
  [("type"%string, Text "additional_practice");
   ("focus"%string, Text "vocabulary");
   ("duration_increase"%string, Number 0.3)].

Definition pacing_adjustment : dict string value :=
  [("type"%string, Text "pacing_adjustment");
   ("pacing_multiplier"%string, Number 0.8)].

Definition adaptations_for (area : string) : list (dict string value) :=
  if contains "vocabulary" (lower area) then [additional_practice]
  else if contains "response time" (lower area) then [pacing_adjustment]
  else [].



(** No two interactions carry the same timestamp. *)
Definition distinct_timestamps (l : list LearningInteraction) : Prop :=
  NoDup (map timestamp l).


(** Three wrong answers on one content, then a correct one. *)
Definition wrong_then_right : list LearningInteraction :=
  [sample "c1" (at_time 9 0) BEGINNER false 4 0 1;
   sample "c1" (at_time 9 10) BEGINNER false 4 0 1;
   sample "c1" (at_time 9 20) BEGINNER false 4 0 1;
   sample "c1" (at_time 9 30) BEGINNER true 4 0 1].

(** A wrong and a correct answer logged with one timestamp, and a wrong
    answer followed in the list by an earlier correct one. *)
Definition logged_at_once : list LearningInteraction :=
  [sample "c1" (at_time 9 0) BEGINNER false 4 0 1;
   sample "c2" (at_time 9 0) BEGINNER true 4 0 1].

Definition latest_first : list LearningInteraction :=
  [sample "c1" (at_time 9 10) BEGINNER false 4 0 1;
   sample "c2" (at_time 9 0) BEGINNER true 4 0 1].

(** A [timedelta(seconds=x)] that keeps the whole seconds, for the
    concrete cases. *)
Definition whole_seconds (x : Q) : outcome timedelta :=
  Returns {| td_days := 0; td_seconds := Qround.Qfloor x; td_microseconds := 0 |}.

(** Three interactions logged with one timestamp, at rising levels, and
    the same three the other way round. *)
Definition rising_at_once : list LearningInteraction :=
  [sample "c1" (at_time 9 0) BEGINNER true 4 0 1;
   sample "c2" (at_time 9 0) ELEMENTARY true 4 0 1;
   sample "c3" (at_time 9 0) INTERMEDIATE true 4 0 1].


(* ================================================================= *)
(** * Part III: properties *)
(* ================================================================= *)

(** ** Sums, counts and means *)

Lemma sum_int_acc (l : list Z) (a : Z) :
  fold_left Z.add l a = (a + fold_left Z.add l 0)%Z.
Proof.
  revert a; induction l as [|x l IH]; intros a; simpl.
  - lia.
  - rewrite (IH (a + x)%Z), (IH x). lia.
Qed.

Lemma sum_int_cons (x : Z) (l : list Z) : sum_int (x :: l) = (x + sum_int l)%Z.
Proof. unfold sum_int; simpl. apply sum_int_acc. Qed.

Lemma sum_float_acc (l : list Q) (a : Q) :
  fold_left Qplus l a == a + fold_left Qplus l 0.
Proof.
  revert a; induction l as [|x l IH]; intros a; simpl.
  - lra.
  - rewrite (IH (a + x)), (IH (0 + x)). lra.
Qed.

Lemma sum_float_cons (x : Q) (l : list Q) : sum_float (x :: l) == x + sum_float l.
Proof. unfold sum_float; simpl. rewrite sum_float_acc. lra. Qed.

Lemma sum_float_total (l : list Q) : sum_float l == total l.
Proof.
  induction l as [|x l IH].
  - reflexivity.
  - rewrite sum_float_cons, IH. reflexivity.
Qed.

Lemma count_if_length {A : Type} (p : A -> bool) (l : list A) :
  count_if p l = Z.of_nat (length (filter p l)).
Proof.
  unfold count_if. induction (filter p l) as [|x f IH].
  - reflexivity.
  - cbn [map]. rewrite sum_int_cons, IH. cbn [length]. lia.
Qed.


Lemma len_cons {A : Type} (x : A) (l : list A) : len (x :: l) = (1 + len l)%Z.
Proof. unfold len. cbn [length]. lia. Qed.

Lemma len_nonneg {A : Type} (l : list A) : (0 <= len l)%Z.
Proof. unfold len. lia. Qed.

Lemma len_pos {A : Type} (l : list A) : l <> [] -> (0 < len l)%Z.
Proof. destruct l; [congruence | rewrite len_cons; pose proof (len_nonneg l); lia]. Qed.

Lemma inject_Z_pos (n : Z) : (0 < n)%Z -> 0 < inject_Z n.
Proof. intros H. unfold Qlt, inject_Z; simpl. lia. Qed.

Lemma inject_Z_nonneg (n : Z) : (0 <= n)%Z -> 0 <= inject_Z n.
Proof. intros H. unfold Qle, inject_Z; simpl. lia. Qed.

(** ** When the fallible primitives return *)

Lemma truediv_returns (a b : Q) : ~ b == 0 -> truediv a b = Returns (a / b).
Proof.
  intros H. unfold truediv.
  destruct (Qeq_bool b 0) eqn:E; [|reflexivity].
  apply Qeq_bool_eq in E. contradiction.
Qed.

Lemma truediv_raises (a b : Q) : b == 0 -> truediv a b = Raises ZeroDivisionError.
Proof.
  intros H. unfold truediv. now rewrite (Qeq_eq_bool _ _ H).
Qed.

Lemma truediv_len {A : Type} (a : Q) (l : list A) :
  l <> [] -> truediv a (inject_Z (len l)) = Returns (a / inject_Z (len l)).
Proof.
  intros H. apply truediv_returns.
  pose proof (inject_Z_pos _ (len_pos l H)). lra.
Qed.

Lemma statistics_mean_returns (data : list Q) :
  data <> [] -> statistics_mean data = Returns (sum_float data / inject_Z (len data)).
Proof. destruct data; [congruence | reflexivity]. Qed.

Lemma statistics_mean_arithmetic (data : list Q) :
  sum_float data / inject_Z (len data) == arithmetic_mean data.
Proof. unfold arithmetic_mean. now rewrite sum_float_total. Qed.

Lemma total_bounds (lo hi : Q) (xs : list Q) :
  Forall (fun x => lo <= x /\ x <= hi) xs ->
  lo * inject_Z (len xs) <= total xs /\ total xs <= hi * inject_Z (len xs).
Proof.
  induction 1 as [|x xs [Hl Hh] _ [IHl IHh]].
  - change (inject_Z (len (@nil Q))) with 0. change (total []) with 0. split; lra.
  - rewrite len_cons, inject_Z_plus. cbn [total fold_right].
    fold (total xs). change (inject_Z 1) with 1. split; lra.
Qed.

Lemma arithmetic_mean_bounds (lo hi : Q) (xs : list Q) :
  xs <> [] ->
  Forall (fun x => lo <= x /\ x <= hi) xs ->
  lo <= arithmetic_mean xs /\ arithmetic_mean xs <= hi.
Proof.
  intros Hne HF. destruct (total_bounds lo hi xs HF) as [Hl Hh].
  pose proof (inject_Z_pos _ (len_pos xs Hne)) as Hpos.
  unfold arithmetic_mean. split.
  - apply Qle_shift_div_l; assumption.
  - apply Qle_shift_div_r; assumption.
Qed.

Lemma arithmetic_mean_lower (lo : Q) (xs : list Q) :
  xs <> [] -> Forall (fun x => lo <= x) xs -> lo <= arithmetic_mean xs.
Proof.
  intros Hne HF.
  assert (Hl : lo * inject_Z (len xs) <= total xs).
  { induction HF as [|x xs Hx _ IH].
    - congruence.
    - rewrite len_cons, inject_Z_plus. cbn [total fold_right]. fold (total xs).
      change (inject_Z 1) with 1.
      destruct xs as [|y xs].
      + change (inject_Z (len (@nil Q))) with 0. change (total []) with 0.
        lra.
      + assert (lo * inject_Z (len (y :: xs)) <= total (y :: xs)) by (apply IH; congruence).
        lra. }
  pose proof (inject_Z_pos _ (len_pos xs Hne)) as Hpos.
  unfold arithmetic_mean. apply Qle_shift_div_l; assumption.
Qed.

(** ** Immediate effectiveness *)

(** [lra] on [Q] does not read a division by a literal: [qlra] first turns
    [x / c] into [x * (1 # c)]. *)
Ltac qinv_literals :=
  unfold Qdiv in *;
  repeat match goal with
  | |- context [Qinv (Qmake ?n ?d)] =>
      let v := eval cbv in (Qinv (Qmake n d)) in
      change (Qinv (Qmake n d)) with v in *
  | H : context [Qinv (Qmake ?n ?d)] |- _ =>
      let v := eval cbv in (Qinv (Qmake n d)) in
      change (Qinv (Qmake n d)) with v in *
  end.
Ltac qlra := qinv_literals; lra.

Ltac qmax_cases x :=
  let E := fresh "E" in
  destruct (Q.max_spec 0 x) as [[? E]|[? E]]; rewrite E.

Ltac qmin_cases x y :=
  let E := fresh "E" in
  destruct (Q.min_spec x y) as [[? E]|[? E]]; rewrite E.


Lemma fraction_correct_all (l : list LearningInteraction) :
  l <> [] -> Forall (fun i => is_correct i = true) l -> fraction_correct l == 1.
Proof.
  intros Hne Hall. unfold fraction_correct, number_correct.
  assert (E : filter is_correct l = l).
  { induction Hall as [|i l Hi _ IH]; [reflexivity|].
    cbn [filter]. rewrite Hi. destruct l; [reflexivity|]. f_equal. apply IH. discriminate. }
  rewrite E. fold (len l).
  pose proof (inject_Z_pos _ (len_pos l Hne)). field. lra.
Qed.

Lemma mean_of_map_bounds {A : Type} (f : A -> Q) (lo hi : Q) (l : list A) :
  l <> [] ->
  Forall (fun a => lo <= f a /\ f a <= hi) l ->
  lo <= arithmetic_mean (map f l) /\ arithmetic_mean (map f l) <= hi.
Proof.
  intros Hne HF. apply arithmetic_mean_bounds.
  - destruct l; [congruence | discriminate].
  - apply Forall_map. exact HF.
Qed.

Lemma mean_of_map_lower {A : Type} (f : A -> Q) (lo : Q) (l : list A) :
  l <> [] -> Forall (fun a => lo <= f a) l -> lo <= arithmetic_mean (map f l).
Proof.
  intros Hne HF. apply arithmetic_mean_lower.
  - destruct l; [congruence | discriminate].
  - apply Forall_map. exact HF.
Qed.

Lemma mean_of_map_upper {A : Type} (f : A -> Q) (hi : Q) (l : list A) :
  l <> [] -> Forall (fun a => f a <= hi) l -> arithmetic_mean (map f l) <= hi.
Proof.
  intros Hne HF.
  assert (Hh : total (map f l) <= hi * inject_Z (len (map f l))).
  { clear Hne. induction HF as [|x xs Hx _ IH].
    - change (inject_Z (len (map f []))) with 0. cbn [map total fold_right]. lra.
    - cbn [map]. rewrite len_cons, inject_Z_plus. cbn [total fold_right].
      fold (total (map f xs)). change (inject_Z 1) with 1. lra. }
  assert (Hne' : map f l <> []) by (destruct l; [congruence | discriminate]).
  pose proof (inject_Z_pos _ (len_pos _ Hne')) as Hpos.
  unfold arithmetic_mean. apply Qle_shift_div_r; assumption.
Qed.

(** ** Ints and floats *)

Lemma float_overflow_bound_large : 2 <= inject_Z float_overflow_bound.
Proof.
  change 2 with (inject_Z 2). rewrite <- Zle_Qle. apply Z.leb_le. vm_compute. reflexivity.
Qed.

Lemma overflows_spec (x : Q) : overflows x = false <-> in_float_range x.
Proof.
  unfold overflows, in_float_range. split.
  - intros H. apply Qnot_le_lt. intros Hle. apply Qle_bool_iff in Hle. congruence.
  - intros H. destruct (Qle_bool _ _) eqn:E; [|reflexivity].
    apply Qle_bool_iff in E. apply Qlt_not_le in H. contradiction.
Qed.

Lemma overflows_true (x : Q) : overflows x = true <-> ~ in_float_range x.
Proof.
  rewrite <- overflows_spec. destruct (overflows x); split; congruence.
Qed.

Lemma in_float_range_bounds (x : Q) :
  in_float_range x
  <-> - inject_Z float_overflow_bound < x /\ x < inject_Z float_overflow_bound.
Proof. unfold in_float_range. apply Qabs_Qlt_condition. Qed.

Lemma in_float_range_compat (x y : Q) : x == y -> in_float_range x -> in_float_range y.
Proof. unfold in_float_range. intros E. now rewrite E. Qed.

Lemma bound_pred : inject_Z (float_overflow_bound - 1) == inject_Z float_overflow_bound - 1.
Proof. unfold Z.sub. rewrite inject_Z_plus. reflexivity. Qed.

Lemma in_float_range_int (z : Z) :
  in_float_range (inject_Z z)
  <-> - inject_Z (float_overflow_bound - 1) <= inject_Z z
      /\ inject_Z z <= inject_Z (float_overflow_bound - 1).
Proof.
  rewrite in_float_range_bounds. rewrite <- !inject_Z_opp.
  rewrite <- !Zlt_Qlt, <- !Zle_Qle. lia.
Qed.

Lemma to_float_returns (x : Q) : in_float_range x -> to_float x = Returns x.
Proof. intros H. unfold to_float. now rewrite (proj2 (overflows_spec x) H). Qed.

Lemma to_float_cases (x : Q) :
  (to_float x = Returns x /\ in_float_range x)
  \/ (to_float x = Raises OverflowError /\ ~ in_float_range x).
Proof.
  unfold to_float. destruct (overflows x) eqn:E.
  - right. split; [reflexivity|]. now apply overflows_true.
  - left. split; [reflexivity|]. now apply overflows_spec.
Qed.

Lemma truediv_literal_returns (x : Q) (c : Z) :
  in_float_range (x / inject_Z c) -> truediv_literal x c = Returns (x / inject_Z c).
Proof. intros H. unfold truediv_literal. now rewrite (proj2 (overflows_spec _) H). Qed.


Lemma sum_int_total (zs : list Z) : inject_Z (sum_int zs) == total (map inject_Z zs).
Proof.
  induction zs as [|z zs IH]; [reflexivity|].
  rewrite sum_int_cons, inject_Z_plus, IH. reflexivity.
Qed.

Lemma mean_int_arithmetic {A : Type} (f : A -> Z) (l : list A) :
  inject_Z (sum_int (map f l)) / inject_Z (len (map f l))
  == arithmetic_mean (map (fun a => inject_Z (f a)) l).
Proof.
  unfold arithmetic_mean. rewrite sum_int_total, map_map.
  unfold len. now rewrite !length_map.
Qed.


Lemma statistics_mean_int_returns (data : list Z) :
  data <> [] ->
  in_float_range (inject_Z (sum_int data) / inject_Z (len data)) ->
  statistics_mean_int data = Returns (inject_Z (sum_int data) / inject_Z (len data)).
Proof.
  destruct data as [|z data]; [congruence|]. intros _ H. unfold statistics_mean_int.
  destruct (_ =? 0)%Z; [reflexivity|]. now apply to_float_returns.
Qed.

(** The mean of ints within the float range is within it. *)
Lemma mean_in_float_range {A : Type} (f : A -> Z) (l : list A) :
  l <> [] ->
  Forall (fun a => in_float_range (inject_Z (f a))) l ->
  - (inject_Z float_overflow_bound - 1) <= arithmetic_mean (map (fun a => inject_Z (f a)) l)
  /\ arithmetic_mean (map (fun a => inject_Z (f a)) l) <= inject_Z float_overflow_bound - 1.
Proof.
  intros Hne HF. rewrite <- bound_pred. apply mean_of_map_bounds; [assumption|].
  eapply Forall_impl; [|exact HF]. intros a Ha. now apply in_float_range_int.
Qed.

(** The immediate score and its formula *)

Lemma immediate_body (l : list LearningInteraction) :
  l <> [] ->
  _calculate_immediate_effectiveness l
  = (avg_hints <- statistics_mean_int (map hints_used l) ;;
     avg_attempts <- statistics_mean_int (map attempts l) ;;
     hints_term <- truediv_literal avg_hints 3 ;;
     attempts_term <- truediv_literal (avg_attempts - 1) 2 ;;
     Returns (inject_Z (count_if is_correct l) / inject_Z (len l) * 0.5
              + Qmax 0 (1 - sum_float (map response_time_seconds l)
                            / inject_Z (len (map response_time_seconds l)) / 30) * 0.3
              + Qmax 0 (1 - hints_term - attempts_term) * 0.2)).
Proof.
  intros Hne. unfold _calculate_immediate_effectiveness.
  destruct l as [|i l']; [congruence|]. set (l := i :: l') in *.
  rewrite truediv_len by assumption.
  rewrite statistics_mean_returns by (subst l; discriminate).
  reflexivity.
Qed.

Lemma immediate_value (l : list LearningInteraction) :
  inject_Z (count_if is_correct l) / inject_Z (len l) * 0.5
  + Qmax 0 (1 - sum_float (map response_time_seconds l)
                / inject_Z (len (map response_time_seconds l)) / 30) * 0.3
  + Qmax 0 (1 - inject_Z (sum_int (map hints_used l)) / inject_Z (len (map hints_used l))
                / inject_Z 3
              - (inject_Z (sum_int (map attempts l)) / inject_Z (len (map attempts l)) - 1)
                / inject_Z 2) * 0.2
  == immediate_formula l.
Proof.
  unfold immediate_formula, fraction_correct, number_correct.
  rewrite count_if_length, statistics_mean_arithmetic, !mean_int_arithmetic.
  reflexivity.
Qed.



Lemma immediate_returns (l : list LearningInteraction) :
  l <> [] ->
  Forall counts_in_float_range l ->
  exists v, _calculate_immediate_effectiveness l = Returns v /\ v == immediate_formula l.
Proof.
  intros Hne Hr. rewrite immediate_body by assumption.
  assert (Hh : map hints_used l <> []) by (destruct l; [congruence | discriminate]).
  assert (Ha : map attempts l <> []) by (destruct l; [congruence | discriminate]).
  pose proof (mean_in_float_range hints_used l Hne) as Bh.
  pose proof (mean_in_float_range attempts l Hne) as Ba.
  rewrite <- !mean_int_arithmetic in Bh, Ba.
  specialize (Bh ltac:(eapply Forall_impl; [|exact Hr]; intros i Hi; apply Hi)).
  specialize (Ba ltac:(eapply Forall_impl; [|exact Hr]; intros i Hi; apply Hi)).
  pose proof float_overflow_bound_large as Hb.
  set (mh := inject_Z (sum_int (map hints_used l)) / inject_Z (len (map hints_used l))) in *.
  set (ma := inject_Z (sum_int (map attempts l)) / inject_Z (len (map attempts l))) in *.
  pose proof (immediate_value l) as Hv. fold mh ma in Hv.
  set (b := inject_Z float_overflow_bound) in *.
  rewrite (statistics_mean_int_returns _ Hh)
    by (apply in_float_range_bounds; fold mh b; clearbody mh b; split; lra).
  rewrite (statistics_mean_int_returns _ Ha)
    by (apply in_float_range_bounds; fold ma b; clearbody ma b; split; lra).
  cbn [bind]. fold mh ma.
  rewrite (truediv_literal_returns mh 3)
    by (apply in_float_range_bounds; fold b; change (inject_Z 3) with 3;
        clearbody mh b; split; qlra).
  cbn [bind].
  rewrite (truediv_literal_returns (ma - 1) 2)
    by (apply in_float_range_bounds; fold b; change (inject_Z 2) with 2;
        clearbody ma b; split; qlra).
  cbn [bind]. eexists. split; [reflexivity|]. exact Hv.
Qed.




Lemma small_count_in_float_range (z : Z) :
  (-1 <= z <= 1)%Z -> in_float_range (inject_Z z).
Proof.
  intros Hz. apply in_float_range_bounds.
  pose proof float_overflow_bound_large as Hb.
  assert (H1 : -1 <= inject_Z z) by (change (-1) with (inject_Z (-1)); rewrite <- Zle_Qle; lia).
  assert (H2 : inject_Z z <= 1) by (change 1 with (inject_Z 1); rewrite <- Zle_Qle; lia).
  set (b := inject_Z float_overflow_bound) in *. clearbody b. split; lra.
Qed.

Lemma quick_unaided_counts (l : list LearningInteraction) :
  Forall quick_unaided l -> Forall counts_in_float_range l.
Proof.
  intros Hq. eapply Forall_impl; [|exact Hq]. intros i (_ & _ & Hh & Ha).
  unfold counts_in_float_range. rewrite Hh, Ha.
  split; apply small_count_in_float_range; lia.
Qed.

Lemma immediate_quick_unaided (l : list LearningInteraction) :
  l <> [] -> Forall quick_unaided l ->
  immediate_formula l
  == 0.5 + Qmax 0 (1 - arithmetic_mean (map response_time_seconds l) / 30) * 0.3 + 0.2
  /\ arithmetic_mean (map response_time_seconds l) <= 1.
Proof.
  intros Hne Hq. unfold immediate_formula.
  assert (Hacc : fraction_correct l == 1).
  { apply fraction_correct_all; [assumption|].
    eapply Forall_impl; [|exact Hq]. intros i Hi. apply Hi. }
  assert (Hh : 0 <= arithmetic_mean (map (fun i => inject_Z (hints_used i)) l)
               /\ arithmetic_mean (map (fun i => inject_Z (hints_used i)) l) <= 0).
  { apply mean_of_map_bounds; [assumption|].
    eapply Forall_impl; [|exact Hq]. intros i (_ & _ & Hi & _).
    rewrite Hi. change (inject_Z 0) with 0. split; lra. }
  assert (Hat : 1 <= arithmetic_mean (map (fun i => inject_Z (attempts i)) l)
               /\ arithmetic_mean (map (fun i => inject_Z (attempts i)) l) <= 1).
  { apply mean_of_map_bounds; [assumption|].
    eapply Forall_impl; [|exact Hq]. intros i (_ & _ & _ & Hi).
    rewrite Hi. change (inject_Z 1) with 1. split; lra. }
  assert (Hlat : arithmetic_mean (map response_time_seconds l) <= 1).
  { apply mean_of_map_upper; [assumption|].
    eapply Forall_impl; [|exact Hq]. intros i Hi. apply Hi. }
  split; [|assumption].
  set (h := arithmetic_mean (map (fun i => inject_Z (hints_used i)) l)) in *.
  set (a := arithmetic_mean (map (fun i => inject_Z (attempts i)) l)) in *.
  rewrite Hacc. clearbody h a.
  qmax_cases (1 - h / 3 - (a - 1) / 2); qlra.
Qed.

(** ** Progression effectiveness *)

Lemma progression_body (progress_data : dict string Q) :
  progress_data <> [] ->
  _calculate_progression_effectiveness progress_data
  = (progression_ratio <-
       truediv_float
         (dict_get_default String.eqb "difficulty_progression"%string 0 progress_data) 5.0 ;;
     velocity_ratio <-
       truediv_float
         (dict_get_default String.eqb "learning_velocity"%string 0 progress_data) 10.0 ;;
     mastery_term <-
       mul_float
         (Qmin (dict_get_default String.eqb "mastery_rate"%string 0 progress_data) 1.0) 0.4 ;;
     Returns (Qmin progression_ratio 1.0 * 0.4
              + mastery_term
              + Qmin velocity_ratio 1.0 * 0.2)).
Proof.
  intros Hne. unfold _calculate_progression_effectiveness.
  destruct progress_data as [|e d']; [congruence|]. reflexivity.
Qed.

Lemma progression_value (dp mr lv : Q) :
  Qmin (dp / 5.0) 1.0 * 0.4 + Qmin mr 1.0 * 0.4 + Qmin (lv / 10.0) 1.0 * 0.2
  == progression_formula dp mr lv.
Proof.
  unfold progression_formula, normalized.
  assert (E1 : dp / 5.0 == dp / 5) by qlra.
  assert (E2 : lv / 10.0 == lv / 10) by qlra.
  assert (E3 : mr / 1 == mr) by qlra.
  assert (E4 : 1.0 == 1) by reflexivity.
  rewrite E1, E2, E3, E4. reflexivity.
Qed.

Lemma capped_in_float_range (x : Q) : in_float_range x -> in_float_range (Qmin x 1.0).
Proof.
  intros H. apply in_float_range_bounds in H. apply in_float_range_bounds.
  pose proof float_overflow_bound_large as Hb.
  set (b := inject_Z float_overflow_bound) in *. clearbody b.
  qmin_cases x 1.0; split; lra.
Qed.

(** Whatever the summary holds, the progression score is the value of its
    formula, unless [OverflowError] is raised, which takes a field beyond
    the float range. *)
Lemma progression_cases (progress_data : dict string Q) :
  progress_data <> [] ->
  (exists v,
     _calculate_progression_effectiveness progress_data = Returns v
     /\ v == progression_formula
              (dict_get_default String.eqb "difficulty_progression"%string 0 progress_data)
              (dict_get_default String.eqb "mastery_rate"%string 0 progress_data)
              (dict_get_default String.eqb "learning_velocity"%string 0 progress_data))
  \/ (_calculate_progression_effectiveness progress_data = Raises OverflowError
      /\ ~ summary_in_float_range progress_data).
Proof.
  intros Hne. rewrite progression_body by assumption.
  unfold summary_in_float_range, truediv_float, mul_float.
  set (dp := dict_get_default _ "difficulty_progression"%string _ _).
  set (mr := dict_get_default _ "mastery_rate"%string _ _).
  set (lv := dict_get_default _ "learning_velocity"%string _ _).
  destruct (to_float_cases dp) as [[-> _] | [-> H]];
    [|right; split; [reflexivity | tauto]].
  cbn [bind].
  destruct (to_float_cases lv) as [[-> _] | [-> H]];
    [|right; split; [reflexivity | tauto]].
  cbn [bind].
  destruct (to_float_cases (Qmin mr 1.0)) as [[-> _] | [-> H]].
  - cbn [bind]. left. eexists. split; [reflexivity|]. apply progression_value.
  - right. split; [reflexivity|]. intros (_ & Hmr & _). apply H.
    now apply capped_in_float_range.
Qed.

Lemma progression_returns (progress_data : dict string Q) :
  progress_data <> [] ->
  summary_in_float_range progress_data ->
  exists v,
    _calculate_progression_effectiveness progress_data = Returns v
    /\ v == progression_formula
            (dict_get_default String.eqb "difficulty_progression"%string 0 progress_data)
            (dict_get_default String.eqb "mastery_rate"%string 0 progress_data)
            (dict_get_default String.eqb "learning_velocity"%string 0 progress_data).
Proof.
  intros Hne Hr. destruct (progression_cases progress_data Hne) as [H | [_ H]];
    [exact H | contradiction].
Qed.

Lemma progression_raises (progress_data : dict string Q) (e : exn) :
  _calculate_progression_effectiveness progress_data = Raises e ->
  e = OverflowError /\ ~ summary_in_float_range progress_data.
Proof.
  destruct progress_data as [|x d']; [discriminate|].
  destruct (progression_cases (x :: d')) as [(v & E & _) | [E H]]; [discriminate | |];
    rewrite E; intros He; [discriminate|].
  split; [congruence | assumption].
Qed.







(** C6. On the empty sequence immediate effectiveness returns 0.0 and the
    real-time score returns 0.5; both return, neither raises. *)
Theorem empty_sequence_defaults :
  (exists v, _calculate_immediate_effectiveness [] = Returns v /\ v == 0)
  /\ calculate_real_time_effectiveness [] = Returns (1 / 2)%R.
Proof.
  split.
  - exists 0.0. split; reflexivity.
  - unfold calculate_real_time_effectiveness. f_equal. lra.
Qed.

(** C8, as stated, fails: on the summary that holds a difficulty
    progression of [10^400] and nothing else, min(value/cap, 1.0) and the
    weights give 0.4, and the code returns no score but raises
    [OverflowError], where the int is divided by 5.0. *)
Lemma boundless_progression_no_score :
  boundless_progression <> []
  /\ Qmin (dict_get_default String.eqb "difficulty_progression"%string 0
             boundless_progression / 5) 1 * 0.4
     + Qmin (dict_get_default String.eqb "mastery_rate"%string 0
               boundless_progression / 1) 1 * 0.4
     + Qmin (dict_get_default String.eqb "learning_velocity"%string 0
               boundless_progression / 10) 1 * 0.2 == 0.4
  /\ _calculate_progression_effectiveness boundless_progression = Raises OverflowError.
Proof.
  split; [discriminate|]. split; vm_compute; reflexivity.
Qed.

(** C8, amended. Progression effectiveness is 0.5 on the empty summary; on
    a summary whose fields are within the range of a float it is
    min(difficulty_progression/5, 1) * 0.4 + min(mastery_rate/1.0, 1)
    * 0.4 + min(learning_velocity/10, 1) * 0.2, a missing field reading as
    0; on any other summary it is that value too, unless [OverflowError]
    is raised for a field beyond that range; on difficulty_progression 5,
    mastery_rate 1.0, learning_velocity 10 it is 1. *)
Theorem progression_effectiveness_formula :
  (exists v, _calculate_progression_effectiveness [] = Returns v /\ v == 1 # 2)
  /\ (forall progress_data,
        progress_data <> [] ->
        summary_in_float_range progress_data ->
        exists v,
          _calculate_progression_effectiveness progress_data = Returns v
          /\ v == Qmin (dict_get_default String.eqb "difficulty_progression"%string 0
                                        progress_data / 5) 1 * 0.4
                  + Qmin (dict_get_default String.eqb "mastery_rate"%string 0
                                           progress_data / 1) 1 * 0.4
                  + Qmin (dict_get_default String.eqb "learning_velocity"%string 0
                                           progress_data / 10) 1 * 0.2)
  /\ (forall progress_data,
        progress_data <> [] ->
        (exists v,
           _calculate_progression_effectiveness progress_data = Returns v
           /\ v == progression_formula
                    (dict_get_default String.eqb "difficulty_progression"%string 0
                       progress_data)
                    (dict_get_default String.eqb "mastery_rate"%string 0 progress_data)
                    (dict_get_default String.eqb "learning_velocity"%string 0
                       progress_data))
        \/ (_calculate_progression_effectiveness progress_data = Raises OverflowError
            /\ ~ summary_in_float_range progress_data))
  /\ (exists v,
        _calculate_progression_effectiveness
          [("difficulty_progression"%string, 5);
           ("mastery_rate"%string, 1.0);
           ("learning_velocity"%string, 10)] = Returns v
        /\ v == 1).
Proof.
  split; [|split; [|split]].
  - exists 0.5. split; reflexivity.
  - intros progress_data Hne Hr. exact (progression_returns progress_data Hne Hr).
  - exact progression_cases.
  - eexists. split; [vm_compute; reflexivity|]. reflexivity.
Qed.

Lemma progression_effectiveness_formula_witness :
  exists v,
    _calculate_progression_effectiveness
      [("mastery_rate"%string, 3 # 4); ("learning_velocity"%string, 25)] = Returns v
    /\ v == Qmin (dict_get_default String.eqb "difficulty_progression"%string 0
                   [("mastery_rate"%string, 3 # 4); ("learning_velocity"%string, 25)] / 5) 1
            * 0.4
            + Qmin (dict_get_default String.eqb "mastery_rate"%string 0
                   [("mastery_rate"%string, 3 # 4); ("learning_velocity"%string, 25)] / 1) 1
              * 0.4
            + Qmin (dict_get_default String.eqb "learning_velocity"%string 0
                   [("mastery_rate"%string, 3 # 4); ("learning_velocity"%string, 25)] / 10) 1
              * 0.2.
Proof.
  apply (proj1 (proj2 progression_effectiveness_formula)
           [("mastery_rate"%string, 3 # 4); ("learning_velocity"%string, 25)]).
  - discriminate.
  - repeat split; vm_compute; reflexivity.
Defined.

(** Any tolerance below one hundredth separates the score of
    [one_second_answer] from 1. *)
Lemma one_second_answer_gap (tol : Q) :
  tol < 1 # 100 ->
  exists v,
    _calculate_immediate_effectiveness one_second_answer = Returns v
    /\ ~ Qabs (v - 1) <= tol.
Proof.
  intros Htol. eexists. split; [vm_compute; reflexivity|].
  intros H. apply Qabs_Qle_condition in H. destruct H as [H _].
  match type of H with
  | - tol <= ?v - 1 => assert (E : v - 1 == - (1 # 100)) by reflexivity
  end.
  rewrite E in H. lra.
Qed.

(** C9, as stated, fails: one correct, unaided, single-attempt answer given
    in exactly one second scores 0.99, which is not 1.0 up to a
    floating-point tolerance. *)
Lemma quick_unaided_not_approximately_one :
  one_second_answer <> []
  /\ Forall quick_unaided one_second_answer
  /\ exists v,
       _calculate_immediate_effectiveness one_second_answer = Returns v
       /\ v == 99 # 100
       /\ ~ approximately v 1.
Proof.
  split; [discriminate|]. split.
  - repeat constructor; vm_compute; congruence.
  - eexists. split; [vm_compute; reflexivity|]. split; [reflexivity|].
    unfold approximately. vm_compute. intros H. apply H. reflexivity.
Qed.

(** C9, amended. On a non-empty sequence of correct, zero-hint,
    single-attempt interactions with latencies between 0 and 1 second,
    immediate effectiveness is 1 - avg_latency / 100, hence between 0.99
    and 1.0. *)
Theorem quick_unaided_immediate_range (l : list LearningInteraction) :
  l <> [] ->
  Forall quick_unaided l ->
  Forall (fun i => 0 <= response_time_seconds i) l ->
  exists v,
    _calculate_immediate_effectiveness l = Returns v
    /\ v == 1 - arithmetic_mean (map response_time_seconds l) / 100
    /\ 99 # 100 <= v
    /\ v <= 1.
Proof.
  intros Hne Hq Hpos.
  destruct (immediate_returns l Hne (quick_unaided_counts l Hq)) as (v & Hr & Hf).
  destruct (immediate_quick_unaided l Hne Hq) as [Hq1 Hq2].
  pose proof (mean_of_map_lower response_time_seconds 0 l Hne Hpos) as Hq3.
  exists v. split; [assumption|].
  rewrite Hf, Hq1.
  set (avg := arithmetic_mean (map response_time_seconds l)) in *. clearbody avg.
  qmax_cases (1 - avg / 30); repeat split; qlra.
Qed.

Lemma quick_unaided_immediate_range_witness :
  exists v,
    _calculate_immediate_effectiveness one_second_answer = Returns v
    /\ v == 1 - arithmetic_mean (map response_time_seconds one_second_answer) / 100
    /\ 99 # 100 <= v
    /\ v <= 1.
Proof.
  apply (quick_unaided_immediate_range one_second_answer).
  - discriminate.
  - repeat constructor; vm_compute; congruence.
  - repeat constructor; vm_compute; congruence.
Defined.

(** ** Dictionaries and grouping *)

Lemma filter_and {A : Type} (p q : A -> bool) (l : list A) :
  filter (fun a => p a && q a) l = filter p (filter q l).
Proof.
  induction l as [|a l IH]; [reflexivity|]. cbn [filter].
  destruct (q a); cbn [filter]; destruct (p a); cbn [andb]; now rewrite IH.
Qed.

Lemma filter_absorb {A : Type} (p q : A -> bool) (l : list A) :
  (forall a, In a l -> p a = true -> q a = true) ->
  filter p (filter q l) = filter p l.
Proof.
  intros H. rewrite <- filter_and. apply filter_ext_in.
  intros a Hin. destruct (p a) eqn:E; [|reflexivity].
  now rewrite (H a Hin E).
Qed.

Section DictFacts.
Context {K V : Type} (eqb : K -> K -> bool).
Hypothesis eqb_spec : forall a b, eqb a b = true <-> a = b.

Lemma eqb_refl (a : K) : eqb a a = true.
Proof. now apply eqb_spec. Qed.

Lemma eqb_neq (a b : K) : eqb a b = false <-> a <> b.
Proof.
  split.
  - intros H E. apply eqb_spec in E. congruence.
  - intros H. destruct (eqb a b) eqn:E; [|reflexivity].
    apply eqb_spec in E. contradiction.
Qed.

Lemma eqb_sym (a b : K) : eqb a b = eqb b a.
Proof.
  destruct (eqb a b) eqn:E.
  - apply eqb_spec in E. subst. symmetry. apply eqb_refl.
  - apply eqb_neq in E. symmetry. apply eqb_neq. congruence.
Qed.

Lemma dict_mem_In (k : K) (d : dict K V) :
  dict_mem eqb k d = true <-> In k (map fst d).
Proof.
  induction d as [|[k' v] d IH]; cbn [dict_mem map fst In].
  - split; [discriminate | tauto].
  - destruct (eqb k k') eqn:E.
    + apply eqb_spec in E. subst. tauto.
    + apply eqb_neq in E. rewrite IH. split; [tauto | intros [H|H]; congruence].
Qed.

Lemma dict_mem_app (k : K) (d1 d2 : dict K V) :
  dict_mem eqb k (d1 ++ d2) = dict_mem eqb k d1 || dict_mem eqb k d2.
Proof.
  induction d1 as [|[k' v] d1 IH]; cbn [dict_mem app]; [reflexivity|].
  destruct (eqb k k'); [reflexivity | exact IH].
Qed.

Lemma dict_set_fresh (k : K) (v : V) (d : dict K V) :
  dict_mem eqb k d = false -> dict_set eqb k v d = d ++ [(k, v)].
Proof.
  induction d as [|[k' v'] d IH]; cbn [dict_mem dict_set app]; [reflexivity|].
  destruct (eqb k k'); [discriminate|]. intros H. now rewrite IH.
Qed.

Lemma dict_set_last (k : K) (v w : V) (d : dict K V) :
  dict_mem eqb k d = false -> dict_set eqb k v (d ++ [(k, w)]) = d ++ [(k, v)].
Proof.
  induction d as [|[k' v'] d IH]; cbn [dict_mem dict_set app].
  - now rewrite eqb_refl.
  - destruct (eqb k k'); [discriminate|]. intros H. now rewrite IH.
Qed.

Lemma dict_get_last (k : K) (w : V) (d : dict K V) :
  dict_mem eqb k d = false -> dict_get eqb k (d ++ [(k, w)]) = Some w.
Proof.
  induction d as [|[k' v'] d IH]; cbn [dict_mem dict_get app].
  - now rewrite eqb_refl.
  - destruct (eqb k k'); [discriminate | exact IH].
Qed.
End DictFacts.

Section GroupingFacts.
Context {K A V : Type} (eqb : K -> K -> bool) (key : A -> K) (val : A -> V).
Hypothesis eqb_spec : forall a b, eqb a b = true <-> a = b.

(** Appending [v] to the group of a key already present. *)
Lemma dict_set_append (k : K) (v : V) (d : dict K (list V)) :
  NoDup (map fst d) ->
  dict_mem eqb k d = true ->
  dict_set eqb k (dict_get_default eqb k [] d ++ [v]) d
  = map (fun e => (fst e, snd e ++ (if eqb k (fst e) then [v] else []))) d.
Proof.
  induction d as [|[k' g] d IH]; cbn [dict_mem dict_set map fst snd]; [discriminate|].
  intros Hnd Hmem. inversion Hnd as [|? ? Hnotin Hnd']; subst.
  unfold dict_get_default. cbn [dict_get].
  destruct (eqb k k') eqn:E.
  - apply eqb_spec in E. subst k'. f_equal.
    rewrite <- (map_id d) at 1. apply map_ext_in.
    intros [k2 g2] Hin. cbn [fst snd].
    destruct (eqb k k2) eqn:E2.
    + apply eqb_spec in E2. subst k2. exfalso. apply Hnotin.
      apply (in_map fst) in Hin. exact Hin.
    + now rewrite app_nil_r.
  - rewrite app_nil_r. f_equal. apply (IH Hnd' Hmem).
Qed.

Lemma group_step_present (d : dict K (list V)) (x : A) :
  NoDup (map fst d) ->
  dict_mem eqb (key x) d = true ->
  group_step eqb key val d x
  = map (fun e => (fst e, snd e ++ (if eqb (key x) (fst e) then [val x] else []))) d.
Proof.
  intros Hnd Hmem. unfold group_step. rewrite Hmem.
  now apply dict_set_append.
Qed.

Lemma group_step_fresh (d : dict K (list V)) (x : A) :
  dict_mem eqb (key x) d = false ->
  group_step eqb key val d x = d ++ [(key x, [val x])].
Proof.
  intros Hmem. unfold group_step. rewrite Hmem.
  rewrite (dict_set_fresh eqb (key x) [] d Hmem).
  unfold dict_get_default.
  rewrite (dict_get_last eqb eqb_spec (key x) [] d Hmem).
  apply (dict_set_last eqb eqb_spec); assumption.
Qed.

Lemma group_fold (l : list A) :
  forall d : dict K (list V),
    NoDup (map fst d) ->
    fold_left (group_step eqb key val) l d
    = map (fun e => (fst e, snd e ++ filed_under eqb key val (fst e) l)) d
      ++ map (fun k => (k, filed_under eqb key val k l))
             (filter (fun k => negb (dict_mem eqb k d)) (distinct eqb (map key l))).
Proof.
  induction l as [|x l IH]; intros d Hnd.
  - cbn. rewrite app_nil_r. rewrite <- (map_id d) at 1. apply map_ext.
    intros [k g]. cbn. now rewrite app_nil_r.
  - cbn [fold_left map distinct filter].
    destruct (dict_mem eqb (key x) d) eqn:Hmem; cbn [negb].
    + rewrite (group_step_present d x Hnd Hmem).
      rewrite IH by (rewrite map_map; cbn [fst]; exact Hnd).
      rewrite map_map. cbn [fst snd]. f_equal.
      * apply map_ext. intros [k g]. cbn [fst snd]. f_equal.
        rewrite <- app_assoc. f_equal. unfold filed_under. cbn [filter].
        rewrite (eqb_sym eqb eqb_spec (key x) k).
        destruct (eqb k (key x)); reflexivity.
      * assert (Hm : forall k,
                  dict_mem eqb k
                    (map (fun e : K * list V =>
                            (fst e, snd e ++ (if eqb (key x) (fst e) then [val x] else []))) d)
                  = dict_mem eqb k d).
        { intros k. clear. induction d as [|[k' g] d IHd]; cbn; [reflexivity|].
          now rewrite IHd. }
        rewrite (filter_ext _ _ (fun k => f_equal negb (Hm k))).
        rewrite filter_absorb.
        2:{ intros k _ Hk. destruct (eqb k (key x)) eqn:E; [|reflexivity].
            apply eqb_spec in E. subst k. rewrite Hmem in Hk. discriminate. }
        apply map_ext_in. intros k Hin.
        apply filter_In in Hin. destruct Hin as [_ Hk].
        unfold filed_under. cbn [filter].
        destruct (eqb (key x) k) eqn:E; [|reflexivity].
        apply eqb_spec in E. subst k. rewrite Hmem in Hk. discriminate.
    + rewrite (group_step_fresh d x Hmem).
      assert (Hfresh : ~ In (key x) (map fst d)).
      { intros Hin. apply (dict_mem_In eqb eqb_spec) in Hin. congruence. }
      rewrite IH.
      2:{ rewrite map_app. cbn [map fst]. apply NoDup_app.
          - exact Hnd.
          - constructor; [intros [] | constructor].
          - intros k Hk [E|[]]. subst k. contradiction. }
      rewrite map_app. cbn [map fst snd]. rewrite <- app_assoc. cbn [app].
      f_equal; [|f_equal].
      * apply map_ext_in. intros [k g] Hin. cbn [fst snd]. f_equal. f_equal.
        unfold filed_under. cbn [filter].
        destruct (eqb (key x) k) eqn:E; [|reflexivity].
        apply eqb_spec in E. subst k. exfalso. apply Hfresh.
        apply (in_map fst) in Hin. exact Hin.
      * unfold filed_under. cbn [filter]. rewrite (eqb_refl eqb eqb_spec). reflexivity.
      * rewrite (filter_ext _ (fun k => negb (dict_mem eqb k d) && negb (eqb k (key x)))).
        2:{ intros k. rewrite dict_mem_app. cbn [dict_mem].
            destruct (eqb k (key x)), (dict_mem eqb k d); reflexivity. }
        rewrite filter_and.
        apply map_ext_in. intros k Hin.
        apply filter_In in Hin. destruct Hin as [Hin _].
        apply filter_In in Hin. destruct Hin as [_ Hk].
        unfold filed_under. cbn [filter].
        rewrite (eqb_sym eqb eqb_spec (key x) k).
        destruct (eqb k (key x)); [discriminate | reflexivity].
Qed.

Lemma group_by_distinct (l : list A) :
  group_by eqb key val l
  = map (fun k => (k, filed_under eqb key val k l)) (distinct eqb (map key l)).
Proof.
  unfold group_by. rewrite group_fold by constructor.
  cbn [map app dict_mem negb].
  f_equal. clear. induction (distinct eqb (map key l)) as [|k ks IH]; [reflexivity|].
  cbn [filter]. now rewrite IH.
Qed.

Lemma distinct_In (k : K) (l : list K) : In k (distinct eqb l) <-> In k l.
Proof.
  induction l as [|k' l IH]; cbn [distinct In]; [tauto|].
  rewrite filter_In, IH. split.
  - tauto.
  - intros [H|H]; [tauto|].
    destruct (eqb k k') eqn:E.
    + apply eqb_spec in E. left. congruence.
    + right. split; [assumption | reflexivity].
Qed.

Lemma distinct_NoDup (l : list K) : NoDup (distinct eqb l).
Proof.
  induction l as [|k l IH]; cbn [distinct]; constructor.
  - rewrite filter_In. intros [_ H]. cbv beta in H.
    rewrite (eqb_refl eqb eqb_spec) in H. discriminate.
  - apply NoDup_filter. exact IH.
Qed.
End GroupingFacts.

(** ** Sorting by timestamp *)

Lemma lex_ltb_asym (a b : list Z) : lex_ltb a b = true -> lex_ltb b a = false.
Proof.
  revert b; induction a as [|x a IH]; intros [|y b]; cbn [lex_ltb]; try congruence.
  destruct (x <? y)%Z eqn:E1, (y <? x)%Z eqn:E2; try congruence.
  - apply Z.ltb_lt in E1, E2. lia.
  - apply IH.
Qed.

Lemma datetime_ltb_asym (a b : datetime) :
  datetime_ltb a b = true -> datetime_ltb b a = false.
Proof. apply lex_ltb_asym. Qed.

Lemma lex_ltb_trans (a : list Z) :
  forall b c, lex_ltb a b = true -> lex_ltb b c = true -> lex_ltb a c = true.
Proof.
  induction a as [|x a IH]; intros [|y b] [|z c]; cbn [lex_ltb]; try congruence.
  destruct (x <? y)%Z eqn:Exy, (y <? x)%Z eqn:Eyx; try congruence;
    destruct (y <? z)%Z eqn:Eyz, (z <? y)%Z eqn:Ezy; try congruence;
    destruct (x <? z)%Z eqn:Exz; try reflexivity; intros H1 H2;
    try apply Z.ltb_lt in Exy; try apply Z.ltb_lt in Eyz;
    try apply Z.ltb_ge in Exy; try apply Z.ltb_ge in Eyx;
    try apply Z.ltb_ge in Eyz; try apply Z.ltb_ge in Ezy;
    try apply Z.ltb_ge in Exz; try lia.
  assert (x = z) by lia. subst z. rewrite Z.ltb_irrefl. now apply (IH b c).
Qed.

Lemma lex_ltb_total (a : list Z) :
  forall b, length a = length b -> lex_ltb a b = false -> lex_ltb b a = false -> a = b.
Proof.
  induction a as [|x a IH]; intros [|y b]; cbn [lex_ltb length]; try congruence.
  intros Hlen. destruct (x <? y)%Z eqn:Exy; [congruence|].
  destruct (y <? x)%Z eqn:Eyx; [congruence|].
  apply Z.ltb_ge in Exy, Eyx. intros H1 H2. f_equal; [lia|].
  apply IH; [lia | assumption | assumption].
Qed.

Lemma datetime_ltb_trans (a b c : datetime) :
  datetime_ltb a b = true -> datetime_ltb b c = true -> datetime_ltb a c = true.
Proof. apply lex_ltb_trans. Qed.

Lemma datetime_ltb_total (a b : datetime) :
  a <> b -> datetime_ltb a b = true \/ datetime_ltb b a = true.
Proof.
  intros Hne. destruct (datetime_ltb a b) eqn:E1; [now left|].
  destruct (datetime_ltb b a) eqn:E2; [now right|].
  exfalso. apply Hne.
  assert (E : datetime_fields a = datetime_fields b)
    by (apply lex_ltb_total; [reflexivity | exact E1 | exact E2]).
  destruct a, b. unfold datetime_fields in E. cbn in E. congruence.
Qed.

Lemma insert_by_timestamp_length (x : LearningInteraction) (l : list LearningInteraction) :
  length (insert_by_timestamp x l) = S (length l).
Proof.
  induction l as [|y l IH]; cbn [insert_by_timestamp]; [reflexivity|].
  destruct (datetime_ltb _ _); cbn [length]; now rewrite ?IH.
Qed.

Lemma sorted_by_timestamp_length (l : list LearningInteraction) :
  length (sorted_by_timestamp l) = length l.
Proof.
  induction l as [|x l IH]; [reflexivity|].
  cbn [sorted_by_timestamp fold_right]. fold (sorted_by_timestamp l).
  now rewrite insert_by_timestamp_length, IH.
Qed.

Lemma sorted_by_timestamp_len (l : list LearningInteraction) :
  len (sorted_by_timestamp l) = len l.
Proof. unfold len. now rewrite sorted_by_timestamp_length. Qed.

Lemma insert_by_timestamp_perm (x : LearningInteraction) (l : list LearningInteraction) :
  Permutation (x :: l) (insert_by_timestamp x l).
Proof.
  induction l as [|y l IH]; cbn [insert_by_timestamp]; [apply Permutation_refl|].
  destruct (datetime_ltb _ _); [|apply Permutation_refl].
  eapply perm_trans; [apply perm_swap|]. now apply perm_skip.
Qed.

(** [sorted] returns a rearrangement of its argument ... *)
Lemma sorted_by_timestamp_perm (l : list LearningInteraction) :
  Permutation l (sorted_by_timestamp l).
Proof.
  induction l as [|x l IH]; [apply perm_nil|].
  cbn [sorted_by_timestamp fold_right]. fold (sorted_by_timestamp l).
  eapply perm_trans; [apply perm_skip, IH | apply insert_by_timestamp_perm].
Qed.

Lemma insert_by_timestamp_sorted (x : LearningInteraction) (l : list LearningInteraction) :
  Sorted not_later l -> Sorted not_later (insert_by_timestamp x l).
Proof.
  induction 1 as [|y l Hs IH Hhd]; cbn [insert_by_timestamp].
  - repeat constructor.
  - destruct (datetime_ltb (timestamp y) (timestamp x)) eqn:E.
    + constructor; [exact IH|].
      destruct l as [|z l]; cbn [insert_by_timestamp].
      * constructor. unfold not_later. now apply datetime_ltb_asym.
      * destruct (datetime_ltb (timestamp z) (timestamp x)).
        -- constructor. now inversion Hhd.
        -- constructor. unfold not_later. now apply datetime_ltb_asym.
    + constructor; [now constructor|]. constructor. exact E.
Qed.

(** ... in which no element is later than its successor ... *)
Lemma sorted_by_timestamp_sorted (l : list LearningInteraction) :
  Sorted not_later (sorted_by_timestamp l).
Proof.
  induction l as [|x l IH]; [constructor|].
  cbn [sorted_by_timestamp fold_right]. fold (sorted_by_timestamp l).
  now apply insert_by_timestamp_sorted.
Qed.

(** ... and which leaves a sequence already in timestamp order as it is
    (so elements with equal timestamps keep their order). *)
Lemma sorted_by_timestamp_fixed (l : list LearningInteraction) :
  Sorted not_later l -> sorted_by_timestamp l = l.
Proof.
  induction 1 as [|x l Hs IH Hhd]; [reflexivity|].
  cbn [sorted_by_timestamp fold_right]. fold (sorted_by_timestamp l). rewrite IH.
  destruct Hhd as [|y l Hxy]; cbn [insert_by_timestamp]; [reflexivity|].
  unfold not_later in Hxy. now rewrite Hxy.
Qed.

(** *** Timestamp order

    What [sorted] returns is its argument in timestamp order, and nothing
    else is. *)

Lemma same_time_spec (a b : datetime) : same_time a b = true <-> a = b.
Proof.
  unfold same_time.
  destruct (list_eq_dec Z.eq_dec (datetime_fields a) (datetime_fields b)) as [E|E].
  - split; [intros _ | reflexivity].
    destruct a, b. unfold datetime_fields in E. cbn in E. congruence.
  - split; [discriminate|]. intros ->. now contradiction E.
Qed.

Lemma same_time_refl (a : datetime) : same_time a a = true.
Proof. now apply same_time_spec. Qed.

Lemma datetime_ltb_irrefl (a : datetime) : datetime_ltb a a = false.
Proof.
  destruct (datetime_ltb a a) eqn:E; [|reflexivity].
  pose proof (datetime_ltb_asym _ _ E). congruence.
Qed.

Lemma not_later_trans (a b c : LearningInteraction) :
  not_later a b -> not_later b c -> not_later a c.
Proof.
  unfold not_later. intros Hab Hbc.
  destruct (datetime_ltb (timestamp c) (timestamp a)) eqn:Hca; [|reflexivity].
  destruct (datetime_ltb (timestamp b) (timestamp c)) eqn:Hbc'.
  - pose proof (datetime_ltb_trans _ _ _ Hbc' Hca). congruence.
  - assert (E : timestamp b = timestamp c).
    { destruct (list_eq_dec Z.eq_dec (datetime_fields (timestamp b))
                                     (datetime_fields (timestamp c))) as [E|E].
      - apply same_time_spec. unfold same_time.
        now destruct (list_eq_dec Z.eq_dec _ _).
      - destruct (datetime_ltb_total (timestamp b) (timestamp c)); [congruence | |];
          congruence. }
    rewrite E in Hab. congruence.
Qed.

Lemma sorted_strongly (s : list LearningInteraction) :
  Sorted not_later s -> StronglySorted not_later s.
Proof.
  apply Sorted_StronglySorted. intros a b c. apply not_later_trans.
Qed.

Lemma recorded_at_insert (t : datetime) (x : LearningInteraction)
    (s : list LearningInteraction) :
  recorded_at t (insert_by_timestamp x s) = recorded_at t (x :: s).
Proof.
  induction s as [|y s IH]; [reflexivity|]. cbn [insert_by_timestamp].
  destruct (datetime_ltb (timestamp y) (timestamp x)) eqn:E; [|reflexivity].
  unfold recorded_at in *. cbn [filter] in *. rewrite IH.
  destruct (same_time (timestamp x) t) eqn:Ex; [|reflexivity].
  destruct (same_time (timestamp y) t) eqn:Ey; [|reflexivity].
  apply same_time_spec in Ex, Ey. rewrite Ex, Ey, datetime_ltb_irrefl in E. discriminate.
Qed.

Lemma recorded_at_sorted (t : datetime) (l : list LearningInteraction) :
  recorded_at t (sorted_by_timestamp l) = recorded_at t l.
Proof.
  induction l as [|x l IH]; [reflexivity|].
  cbn [sorted_by_timestamp fold_right]. fold (sorted_by_timestamp l).
  rewrite recorded_at_insert. unfold recorded_at in *. cbn [filter]. now rewrite IH.
Qed.

Lemma in_timestamp_order_sorted (g : list LearningInteraction) :
  in_timestamp_order g (sorted_by_timestamp g).
Proof.
  split; [apply sorted_by_timestamp_perm|]. split; [apply sorted_by_timestamp_sorted|].
  intros t. apply recorded_at_sorted.
Qed.

Lemma recorded_at_In (t : datetime) (i : LearningInteraction) (l : list LearningInteraction) :
  In i (recorded_at t l) <-> In i l /\ timestamp i = t.
Proof. unfold recorded_at. rewrite filter_In, same_time_spec. reflexivity. Qed.

(** Two sequences in timestamp order that hold, for each time, the same
    interactions in the same order are the same sequence. *)
Lemma timestamp_order_unique (s : list LearningInteraction) :
  forall s',
    Sorted not_later s -> Sorted not_later s' ->
    (forall t, recorded_at t s = recorded_at t s') ->
    s = s'.
Proof.
  induction s as [|x s IH]; intros s' Hs Hs' Hrec.
  - destruct s' as [|y s']; [reflexivity|].
    specialize (Hrec (timestamp y)). unfold recorded_at in Hrec. cbn [filter] in Hrec.
    rewrite same_time_refl in Hrec. discriminate.
  - destruct s' as [|y s'].
    { specialize (Hrec (timestamp x)). unfold recorded_at in Hrec. cbn [filter] in Hrec.
      rewrite same_time_refl in Hrec. discriminate. }
    apply sorted_strongly in Hs, Hs'.
    apply StronglySorted_inv in Hs, Hs'. destruct Hs as [Hs Hx], Hs' as [Hs' Hy].
    assert (Hxy : not_later y x).
    { assert (Hin : In x (recorded_at (timestamp x) (y :: s'))).
      { rewrite <- Hrec. apply recorded_at_In. split; [now left | reflexivity]. }
      apply recorded_at_In in Hin. destruct Hin as [[-> | Hin] _].
      - unfold not_later. apply datetime_ltb_irrefl.
      - rewrite Forall_forall in Hy. now apply Hy. }
    assert (Hyx : not_later x y).
    { assert (Hin : In y (recorded_at (timestamp y) (x :: s))).
      { rewrite Hrec. apply recorded_at_In. split; [now left | reflexivity]. }
      apply recorded_at_In in Hin. destruct Hin as [[-> | Hin] _].
      - unfold not_later. apply datetime_ltb_irrefl.
      - rewrite Forall_forall in Hx. now apply Hx. }
    assert (Et : timestamp x = timestamp y).
    { destruct (list_eq_dec Z.eq_dec (datetime_fields (timestamp x))
                                     (datetime_fields (timestamp y))) as [E|E].
      - apply same_time_spec. unfold same_time.
        now destruct (list_eq_dec Z.eq_dec _ _).
      - unfold not_later in Hxy, Hyx.
        destruct (datetime_ltb_total (timestamp x) (timestamp y)); [congruence | |];
          congruence. }
    assert (Exy : x = y).
    { pose proof (Hrec (timestamp x)) as H. unfold recorded_at in H. cbn [filter] in H.
      rewrite same_time_refl in H. rewrite <- Et, same_time_refl in H. congruence. }
    subst y. f_equal. apply IH.
    + now apply StronglySorted_Sorted.
    + now apply StronglySorted_Sorted.
    + intros t. specialize (Hrec t). unfold recorded_at in *. cbn [filter] in Hrec.
      destruct (same_time (timestamp x) t); congruence.
Qed.

Lemma in_timestamp_order_unique (g s : list LearningInteraction) :
  in_timestamp_order g s -> s = sorted_by_timestamp g.
Proof.
  intros (_ & Hs & Hrec). apply timestamp_order_unique.
  - exact Hs.
  - apply sorted_by_timestamp_sorted.
  - intros t. now rewrite Hrec, recorded_at_sorted.
Qed.

(** ** Retention effectiveness *)

Lemma last_items_last_three {A : Type} (l : list A) : last_items 3 l = last_three l.
Proof.
  unfold last_items, last_three. rewrite firstn_rev. now rewrite rev_involutive.
Qed.

Lemma len_first_three {A : Type} (l : list A) : len (first_three l) = Z.min 3 (len l).
Proof. unfold len, first_three. rewrite length_firstn. lia. Qed.

Lemma len_last_three {A : Type} (l : list A) : len (last_three l) = Z.min 3 (len l).
Proof.
  unfold len, last_three. rewrite length_rev, length_firstn, length_rev. lia.
Qed.

Lemma count_if_fraction (l : list LearningInteraction) :
  inject_Z (count_if is_correct l) / inject_Z (len l) = fraction_correct l.
Proof. unfold fraction_correct, number_correct. now rewrite count_if_length. Qed.

Lemma fraction_correct_nonneg (l : list LearningInteraction) : 0 <= fraction_correct l.
Proof.
  unfold fraction_correct, Qdiv. apply Qmult_le_0_compat.
  - apply inject_Z_nonneg. lia.
  - apply Qinv_le_0_compat. apply inject_Z_nonneg. apply len_nonneg.
Qed.

Lemma initial_performance_eq (s : list LearningInteraction) :
  inject_Z (count_if is_correct (first_items 3 s)) / inject_Z (Z.min 3 (len s))
  = fraction_correct (first_three s).
Proof. rewrite <- len_first_three. apply count_if_fraction. Qed.

Lemma later_performance_eq (s : list LearningInteraction) :
  inject_Z (count_if is_correct (last_items 3 s)) / inject_Z (Z.min 3 (len s))
  = fraction_correct (last_three s).
Proof. rewrite <- len_last_three, last_items_last_three. apply count_if_fraction. Qed.

Lemma retention_score_of_returns (g : list LearningInteraction) :
  retention_score_of g
  = Returns (if (len g <? 2)%Z then None else Some (retention_ratio g)).
Proof.
  unfold retention_score_of, retention_ratio.
  destruct (len g <? 2)%Z eqn:Hlen; [reflexivity|].
  apply Z.ltb_ge in Hlen.
  set (s := sorted_by_timestamp g).
  assert (Hmin : ~ inject_Z (Z.min 3 (len s)) == 0).
  { subst s. rewrite sorted_by_timestamp_len.
    assert (H : 0 < inject_Z (Z.min 3 (len g))) by (apply inject_Z_pos; lia).
    lra. }
  rewrite !(truediv_returns _ _ Hmin). cbn [bind].
  rewrite initial_performance_eq, later_performance_eq.
  destruct (Qlt_le_dec 0 (fraction_correct (first_three s))) as [Hpos|Hnpos].
  - rewrite truediv_returns by lra. reflexivity.
  - reflexivity.
Qed.


Lemma retention_loop_returns (items : dict string (list LearningInteraction)) :
  forall scores,
    retention_loop items scores
    = Returns (scores ++ map retention_ratio
                           (filter (fun g => (2 <=? len g)%Z) (map snd items))).
Proof.
  induction items as [|[c g] items IH]; intros scores; cbn [retention_loop map snd filter].
  - now rewrite app_nil_r.
  - rewrite retention_score_of_returns. cbn [bind].
    rewrite Z.leb_antisym. destruct (len g <? 2)%Z; cbn [negb].
    + apply IH.
    + rewrite IH. cbn [map]. now rewrite <- app_assoc.
Qed.

Lemma filter_map_swap {A B : Type} (f : A -> B) (p : B -> bool) (l : list A) :
  filter p (map f l) = map f (filter (fun a => p (f a)) l).
Proof.
  induction l as [|a l IH]; [reflexivity|]. cbn [map filter].
  destruct (p (f a)); cbn [map]; now rewrite IH.
Qed.

Lemma filed_under_content (c : string) (l : list LearningInteraction) :
  filed_under String.eqb content_id (fun i => i) c l = interactions_on c l.
Proof. unfold filed_under, interactions_on. apply map_id. Qed.

Lemma retention_scores_ratios (l : list LearningInteraction) :
  retention_loop (group_by String.eqb content_id (fun i => i) l) []
  = Returns (retention_ratios l).
Proof.
  rewrite retention_loop_returns. cbn [app]. f_equal.
  rewrite (group_by_distinct String.eqb content_id (fun i => i) String.eqb_eq).
  rewrite map_map. cbn [snd].
  rewrite (map_ext _ (fun c => interactions_on c l))
    by (intros c; apply filed_under_content).
  rewrite filter_map_swap, map_map. reflexivity.
Qed.

Lemma retention_returns (l : list LearningInteraction) (retention_data : dict string Q) :
  exists v,
    _calculate_retention_effectiveness l retention_data = Returns v
    /\ v == retention_formula l.
Proof.
  unfold _calculate_retention_effectiveness.
  rewrite retention_scores_ratios. cbn [bind]. unfold retention_formula.
  destruct (retention_ratios l) as [|r rs] eqn:E.
  - exists 0.5. split; reflexivity.
  - eexists. split; [reflexivity|]. apply statistics_mean_arithmetic.
Qed.



Lemma filter_none {A : Type} (p : A -> bool) (l : list A) :
  (forall a, In a l -> p a = false) -> filter p l = [].
Proof.
  induction l as [|a l IH]; intros H; [reflexivity|]. cbn [filter].
  rewrite (H a (or_introl eq_refl)). apply IH. intros b Hb. apply H. now right.
Qed.

Lemma ordered_groups_unique {C : Type} (f : C -> list LearningInteraction)
    (cs : list C) (ordered : list (list LearningInteraction)) :
  Forall2 (fun c s => in_timestamp_order (f c) s) cs ordered ->
  ordered = map (fun c => sorted_by_timestamp (f c)) cs.
Proof.
  induction 1 as [|c s cs ordered Hs _ IH]; [reflexivity|].
  cbn [map]. now rewrite IH, (in_timestamp_order_unique _ _ Hs).
Qed.

Lemma ordered_groups_exist {C : Type} (f : C -> list LearningInteraction) (cs : list C) :
  Forall2 (fun c s => in_timestamp_order (f c) s) cs
          (map (fun c => sorted_by_timestamp (f c)) cs).
Proof.
  induction cs as [|c cs IH]; cbn [map]; constructor; [|exact IH].
  apply in_timestamp_order_sorted.
Qed.

(** C3. Retention effectiveness groups the interactions by content.  Take
    the contents with at least 2 interactions and, for each, its
    interactions in timestamp order (there is such an arrangement, and,
    interactions recorded at one time keeping their input order, one
    only): the code returns the arithmetic mean of the ratios
    later/initial (0.5 when initial is not positive) capped at 1.0, where
    initial and later are the mean correctness of the first 3 and of the
    last 3 interactions of the arrangement; it returns 0.5 when no content
    has at least 2 interactions.  One content answered correct, correct,
    correct, wrong, wrong, wrong in time order gives 0, and so it does
    when the six interactions are supplied out of time order. *)
Theorem retention_effectiveness_formula :
  (forall l retention_data,
     exists v,
       _calculate_retention_effectiveness l retention_data = Returns v
       /\ (exists ordered,
             Forall2 (fun c s => in_timestamp_order (interactions_on c l) s)
                     (repeated_contents l) ordered)
       /\ (forall ordered,
             Forall2 (fun c s => in_timestamp_order (interactions_on c l) s)
                     (repeated_contents l) ordered ->
             v == mean_or_half (map window_ratio ordered)))
  /\ (forall l retention_data,
        (forall c, (len (interactions_on c l) < 2)%Z) ->
        exists v,
          _calculate_retention_effectiveness l retention_data = Returns v
          /\ v == 1 # 2)
  /\ (in_timestamp_order three_right_three_wrong three_right_three_wrong
      /\ exists v,
           _calculate_retention_effectiveness three_right_three_wrong [] = Returns v
           /\ v == 0)
  /\ (in_timestamp_order three_right_three_wrong_shuffled three_right_three_wrong
      /\ exists v,
           _calculate_retention_effectiveness three_right_three_wrong_shuffled []
           = Returns v
           /\ v == 0).
Proof.
  split; [|split; [|split]].
  - intros l rd. destruct (retention_returns l rd) as (v & Hr & Hf).
    exists v. split; [assumption|]. split.
    + eexists. apply ordered_groups_exist.
    + intros ordered Ho. rewrite Hf.
      rewrite (ordered_groups_unique _ _ _ Ho), map_map. reflexivity.
  - intros l rd Hfew.
    destruct (retention_returns l rd) as (v & Hr & Hf).
    exists v. split; [assumption|]. rewrite Hf.
    unfold retention_formula, retention_ratios, repeated_contents.
    rewrite filter_none; [reflexivity|].
    intros c _. apply Z.leb_gt. apply Hfew.
  - split.
    + replace three_right_three_wrong
        with (sorted_by_timestamp three_right_three_wrong) at 2
        by (vm_compute; reflexivity).
      apply in_timestamp_order_sorted.
    + eexists. split; [vm_compute; reflexivity | reflexivity].
  - split.
    + replace three_right_three_wrong
        with (sorted_by_timestamp three_right_three_wrong_shuffled)
        by (vm_compute; reflexivity).
      apply in_timestamp_order_sorted.
    + eexists. split; [vm_compute; reflexivity | reflexivity].
Qed.

(** The six interactions supplied out of time order: their arrangement in
    timestamp order is correct, correct, correct, wrong, wrong, wrong, and
    the retention effectiveness is the ratio of that arrangement, 0. *)
Lemma retention_effectiveness_formula_witness :
  exists v,
    _calculate_retention_effectiveness three_right_three_wrong_shuffled [] = Returns v
    /\ v == mean_or_half [window_ratio three_right_three_wrong]
    /\ v == 0.
Proof.
  destruct retention_effectiveness_formula as (Hall & _ & _ & Horder & _).
  destruct (Hall three_right_three_wrong_shuffled []) as (v & Hr & _ & Hv).
  exists v. split; [exact Hr|].
  assert (E : v == mean_or_half (map window_ratio [three_right_three_wrong])).
  { apply Hv.
    replace (repeated_contents three_right_three_wrong_shuffled) with ["c1"%string]
      by (vm_compute; reflexivity).
    constructor; [|constructor].
    replace (interactions_on "c1" three_right_three_wrong_shuffled)
      with three_right_three_wrong_shuffled by reflexivity.
    exact Horder. }
  split; [exact E|]. rewrite E. reflexivity.
Defined.

(** ** Pattern identification *)

Lemma best_hours_loop_returns (items : dict Z (list bool)) :
  forall best_hours,
    best_hours_loop items best_hours
    = Returns (best_hours ++ map fst (filter entry_qualifies items)).
Proof.
  induction items as [|[h perf] items IH]; intros best; cbn [best_hours_loop filter].
  - now rewrite app_nil_r.
  - unfold entry_qualifies at 1. cbn [snd].
    destruct (5 <=? len perf)%Z eqn:Hlen; cbn [andb].
    + apply Z.leb_le in Hlen.
      rewrite truediv_returns.
      2:{ assert (H : 0 < inject_Z (len perf)) by (apply inject_Z_pos; lia). lra. }
      cbn [bind].
      destruct (Qlt_le_dec 0.8 _); rewrite IH; cbn [map fst]; [|reflexivity].
      now rewrite <- app_assoc.
    + apply IH.
Qed.

Lemma count_if_map {A B : Type} (f : A -> B) (p : B -> bool) (l : list A) :
  count_if p (map f l) = count_if (fun a => p (f a)) l.
Proof.
  rewrite !count_if_length. f_equal.
  rewrite filter_map_swap. apply length_map.
Qed.

Lemma len_map {A B : Type} (f : A -> B) (l : list A) : len (map f l) = len l.
Proof. unfold len. now rewrite length_map. Qed.

Lemma filed_under_hour (h : Z) (l : list LearningInteraction) :
  filed_under Z.eqb (fun i => hour (timestamp i)) is_correct h l
  = map is_correct (at_hour h l).
Proof. reflexivity. Qed.

Lemma entry_qualifies_hour (h : Z) (l : list LearningInteraction) :
  entry_qualifies (h, filed_under Z.eqb (fun i => hour (timestamp i)) is_correct h l)
  = qualifyingb l h.
Proof.
  unfold entry_qualifies, qualifyingb. cbn [snd].
  rewrite filed_under_hour, len_map, count_if_map.
  now rewrite count_if_fraction.
Qed.

Lemma best_hours_qualifying (l : list LearningInteraction) :
  best_hours_loop
    (group_by Z.eqb (fun i => hour (timestamp i)) is_correct l) []
  = Returns (qualifying_hours l).
Proof.
  rewrite best_hours_loop_returns. cbn [app]. f_equal.
  rewrite (group_by_distinct Z.eqb _ _ Z.eqb_eq).
  rewrite filter_map_swap, map_map. cbn [fst]. rewrite map_id.
  apply filter_ext. intros h. apply entry_qualifies_hour.
Qed.

Lemma qualifyingb_spec (l : list LearningInteraction) (h : Z) :
  qualifyingb l h = true <-> qualifying l h.
Proof.
  unfold qualifyingb, qualifying. rewrite andb_true_iff, Z.leb_le.
  destruct (Qlt_le_dec 0.8 (fraction_correct (at_hour h l))) as [H|H].
  - tauto.
  - split; [intros [_ H']; discriminate | intros [_ H']; lra].
Qed.

Lemma qualifying_hours_spec (l : list LearningInteraction) (h : Z) :
  In h (qualifying_hours l) <-> qualifying l h.
Proof.
  unfold qualifying_hours, hours_seen.
  rewrite filter_In, (distinct_In Z.eqb Z.eqb_eq), qualifyingb_spec.
  split; [tauto|]. intros Hq. split; [|assumption].
  destruct Hq as [Hlen _]. unfold at_hour in Hlen.
  destruct (filter _ l) as [|i f] eqn:E; [cbn in Hlen; lia|].
  assert (Hin : In i (filter (fun i => (hour (timestamp i) =? h)%Z) l))
    by (rewrite E; now left).
  apply filter_In in Hin. destruct Hin as [Hin Hh]. apply Z.eqb_eq in Hh.
  rewrite <- Hh. apply (in_map (fun i => hour (timestamp i))). exact Hin.
Qed.

Lemma qualifying_hours_NoDup (l : list LearningInteraction) : NoDup (qualifying_hours l).
Proof. apply NoDup_filter, (distinct_NoDup Z.eqb Z.eqb_eq). Qed.

(** What [_identify_learning_patterns_ai] returns: nothing when no hour
    qualifies, else the one pattern that lists the qualifying hours. *)
Lemma identify_patterns_returns (l : list LearningInteraction)
    (progress_data retention_data : dict string Q) :
  exists ps,
    _identify_learning_patterns_ai l progress_data retention_data = Returns ps
    /\ (qualifying_hours l = [] -> ps = [])
    /\ (qualifying_hours l <> [] ->
        exists p,
          ps = [p]
          /\ pattern_type p = "optimal_timing"%string
          /\ effectiveness_score p = 0.8
          /\ frequency p = len (qualifying_hours l)
          /\ conditions p = [("optimal_hours"%string, qualifying_hours l)]).
Proof.
  unfold _identify_learning_patterns_ai.
  destruct l as [|first l'].
  - exists []. split; [reflexivity|]. split; [reflexivity|].
    intros H. exfalso. apply H. reflexivity.
  - set (l := first :: l') in *. rewrite best_hours_qualifying. cbn [bind].
    destruct (qualifying_hours l) as [|h hs] eqn:E.
    + exists []. split; [reflexivity|]. split; [reflexivity|]. congruence.
    + eexists. split; [reflexivity|]. split; [discriminate|].
      intros _. eexists. split; [reflexivity|]. cbn. repeat split; reflexivity.
Qed.

(** C7. When some hour has at least 5 interactions with accuracy above 0.8,
    exactly one pattern is emitted; it is an "optimal_timing" pattern, its
    conditions record that hour and its effectiveness_score is the
    constant 0.8; so it is for 5 correct answers in one hour.  An hour
    with fewer than 5 interactions is recorded by no emitted pattern, and
    4 correct answers in one hour emit no pattern. *)
Theorem optimal_timing_pattern :
  (forall l progress_data retention_data h,
     qualifying l h ->
     exists p,
       _identify_learning_patterns_ai l progress_data retention_data = Returns [p]
       /\ pattern_type p = "optimal_timing"%string
       /\ In h (optimal_hours p)
       /\ effectiveness_score p = 0.8)
  /\ (exists p,
        _identify_learning_patterns_ai (correct_answers_at 9 5) [] [] = Returns [p]
        /\ pattern_type p = "optimal_timing"%string
        /\ optimal_hours p = [9%Z]
        /\ effectiveness_score p = 0.8)
  /\ (forall l progress_data retention_data h,
        (len (at_hour h l) < 5)%Z ->
        forall ps p,
          _identify_learning_patterns_ai l progress_data retention_data = Returns ps ->
          In p ps ->
          ~ In h (optimal_hours p))
  /\ _identify_learning_patterns_ai (correct_answers_at 9 4) [] [] = Returns [].
Proof.
  split; [|split; [|split]].
  - intros l pd rd h Hq.
    destruct (identify_patterns_returns l pd rd) as (ps & Hr & _ & Hsome).
    destruct Hsome as (p & -> & Hty & Hsc & _ & Hc).
    { intros E. apply qualifying_hours_spec in Hq. rewrite E in Hq. exact Hq. }
    exists p. repeat split; try assumption.
    unfold optimal_hours, dict_get_default. rewrite Hc. cbn.
    now apply qualifying_hours_spec.
  - eexists. repeat split.
  - intros l pd rd h Hfew ps p Hr Hin Hh.
    destruct (identify_patterns_returns l pd rd) as (ps' & Hr' & Hnone & Hsome).
    rewrite Hr in Hr'. injection Hr' as <-.
    destruct (qualifying_hours l) as [|h0 hs] eqn:E.
    + rewrite (Hnone eq_refl) in Hin. exact Hin.
    + destruct Hsome as (p' & -> & _ & _ & _ & Hc); [discriminate|].
      destruct Hin as [<-|[]].
      unfold optimal_hours, dict_get_default in Hh. rewrite Hc in Hh.
      cbn [dict_get] in Hh. rewrite String.eqb_refl in Hh.
      rewrite <- E in Hh. apply qualifying_hours_spec in Hh.
      destruct Hh as [Hlen _]. lia.
  - reflexivity.
Qed.

Lemma optimal_timing_pattern_witness :
  (exists p,
     _identify_learning_patterns_ai (correct_answers_at 14 6) [] [] = Returns [p]
     /\ pattern_type p = "optimal_timing"%string
     /\ In 14%Z (optimal_hours p)
     /\ effectiveness_score p = 0.8)
  /\ (forall ps p,
        _identify_learning_patterns_ai
          (correct_answers_at 14 6 ++ correct_answers_at 20 4) [] [] = Returns ps ->
        In p ps ->
        ~ In 20%Z (optimal_hours p)).
Proof.
  split.
  - apply (proj1 optimal_timing_pattern (correct_answers_at 14 6) [] [] 14%Z).
    split; vm_compute; congruence.
  - apply (proj1 (proj2 (proj2 optimal_timing_pattern))
             (correct_answers_at 14 6 ++ correct_answers_at 20 4) [] [] 20%Z).
    vm_compute. reflexivity.
Defined.

(** C10. Pattern identification emits at most one pattern, and it emits
    one exactly when some hour qualifies (at least 5 observations,
    accuracy above 0.8): none when no hour does; when one or several hours
    do, a single "optimal_timing" pattern whose conditions hold one list,
    all the qualifying hours (each once), and whose frequency is the
    number of qualifying hours.  Two qualifying hours give one pattern of
    frequency 2. *)
Theorem at_most_one_pattern :
  (forall l progress_data retention_data,
     exists ps,
       _identify_learning_patterns_ai l progress_data retention_data = Returns ps
       /\ (length ps <= 1)%nat
       /\ ((forall h, ~ qualifying l h) -> ps = [])
       /\ ((exists h, qualifying l h) ->
           exists p,
             ps = [p]
             /\ pattern_type p = "optimal_timing"%string
             /\ conditions p = [("optimal_hours"%string, qualifying_hours l)]
             /\ frequency p = len (qualifying_hours l))
       /\ (forall h, In h (qualifying_hours l) <-> qualifying l h)
       /\ NoDup (qualifying_hours l))
  /\ (exists p,
        _identify_learning_patterns_ai
          (correct_answers_at 9 5 ++ correct_answers_at 14 6) [] [] = Returns [p]
        /\ pattern_type p = "optimal_timing"%string
        /\ conditions p = [("optimal_hours"%string, [9%Z; 14%Z])]
        /\ frequency p = 2%Z).
Proof.
  split.
  - intros l pd rd.
    destruct (identify_patterns_returns l pd rd) as (ps & Hr & Hnone & Hsome).
    exists ps. split; [assumption|].
    destruct (qualifying_hours l) as [|h0 hs] eqn:E.
    + rewrite (Hnone eq_refl). split; [cbn; lia|]. split; [reflexivity|]. split.
      * intros (h & Hq). apply qualifying_hours_spec in Hq. rewrite E in Hq.
        contradiction.
      * rewrite <- E. split; [apply qualifying_hours_spec | apply qualifying_hours_NoDup].
    + destruct Hsome as (p & -> & Hty & _ & Hfr & Hc); [discriminate|].
      split; [cbn; lia|]. split.
      * intros Hno. exfalso. apply (Hno h0). apply qualifying_hours_spec.
        rewrite E. now left.
      * split.
        -- intros _. exists p. repeat split; assumption.
        -- rewrite <- E.
           split; [apply qualifying_hours_spec | apply qualifying_hours_NoDup].
  - eexists. repeat split.
Qed.

Lemma at_most_one_pattern_witness :
  exists p,
    _identify_learning_patterns_ai
      (correct_answers_at 9 5 ++ correct_answers_at 14 6 ++ correct_answers_at 20 4) [] []
    = Returns [p]
    /\ pattern_type p = "optimal_timing"%string
    /\ conditions p
       = [("optimal_hours"%string,
           qualifying_hours
             (correct_answers_at 9 5 ++ correct_answers_at 14 6 ++ correct_answers_at 20 4))]
    /\ frequency p
       = len (qualifying_hours
                (correct_answers_at 9 5 ++ correct_answers_at 14 6 ++ correct_answers_at 20 4)).
Proof.
  destruct (proj1 at_most_one_pattern
              (correct_answers_at 9 5 ++ correct_answers_at 14 6 ++ correct_answers_at 20 4)
              [] [])
    as (ps & Hr & _ & _ & Hsome & _).
  destruct Hsome as (p & -> & Hp).
  - exists 9%Z. split; vm_compute; congruence.
  - exists p. split; [exact Hr | exact Hp].
Defined.

(** ** The difficulty trend *)

Lemma sum_int_fold_right (l : list Z) : sum_int l = fold_right Z.add 0%Z l.
Proof.
  induction l as [|x l IH]; [reflexivity|].
  rewrite sum_int_cons, IH. reflexivity.
Qed.

Lemma range_len {A : Type} (l : list A) : range (len l) = order_indices (length l).
Proof. unfold range, order_indices, len. now rewrite Nat2Z.id. Qed.

Lemma order_indices_length (n : nat) : length (order_indices n) = n.
Proof. unfold order_indices. now rewrite length_map, length_seq. Qed.

(** Reading two lists of the same length by index is reading them in
    step. *)
Lemma map_items_combine {A B C : Type} (da : A) (db : B) (g : A -> B -> C)
    (xs : list A) (ys : list B) :
  length xs = length ys ->
  map (fun i => g (item da xs i) (item db ys i)) (order_indices (length xs))
  = map (fun p => g (fst p) (snd p)) (combine xs ys).
Proof.
  unfold order_indices, item. rewrite map_map.
  revert ys. induction xs as [|x xs IH]; intros [|y ys] Hlen; try discriminate.
  - reflexivity.
  - cbn [length seq map combine fst snd]. rewrite Nat2Z.id. cbn [nth]. f_equal.
    rewrite <- seq_shift, map_map. rewrite <- (IH ys) by (cbn in Hlen; lia).
    apply map_ext. intros k. rewrite !Nat2Z.id. reflexivity.
Qed.

Lemma map_items_self {A C : Type} (da : A) (g : A -> C) (xs : list A) :
  map (fun i => g (item da xs i)) (order_indices (length xs)) = map g xs.
Proof.
  rewrite (map_items_combine da da (fun a _ => g a) xs xs eq_refl).
  induction xs as [|x xs IH]; [reflexivity|]. cbn [combine map fst]. now rewrite IH.
Qed.

Lemma square_nonneg (q : Q) : 0 <= q * q.
Proof. nra. Qed.

Lemma dot_cons (x y : Q) (a b : list Q) : dot (x :: a) (y :: b) = x * y + dot a b.
Proof. reflexivity. Qed.

Lemma dot_self_nonneg (a : list Q) : 0 <= dot a a.
Proof.
  induction a as [|x a IH]; [unfold dot; cbn; lra|].
  rewrite dot_cons. nra.
Qed.

(** The Cauchy-Schwarz inequality, which keeps the correlation within
    [-1, 1]. *)
Lemma dot_cauchy_schwarz (a : list Q) :
  forall b, dot a b * dot a b <= dot a a * dot b b.
Proof.
  induction a as [|x a IH]; intros [|y b].
  - unfold dot; cbn; lra.
  - unfold dot; cbn [combine map total fold_right]. pose proof (dot_self_nonneg (y :: b)).
    unfold dot in H. lra.
  - unfold dot at 1 2 4; cbn [combine map total fold_right].
    pose proof (dot_self_nonneg (x :: a)). lra.
  - rewrite !dot_cons.
    pose proof (IH b) as HC. pose proof (dot_self_nonneg a) as HA.
    pose proof (dot_self_nonneg b) as HB.
    set (A := dot a a) in *. set (B := dot b b) in *. set (C := dot a b) in *.
    clearbody A B C.
    assert (Hkey : 2 * (x * y * C) <= x * x * B + A * (y * y)).
    { destruct (Qlt_le_dec 0 A) as [HApos|HAzero].
      - assert (Hid : A * (x * x * B + A * (y * y) - 2 * (x * y * C))
                      == (A * y - x * C) * (A * y - x * C) + x * x * (A * B - C * C))
          by ring.
        assert (Hge : 0 <= A * (x * x * B + A * (y * y) - 2 * (x * y * C))).
        { rewrite Hid.
          pose proof (square_nonneg (A * y - x * C)) as H1.
          pose proof (square_nonneg x) as H2.
          assert (H3 : 0 <= A * B - C * C) by lra.
          pose proof (Qmult_le_0_compat _ _ H2 H3). lra. }
        set (D := x * x * B + A * (y * y) - 2 * (x * y * C)) in *.
        destruct (Qlt_le_dec D 0) as [Hneg|Hok]; [|subst D; lra].
        exfalso.
        assert (H4 : A * D < 0).
        { setoid_replace (A * D) with (- (A * - D)) by ring.
          assert (0 < A * - D) by (apply Qmult_lt_0_compat; lra). lra. }
        lra.
      - assert (HA0 : A == 0) by lra.
        assert (HC0 : C == 0).
        { rewrite HA0 in HC. nra. }
        rewrite HA0, HC0. nra. }
    nra.
Qed.

Lemma combine_map_both {A B A' B' : Type} (f : A -> A') (h : B -> B')
    (xs : list A) (ys : list B) :
  combine (map f xs) (map h ys) = map (fun p => (f (fst p), h (snd p))) (combine xs ys).
Proof.
  revert ys; induction xs as [|x xs IH]; intros [|y ys]; try reflexivity.
  cbn [map combine fst snd]. now rewrite IH.
Qed.

(** The sums the code takes by index are the sums of products of
    deviations. *)
Lemma indexed_sum_covariation (xs ys : list Z) :
  length xs = length ys ->
  sum_float
    (map (fun i => (inject_Z (item 0%Z xs i) - inject_Z (sum_int xs) / inject_Z (len ys))
                   * (inject_Z (item 0%Z ys i) - inject_Z (sum_int ys) / inject_Z (len ys)))
         (range (len ys)))
  == covariation xs ys.
Proof.
  intros Hlen. rewrite sum_float_total.
  unfold covariation, dot, deviations, series_mean.
  rewrite combine_map_both, map_map. cbn [fst snd].
  rewrite range_len, <- Hlen.
  rewrite (map_items_combine 0%Z 0%Z
             (fun a b => (inject_Z a - inject_Z (sum_int xs) / inject_Z (len ys))
                         * (inject_Z b - inject_Z (sum_int ys) / inject_Z (len ys)))
             xs ys Hlen).
  rewrite !sum_int_fold_right.
  replace (len xs) with (len ys) by (unfold len; now rewrite Hlen).
  reflexivity.
Qed.

Lemma indexed_sum_variation (xs : list Z) (n : Z) :
  n = len xs ->
  sum_float
    (map (fun i => (inject_Z (item 0%Z xs i) - inject_Z (sum_int xs) / inject_Z n) ^ 2)
         (range n))
  == covariation xs xs.
Proof.
  intros ->. rewrite <- (indexed_sum_covariation xs xs eq_refl).
  reflexivity.
Qed.

Lemma covariation_self_nonneg (xs : list Z) : 0 <= covariation xs xs.
Proof. apply dot_self_nonneg. Qed.

Lemma covariation_cauchy_schwarz (xs ys : list Z) :
  covariation xs ys * covariation xs ys <= covariation xs xs * covariation ys ys.
Proof. apply dot_cauchy_schwarz. Qed.

Lemma pearson_bounds (xs ys : list Z) :
  0 < covariation xs xs * covariation ys ys ->
  (-1 <= pearson xs ys <= 1)%R.
Proof.
  intros Hpos. unfold pearson.
  pose proof (covariation_cauchy_schwarz xs ys) as HCS.
  set (c := covariation xs ys) in *. set (p := covariation xs xs * covariation ys ys) in *.
  clearbody c p.
  apply Qlt_Rlt in Hpos. apply Qle_Rle in HCS.
  rewrite Q2R_mult in HCS. change (Q2R 0) with (Q2R (0 # 1)) in Hpos.
  assert (H0 : Q2R 0 = 0%R) by (unfold Q2R; cbn; lra). rewrite H0 in Hpos.
  set (C := Q2R c) in *. set (P := Q2R p) in *. clearbody C P.
  pose proof (sqrt_lt_R0 P Hpos) as Hroot.
  assert (Habs : (Rabs C <= sqrt P)%R).
  { rewrite <- (sqrt_Rsqr_abs C). apply sqrt_le_1_alt. exact HCS. }
  assert (Hlo : (- sqrt P <= C)%R)
    by (unfold Rabs in Habs; destruct (Rcase_abs C); lra).
  assert (Hhi : (C <= sqrt P)%R)
    by (unfold Rabs in Habs; destruct (Rcase_abs C); lra).
  split.
  - apply (Rmult_le_reg_r (sqrt P)); [assumption|].
    unfold Rdiv. rewrite Rmult_assoc, Rinv_l by lra. lra.
  - apply (Rmult_le_reg_r (sqrt P)); [assumption|].
    unfold Rdiv. rewrite Rmult_assoc, Rinv_l by lra. lra.
Qed.

Lemma Qeq_bool_zero_compat (a b : Q) : a == b -> Qeq_bool a 0 = Qeq_bool b 0.
Proof.
  intros E. destruct (Qeq_bool b 0) eqn:Hb.
  - apply Qeq_bool_eq in Hb. apply Qeq_eq_bool. now rewrite E.
  - destruct (Qeq_bool a 0) eqn:Ha; [|reflexivity].
    apply Qeq_bool_eq in Ha. rewrite E in Ha. apply Qeq_eq_bool in Ha. congruence.
Qed.

Lemma levels_length (l : list LearningInteraction) :
  length (levels_in_time_order l) = length l.
Proof. unfold levels_in_time_order. now rewrite length_map, sorted_by_timestamp_length. Qed.

Lemma trend_short (l : list LearningInteraction) :
  (len l < 3)%Z -> _calculate_difficulty_trend l = Returns (1 / 2)%R.
Proof.
  intros H. unfold _calculate_difficulty_trend.
  rewrite (proj2 (Z.ltb_lt _ _) H). f_equal. lra.
Qed.

(** What [_calculate_difficulty_trend] returns on three interactions or
    more. *)
Lemma trend_returns (l : list LearningInteraction) :
  (3 <= len l)%Z ->
  _calculate_difficulty_trend l
  = Returns
      (if Qeq_bool (covariation (order_indices (length l)) (order_indices (length l))) 0
          || Qeq_bool (covariation (levels_in_time_order l) (levels_in_time_order l)) 0
       then (1 / 2)%R
       else ((pearson (order_indices (length l)) (levels_in_time_order l) + 1) / 2)%R).
Proof.
  intros Hlen. unfold _calculate_difficulty_trend.
  rewrite (proj2 (Z.ltb_ge _ _) Hlen).
  fold (levels_in_time_order l).
  set (ys := levels_in_time_order l).
  assert (Hys : length ys = length l) by apply levels_length.
  assert (Hleny : len ys = len l) by (unfold len; now rewrite Hys).
  rewrite (proj2 (Z.ltb_ge (len ys) 2)) by lia.
  rewrite <- Hys.
  set (xs := range (len ys)).
  assert (Hxs : xs = order_indices (length ys)) by apply range_len.
  assert (Hlenx : length xs = length ys) by (rewrite Hxs; apply order_indices_length).
  assert (Hn : ~ inject_Z (len ys) == 0).
  { assert (H : 0 < inject_Z (len ys)) by (apply inject_Z_pos; lia). lra. }
  rewrite !(truediv_returns _ _ Hn). cbn [bind].
  pose proof (indexed_sum_covariation xs ys Hlenx) as Hxy.
  pose proof (indexed_sum_variation xs (len ys)) as Hxx.
  pose proof (indexed_sum_variation ys (len ys) eq_refl) as Hyy.
  assert (Hlenx' : len ys = len xs) by (unfold len; now rewrite Hlenx).
  specialize (Hxx Hlenx').
  fold xs in Hxy, Hxx.
  set (num := sum_float _) in Hxy |- *.
  set (dx := sum_float _) in Hxx |- *.
  set (dy := sum_float _) in Hyy |- *.
  clearbody num dx dy.
  rewrite (Qeq_bool_zero_compat _ _ Hxx), (Qeq_bool_zero_compat _ _ Hyy).
  rewrite <- Hxs.
  destruct (Qeq_bool (covariation xs xs) 0) eqn:Ex; cbn [orb].
  { f_equal. lra. }
  destruct (Qeq_bool (covariation ys ys) 0) eqn:Ey.
  { f_equal. lra. }
  apply Qeq_bool_neq in Ex, Ey.
  pose proof (covariation_self_nonneg xs) as Hx0.
  pose proof (covariation_self_nonneg ys) as Hy0.
  assert (Hpos : 0 < covariation xs xs * covariation ys ys).
  { apply Qmult_lt_0_compat; lra. }
  assert (Eprod : Q2R (dx * dy) = Q2R (covariation xs xs * covariation ys ys)).
  { apply Qeq_eqR. now rewrite Hxx, Hyy. }
  assert (Enum : Q2R num = Q2R (covariation xs ys)) by (apply Qeq_eqR; exact Hxy).
  rewrite Eprod, Enum.
  pose proof (pearson_bounds xs ys Hpos) as [Hlo Hhi].
  assert (HposR : (0 < Q2R (covariation xs xs * covariation ys ys))%R).
  { apply Qlt_Rlt in Hpos. assert (H0 : Q2R 0 = 0%R) by (unfold Q2R; cbn; lra).
    now rewrite H0 in Hpos. }
  unfold math_sqrt.
  destruct (Rlt_dec _ 0) as [Hneg|_]; [lra|]. cbn [bind].
  unfold truediv_real.
  pose proof (sqrt_lt_R0 _ HposR) as Hroot.
  destruct (Req_dec_T _ 0) as [Hz|_]; [lra|]. cbn [bind].
  f_equal. fold (pearson xs ys).
  unfold Rmax. destruct (Rle_dec _ _) as [_|Hn']; [reflexivity|].
  exfalso. apply Hn'. lra.
Qed.

(** *** Series without variance, and the order indices *)

Lemma dot_self_zero (a : list Q) : dot a a == 0 -> Forall (fun x => x == 0) a.
Proof.
  induction a as [|x a IH]; intros H; constructor.
  - rewrite dot_cons in H. pose proof (dot_self_nonneg a). pose proof (square_nonneg x).
    assert (Hx : x * x == 0) by lra.
    destruct (Qmult_integral _ _ Hx); assumption.
  - apply IH. rewrite dot_cons in H. pose proof (dot_self_nonneg a).
    pose proof (square_nonneg x). lra.
Qed.

Lemma dot_zero_l (a b : list Q) : Forall (fun x => x == 0) a -> dot a b == 0.
Proof.
  intros H. revert b. induction H as [|x a Hx _ IH]; intros [|y b]; try reflexivity.
  rewrite dot_cons, IH, Hx. lra.
Qed.

Lemma order_indices_cons (n : nat) :
  order_indices (S n) = 0%Z :: map Z.succ (order_indices n).
Proof.
  unfold order_indices. cbn [seq map]. f_equal.
  rewrite <- seq_shift, !map_map. apply map_ext. intros k. lia.
Qed.

Lemma order_indices_varies (n : nat) :
  (2 <= n)%nat -> 0 < covariation (order_indices n) (order_indices n).
Proof.
  intros Hn. pose proof (covariation_self_nonneg (order_indices n)) as H0.
  destruct (Qlt_le_dec 0 (covariation (order_indices n) (order_indices n))) as [H|H];
    [exact H|].
  exfalso. assert (Hz : covariation (order_indices n) (order_indices n) == 0) by lra.
  apply dot_self_zero in Hz. unfold deviations in Hz.
  destruct n as [|[|n]]; try lia.
  rewrite !order_indices_cons in Hz. cbn [map] in Hz.
  set (m := series_mean _) in Hz. clearbody m.
  inversion Hz as [|? ? Ha Hz']; subst. inversion Hz' as [|? ? Hb _]; subst.
  cbv beta in Ha, Hb.
  change (inject_Z 1) with 1 in Hb. change (inject_Z 0) with 0 in Ha. lra.
Qed.

Lemma fold_right_add_constant (c : Z) (ys : list Z) :
  (forall y, In y ys -> y = c) -> fold_right Z.add 0%Z ys = (c * len ys)%Z.
Proof.
  induction ys as [|y ys IH]; intros H.
  - cbn. lia.
  - cbn [fold_right]. rewrite len_cons, IH by (intros z Hz; apply H; now right).
    rewrite (H y (or_introl eq_refl)). lia.
Qed.

Lemma constant_series_zero_variance (c : Z) (ys : list Z) :
  (forall y, In y ys -> y = c) -> zero_variance ys.
Proof.
  intros H. unfold zero_variance, covariation. apply dot_zero_l.
  destruct ys as [|y0 ys']; [constructor|]. set (ys := y0 :: ys') in *.
  assert (Hm : series_mean ys == inject_Z c).
  { unfold series_mean. rewrite (fold_right_add_constant c ys H), inject_Z_mult.
    assert (0 < inject_Z (len ys)) by (apply inject_Z_pos, len_pos; discriminate).
    field. lra. }
  unfold deviations. apply Forall_map, Forall_forall. intros y Hy.
  rewrite Hm, (H y Hy). lra.
Qed.

(** *** Series that move by a constant step *)

Lemma dot_pointwise (a a' : list Q) :
  Forall2 Qeq a a' -> forall b b', Forall2 Qeq b b' -> dot a b == dot a' b'.
Proof.
  induction 1 as [|x x' a a' Hx _ IH]; intros b b' Hb.
  - reflexivity.
  - destruct Hb as [|y y' b b' Hy Hb]; [reflexivity|].
    rewrite !dot_cons, Hx, Hy, (IH b b' Hb). reflexivity.
Qed.

Lemma Forall2_Qeq_refl (a : list Q) : Forall2 Qeq a a.
Proof. induction a; constructor; [reflexivity | assumption]. Qed.

Lemma Forall2_Qeq_map {A : Type} (g h : A -> Q) (xs : list A) :
  (forall x, g x == h x) -> Forall2 Qeq (map g xs) (map h xs).
Proof. intros H. induction xs; constructor; [apply H | assumption]. Qed.

Lemma dot_scale_r (k : Q) (a b : list Q) : dot a (map (Qmult k) b) == k * dot a b.
Proof.
  revert b. induction a as [|x a IH]; intros [|y b]; try (unfold dot; cbn; lra).
  cbn [map]. rewrite !dot_cons, IH. ring.
Qed.

Lemma dot_scale_l (k : Q) (a b : list Q) : dot (map (Qmult k) a) b == k * dot a b.
Proof.
  revert b. induction a as [|x a IH]; intros [|y b]; try (unfold dot; cbn; lra).
  cbn [map]. rewrite !dot_cons, IH. ring.
Qed.

Lemma fold_right_add_step (a d : Z) (xs : list Z) :
  fold_right Z.add 0%Z (map (fun x => (a + d * x)%Z) xs)
  = (len xs * a + d * fold_right Z.add 0%Z xs)%Z.
Proof.
  induction xs as [|x xs IH]; [cbn; lia|].
  cbn [map fold_right]. rewrite len_cons, IH. lia.
Qed.

Lemma deviations_step (a d : Z) (xs : list Z) :
  xs <> [] ->
  Forall2 Qeq (deviations (map (fun x => (a + d * x)%Z) xs))
              (map (Qmult (inject_Z d)) (deviations xs)).
Proof.
  intros Hne. unfold deviations. rewrite !map_map.
  apply Forall2_Qeq_map. intros x.
  unfold series_mean. rewrite fold_right_add_step, len_map.
  rewrite !inject_Z_plus, !inject_Z_mult.
  assert (0 < inject_Z (len xs)) by (apply inject_Z_pos, len_pos; assumption).
  field. lra.
Qed.

Lemma covariation_step (a d : Z) (xs : list Z) :
  xs <> [] ->
  covariation xs (map (fun x => (a + d * x)%Z) xs) == inject_Z d * covariation xs xs
  /\ covariation (map (fun x => (a + d * x)%Z) xs) (map (fun x => (a + d * x)%Z) xs)
     == inject_Z d * (inject_Z d * covariation xs xs).
Proof.
  intros Hne. unfold covariation. pose proof (deviations_step a d xs Hne) as Hd.
  split.
  - rewrite (dot_pointwise _ _ (Forall2_Qeq_refl (deviations xs)) _ _ Hd).
    apply dot_scale_r.
  - rewrite (dot_pointwise _ _ Hd _ _ Hd).
    rewrite dot_scale_l, dot_scale_r. reflexivity.
Qed.

Lemma Q2R_zero : Q2R 0 = 0%R.
Proof. unfold Q2R. cbn. lra. Qed.

(** A covariation [c] whose square is the product of the variations gives
    the correlation 1 or -1, by the sign of [c]. *)
Lemma pearson_extreme (xs ys : list Z) :
  covariation xs xs * covariation ys ys == covariation xs ys * covariation xs ys ->
  (0 < covariation xs ys -> pearson xs ys = 1%R)
  /\ (covariation xs ys < 0 -> pearson xs ys = (-1)%R).
Proof.
  intros Hsq. unfold pearson. rewrite (Qeq_eqR _ _ Hsq), Q2R_mult.
  set (C := Q2R (covariation xs ys)).
  split; intros Hc; apply Qlt_Rlt in Hc; rewrite Q2R_zero in Hc; fold C in Hc.
  - rewrite sqrt_square by lra. field. lra.
  - replace (C * C)%R with ((- C) * (- C))%R by ring.
    rewrite sqrt_square by lra. field. lra.
Qed.

Lemma trend_constant_step (l : list LearningInteraction) (a d : Z) :
  (3 <= len l)%Z ->
  constant_step a d (levels_in_time_order l) ->
  ((0 < d)%Z -> _calculate_difficulty_trend l = Returns 1%R)
  /\ ((d < 0)%Z -> _calculate_difficulty_trend l = Returns 0%R).
Proof.
  intros Hlen Hstep. rewrite (trend_returns l Hlen).
  unfold constant_step in Hstep. rewrite levels_length in Hstep.
  set (xs := order_indices (length l)) in *.
  set (ys := levels_in_time_order l) in *. clearbody ys. subst ys.
  assert (Hvar : 0 < covariation xs xs).
  { apply order_indices_varies. unfold len in Hlen. lia. }
  assert (Hne : xs <> []).
  { intros E. rewrite E in Hvar. vm_compute in Hvar. discriminate. }
  destruct (covariation_step a d xs Hne) as [Hxy Hyy].
  set (ys := map (fun x => (a + d * x)%Z) xs) in *. clearbody ys.
  assert (Hsq : covariation xs xs * covariation ys ys
                == covariation xs ys * covariation xs ys).
  { rewrite Hxy, Hyy. ring. }
  destruct (pearson_extreme xs ys Hsq) as [Hup Hdown].
  assert (Ex : Qeq_bool (covariation xs xs) 0 = false).
  { apply not_true_is_false. intros E. apply Qeq_bool_eq in E. lra. }
  rewrite Ex. cbn [orb].
  split; intros Hd.
  - assert (HdQ : 0 < inject_Z d) by (apply inject_Z_pos; exact Hd).
    assert (Hc : 0 < covariation xs ys).
    { rewrite Hxy. apply Qmult_lt_0_compat; assumption. }
    assert (Ey : Qeq_bool (covariation ys ys) 0 = false).
    { apply not_true_is_false. intros E. apply Qeq_bool_eq in E.
      assert (0 < covariation ys ys).
      { rewrite Hyy. repeat apply Qmult_lt_0_compat; assumption. }
      lra. }
    rewrite Ey, (Hup Hc). f_equal. lra.
  - assert (HdQ : 0 < - inject_Z d).
    { setoid_replace (- inject_Z d) with (inject_Z (- d)) by (rewrite inject_Z_opp; reflexivity).
      apply inject_Z_pos. lia. }
    assert (Hc : covariation xs ys < 0).
    { rewrite Hxy. setoid_replace (inject_Z d * covariation xs xs)
        with (- (- inject_Z d * covariation xs xs)) by ring.
      assert (0 < - inject_Z d * covariation xs xs)
        by (apply Qmult_lt_0_compat; assumption).
      lra. }
    assert (Ey : Qeq_bool (covariation ys ys) 0 = false).
    { apply not_true_is_false. intros E. apply Qeq_bool_eq in E.
      assert (0 < covariation ys ys).
      { rewrite Hyy.
        setoid_replace (inject_Z d * (inject_Z d * covariation xs xs))
          with (- inject_Z d * (- inject_Z d * covariation xs xs)) by ring.
        repeat apply Qmult_lt_0_compat; assumption. }
      lra. }
    rewrite Ey, (Hdown Hc). f_equal. lra.
Qed.





(** ** The real-time score and the composite *)



(** What the [try] block of [analyze_user_effectiveness] has done when it
    returns on a non-empty sequence: every scorer has returned, and the
    performance tracker, if there is one, has not raised. *)
Lemma analyze_try_inv (performance_manager : option (outcome unit))
    (user : string) (days : Z) (l : list LearningInteraction)
    (progress_data retention_data : dict string Q)
    (analysis : EffectivenessAnalysis * AnalysisDetails) :
  l <> [] ->
  analyze_user_effectiveness_try performance_manager user days l progress_data retention_data
  = Returns analysis ->
  exists i r p ps lists,
    _calculate_immediate_effectiveness l = Returns i
    /\ _calculate_retention_effectiveness l retention_data = Returns r
    /\ _calculate_progression_effectiveness progress_data = Returns p
    /\ _identify_learning_patterns_ai l progress_data retention_data = Returns ps
    /\ _analyze_strengths_weaknesses l ps = Returns lists
    /\ (performance_manager = None \/ performance_manager = Some (Returns tt))
    /\ fst analysis
       = {| analysis_user_id := user;
            timeframe_days := days;
            immediate_effectiveness := i;
            retention_effectiveness := r;
            progression_effectiveness := p;
            overall_effectiveness := i * 0.4 + r * 0.4 + p * 0.2;
            learning_patterns := ps |}
    /\ snd analysis
       = {| strengths := fst lists;
            improvement_areas := snd lists;
            recommended_adaptations :=
              adaptations (_generate_recommendations ps (fst lists) (snd lists));
            optimal_content_types :=
              content_types (_generate_recommendations ps (fst lists) (snd lists));
            optimal_difficulty_progression :=
              difficulty_progression (_generate_recommendations ps (fst lists) (snd lists));
            recommended_session_length :=
              session_length (_generate_recommendations ps (fst lists) (snd lists)) |}.
Proof.
  intros Hne. unfold analyze_user_effectiveness_try.
  destruct l as [|x l']; [congruence|]. set (l := x :: l') in *.
  destruct (_calculate_immediate_effectiveness l) as [i|] eqn:Ei; [|discriminate].
  destruct (_calculate_retention_effectiveness l retention_data) as [r|] eqn:Er;
    [|discriminate].
  destruct (_calculate_progression_effectiveness progress_data) as [p|] eqn:Ep;
    [|discriminate].
  destruct (_identify_learning_patterns_ai l progress_data retention_data) as [ps|] eqn:Eps;
    [|discriminate].
  cbn [bind].
  destruct (_analyze_strengths_weaknesses l ps) as [lists|] eqn:El; [|discriminate].
  unfold _save_effectiveness_analysis. cbn [bind].
  destruct performance_manager as [[[]|e]|]; cbn [bind]; try discriminate;
    intros H; injection H as <-; exists i, r, p, ps, lists; cbn [fst snd];
    do 5 (split; [assumption || reflexivity|]); (split; [|split; reflexivity]); auto.
Qed.


(** The scores of the analysis returned: those the scorers returned, or
    the four 0.5 of the empty analysis. *)
Lemma analyze_scores (performance_manager : option (outcome unit))
    (user : string) (days : Z) (l : list LearningInteraction)
    (progress_data retention_data : dict string Q) :
  analyze_user_effectiveness performance_manager user days l progress_data retention_data
  = _create_empty_analysis user days
  \/ exists i r p ps,
       _calculate_immediate_effectiveness l = Returns i
       /\ _calculate_retention_effectiveness l retention_data = Returns r
       /\ _calculate_progression_effectiveness progress_data = Returns p
       /\ analyze_user_effectiveness performance_manager user days l
            progress_data retention_data
          = {| analysis_user_id := user;
               timeframe_days := days;
               immediate_effectiveness := i;
               retention_effectiveness := r;
               progression_effectiveness := p;
               overall_effectiveness := i * 0.4 + r * 0.4 + p * 0.2;
               learning_patterns := ps |}.
Proof.
  unfold analyze_user_effectiveness.
  destruct l as [|x l']; [now left|].
  destruct (analyze_user_effectiveness_try performance_manager user days (x :: l')
              progress_data retention_data) as [analysis|e] eqn:E; [|now left].
  assert (Hne : x :: l' <> []) by discriminate.
  destruct (analyze_try_inv _ _ _ _ _ _ _ Hne E)
    as (i & r & p & ps & lists & Hi & Hr & Hp & _ & _ & _ & Ha & _).
  right. exists i, r, p, ps. auto.
Qed.








(** A count of [-(10^400)] hints is not rejected as negative either: the
    immediate operation raises the [OverflowError] it raises on [10^400]
    hints. *)
Lemma negative_countless_hints_overflow :
  Exists negative_field negative_countless_hints_answer
  /\ _calculate_immediate_effectiveness negative_countless_hints_answer
     = Raises OverflowError.
Proof.
  split.
  - constructor. right. left. vm_compute. reflexivity.
  - vm_compute. reflexivity.
Qed.

(* ================================================================= *)
(** * Part IV: further properties of the code *)
(* ================================================================= *)

(** ** The utility functions *)

Lemma count_if_app {A : Type} (p : A -> bool) (l1 l2 : list A) :
  count_if p (l1 ++ l2) = (count_if p l1 + count_if p l2)%Z.
Proof. rewrite !count_if_length, filter_app, length_app. lia. Qed.

(** X1. [calculate_learning_velocity] raises exactly when the sequence is
    not empty and the timeframe is zero, and then it raises
    ZeroDivisionError; on the empty sequence it returns 0.0 even for a
    zero timeframe. *)
Theorem learning_velocity_zero_timeframe (l : list LearningInteraction) (hours : Q) :
  ((exists e, calculate_learning_velocity l hours = Raises e)
   <-> (l <> [] /\ hours == 0))
  /\ (forall e, calculate_learning_velocity l hours = Raises e -> e = ZeroDivisionError)
  /\ (exists v, calculate_learning_velocity [] hours = Returns v /\ v == 0).
Proof.
  split; [|split].
  - destruct l as [|i l']; cbn [calculate_learning_velocity].
    + split; [intros [e H]; discriminate | intros [H _]; congruence].
    + unfold truediv. destruct (Qeq_bool hours 0) eqn:E.
      * apply Qeq_bool_eq in E. split; [intros _; split; [discriminate | exact E]|].
        intros _. eexists. reflexivity.
      * apply Qeq_bool_neq in E. split; [intros [e H]; discriminate|].
        intros [_ H]. contradiction.
  - intros e. destruct l as [|i l']; cbn [calculate_learning_velocity]; [discriminate|].
    unfold truediv. destruct (Qeq_bool hours 0); congruence.
  - exists 0.0. split; reflexivity.
Qed.



(** X3. Learning velocity is additive: over one non-zero timeframe the
    velocity of two sequences put together is the sum of their
    velocities. *)
Theorem learning_velocity_additive (l1 l2 : list LearningInteraction) (hours : Q) :
  ~ hours == 0 ->
  exists v1 v2 v,
    calculate_learning_velocity l1 hours = Returns v1
    /\ calculate_learning_velocity l2 hours = Returns v2
    /\ calculate_learning_velocity (l1 ++ l2) hours = Returns v
    /\ v == v1 + v2.
Proof.
  intros Hne.
  assert (Hval : forall l, exists v,
             calculate_learning_velocity l hours = Returns v
             /\ v == inject_Z (count_if is_correct l) / hours).
  { intros [|i l'].
    - exists 0.0. split; [reflexivity|]. unfold count_if, sum_int. cbn.
      field. exact Hne.
    - unfold calculate_learning_velocity. rewrite truediv_returns by exact Hne.
      eexists. split; reflexivity. }
  destruct (Hval l1) as (v1 & H1 & E1). destruct (Hval l2) as (v2 & H2 & E2).
  destruct (Hval (l1 ++ l2)) as (v & H & E).
  exists v1, v2, v. repeat (split; [assumption|]).
  rewrite E, E1, E2, count_if_app, inject_Z_plus. field. exact Hne.
Qed.

Lemma learning_velocity_additive_witness :
  exists v1 v2 v,
    calculate_learning_velocity three_right_three_wrong 24 = Returns v1
    /\ calculate_learning_velocity one_second_answer 24 = Returns v2
    /\ calculate_learning_velocity (three_right_three_wrong ++ one_second_answer) 24
       = Returns v
    /\ v == v1 + v2.
Proof.
  apply (learning_velocity_additive three_right_three_wrong one_second_answer 24).
  vm_compute. discriminate.
Defined.

(** X4. [calculate_retention_rate] never raises.  It returns 0 when either
    sequence is empty or the initial accuracy is zero, and otherwise the
    review accuracy over the initial accuracy, capped at 1; in every case
    the rate lies in [0,1]. *)
Theorem retention_rate_unit (review initial : list LearningInteraction) :
  exists v,
    calculate_retention_rate review initial = Returns v
    /\ unit_score v
    /\ (review = [] \/ initial = [] \/ fraction_correct initial == 0 -> v == 0)
    /\ (review <> [] -> initial <> [] -> ~ fraction_correct initial == 0 ->
        v == Qmin (fraction_correct review / fraction_correct initial) 1).
Proof.
  unfold calculate_retention_rate, unit_score.
  destruct review as [|r review'].
  { exists 0.0. split; [destruct initial; reflexivity|]. split; [split; lra|].
    split; [reflexivity | congruence]. }
  destruct initial as [|i initial'].
  { exists 0.0. split; [reflexivity|]. split; [split; lra|].
    split; [reflexivity | congruence]. }
  rewrite !truediv_len by discriminate. cbn [bind].
  rewrite !count_if_fraction.
  set (ia := fraction_correct (i :: initial')). set (ra := fraction_correct (r :: review')).
  pose proof (fraction_correct_nonneg (r :: review')) as Hra. fold ra in Hra.
  pose proof (fraction_correct_nonneg (i :: initial')) as Hia. fold ia in Hia.
  assert (E1 : 1.0 == 1) by reflexivity.
  destruct (Qlt_le_dec 0 ia) as [Hpos|Hnpos].
  - rewrite truediv_returns by lra. cbn [bind]. eexists. split; [reflexivity|].
    assert (H0 : 0 <= ra / ia) by (apply Qle_shift_div_l; [assumption | lra]).
    split; [qmin_cases (ra / ia) 1.0; split; lra|]. split.
    + intros [H | [H | H]]; [discriminate | discriminate | lra].
    + intros _ _ _. now rewrite E1.
  - cbn [bind]. eexists. split; [reflexivity|].
    split; [qmin_cases 0.0 1.0; split; lra|]. split.
    + intros _. qmin_cases 0.0 1.0; lra.
    + intros _ _ H. exfalso. apply H. lra.
Qed.

Lemma first_three_nonempty {A : Type} (l : list A) : l <> [] -> first_three l <> [].
Proof. destruct l; [congruence | discriminate]. Qed.

Lemma last_three_nonempty {A : Type} (l : list A) : l <> [] -> last_three l <> [].
Proof.
  intros Hne E. apply (f_equal len) in E. rewrite len_last_three in E.
  pose proof (len_pos l Hne). change (len (@nil A)) with 0%Z in E. lia.
Qed.

Lemma sorted_by_timestamp_nonempty (l : list LearningInteraction) :
  l <> [] -> sorted_by_timestamp l <> [].
Proof.
  intros Hne E. apply (f_equal (@length _)) in E.
  rewrite sorted_by_timestamp_length in E. destruct l; [congruence | discriminate].
Qed.

(** X5. Take the two or more interactions of one content in timestamp
    order (there is one such arrangement).  When the mean correctness of
    its first three is positive, the score the analyzer's retention loop
    appends for the content is what [calculate_retention_rate] returns for
    the last three against the first three.  When it is zero the two
    part: the utility returns 0, the analyzer appends 0.5. *)
Theorem retention_ratio_and_rate (g : list LearningInteraction) :
  (2 <= len g)%Z ->
  exists s,
    in_timestamp_order g s
    /\ (forall s', in_timestamp_order g s' -> s' = s)
    /\ (0 < fraction_correct (first_three s) ->
        exists v,
          calculate_retention_rate (last_three s) (first_three s) = Returns v
          /\ retention_score_of g = Returns (Some v))
    /\ (fraction_correct (first_three s) <= 0 ->
        (exists v,
           calculate_retention_rate (last_three s) (first_three s) = Returns v
           /\ v == 0)
        /\ exists w, retention_score_of g = Returns (Some w) /\ w == 1 # 2).
Proof.
  intros Hlen. exists (sorted_by_timestamp g).
  split; [apply in_timestamp_order_sorted|].
  split; [intros s' Hs'; now apply in_timestamp_order_unique|].
  rewrite retention_score_of_returns, (proj2 (Z.ltb_ge _ _) Hlen).
  unfold retention_ratio.
  set (s := sorted_by_timestamp g).
  assert (Hne : g <> []) by (intros ->; cbn in Hlen; lia).
  assert (Hs : s <> []) by (apply sorted_by_timestamp_nonempty; exact Hne).
  pose proof (first_three_nonempty s Hs) as Hf.
  pose proof (last_three_nonempty s Hs) as Hl.
  unfold calculate_retention_rate.
  destruct (last_three s) as [|r review'] eqn:El; [congruence|].
  destruct (first_three s) as [|i initial'] eqn:Ef; [congruence|].
  rewrite !truediv_len by discriminate. cbn [bind].
  rewrite !count_if_fraction.
  split; intros H; destruct (Qlt_le_dec 0 (fraction_correct (i :: initial'))) as [Hp|Hn];
    try lra.
  - rewrite truediv_returns by lra. cbn [bind]. eexists. split; reflexivity.
  - cbn [bind]. split; eexists; split; reflexivity.
Qed.

(** Six interactions on one content supplied out of time order: in
    timestamp order they are correct, correct, correct, wrong, wrong,
    wrong, and both the analyzer and the utility give 0. *)
Lemma retention_ratio_and_rate_witness :
  exists v,
    calculate_retention_rate (last_three three_right_three_wrong)
                             (first_three three_right_three_wrong) = Returns v
    /\ retention_score_of three_right_three_wrong_shuffled = Returns (Some v)
    /\ v == 0.
Proof.
  destruct (retention_ratio_and_rate three_right_three_wrong_shuffled)
    as (s & _ & Hu & Hpos & _).
  - vm_compute. discriminate.
  - assert (Ho : in_timestamp_order three_right_three_wrong_shuffled
                   three_right_three_wrong).
    { replace three_right_three_wrong
        with (sorted_by_timestamp three_right_three_wrong_shuffled)
        by (vm_compute; reflexivity).
      apply in_timestamp_order_sorted. }
    rewrite <- (Hu _ Ho) in Hpos.
    destruct Hpos as (v & Hrate & Hscore); [vm_compute; reflexivity|].
    exists v. split; [exact Hrate|]. split; [exact Hscore|].
    vm_compute in Hrate. injection Hrate as <-. reflexivity.
Defined.

Lemma hd_map {A B : Type} (f : A -> B) (a : A) (l : list A) :
  hd (f a) (map f l) = f (hd a l).
Proof. destruct l; reflexivity. Qed.

Lemma last_map {A B : Type} (f : A -> B) (a : A) (l : list A) :
  last (map f l) (f a) = f (last l a).
Proof.
  induction l as [|x l IH]; [reflexivity|].
  cbn [map]. destruct l as [|y l]; [reflexivity|]. exact IH.
Qed.

Lemma hd_default {A : Type} (a b : A) (l : list A) : l <> [] -> hd a l = hd b l.
Proof. destruct l; [congruence | reflexivity]. Qed.

Lemma last_default {A : Type} (a b : A) (l : list A) : l <> [] -> last l a = last l b.
Proof.
  induction l as [|x l IH]; [congruence|]. intros _.
  destruct l as [|y l]; [reflexivity|]. apply IH. discriminate.
Qed.

Lemma difficulty_values_range (d : LearningDifficulty) : (1 <= difficulty_values d <= 5)%Z.
Proof. destruct d; cbn; lia. Qed.

Lemma progression_rate_levels (first : LearningInteraction) (l : list LearningInteraction) :
  l <> [] ->
  difficulty_values (difficulty_level (hd first (sorted_by_timestamp l))) = earliest_level l
  /\ difficulty_values (difficulty_level (last (sorted_by_timestamp l) first))
     = latest_level l.
Proof.
  intros Hne. unfold earliest_level, latest_level, levels_in_time_order.
  pose proof (sorted_by_timestamp_nonempty l Hne) as Hs.
  assert (Hm : map (fun i => difficulty_values (difficulty_level i)) (sorted_by_timestamp l)
               <> []).
  { intros E. apply map_eq_nil in E. contradiction. }
  split.
  - rewrite <- (hd_map (fun i => difficulty_values (difficulty_level i))).
    apply hd_default. exact Hm.
  - rewrite <- (last_map (fun i => difficulty_values (difficulty_level i))).
    apply last_default. exact Hm.
Qed.

(** X6. [calculate_difficulty_progression_rate] returns 0.0 on fewer than
    two interactions, whatever the timeframe, also a timeframe of zero
    days; on two or more interactions a timeframe of zero days raises
    ZeroDivisionError. *)
Theorem progression_rate_edges (l : list LearningInteraction) :
  ((len l < 2)%Z ->
   forall days, exists v,
     calculate_difficulty_progression_rate l days = Returns v /\ v == 0)
  /\ ((2 <= len l)%Z ->
      calculate_difficulty_progression_rate l 0 = Raises ZeroDivisionError).
Proof.
  unfold calculate_difficulty_progression_rate. split; intros Hlen.
  - intros days. destruct l as [|i l']; [exists 0.0; split; reflexivity|].
    rewrite (proj2 (Z.ltb_lt _ _) Hlen). exists 0.0. split; reflexivity.
  - destruct l as [|i l']; [cbn in Hlen; lia|].
    rewrite (proj2 (Z.ltb_ge _ _) Hlen). apply truediv_raises. reflexivity.
Qed.

Lemma progression_rate_edges_witness :
  (forall days, exists v,
     calculate_difficulty_progression_rate one_second_answer days = Returns v /\ v == 0)
  /\ calculate_difficulty_progression_rate rising_unevenly 0 = Raises ZeroDivisionError.
Proof.
  split.
  - apply (proj1 (progression_rate_edges one_second_answer)). reflexivity.
  - apply (proj2 (progression_rate_edges rising_unevenly)). vm_compute. discriminate.
Defined.

(** X7. On two or more interactions and a timeframe that is not zero,
    [calculate_difficulty_progression_rate] returns the level (1..5) of
    the latest interaction minus the level of the earliest one, over the
    timeframe, the earliest and the latest being the first and the last
    of the interactions in timestamp order (there is one such
    arrangement); the rate times the timeframe lies between -4 and 4. *)
Theorem progression_rate_value (l : list LearningInteraction) (days : Z) :
  (2 <= len l)%Z ->
  days <> 0%Z ->
  exists v earliest between latest,
    calculate_difficulty_progression_rate l days = Returns v
    /\ in_timestamp_order l (earliest :: between ++ [latest])
    /\ (forall s, in_timestamp_order l s -> s = earliest :: between ++ [latest])
    /\ v == inject_Z (difficulty_values (difficulty_level latest)
                      - difficulty_values (difficulty_level earliest))
            / inject_Z days
    /\ - (4) <= v * inject_Z days
    /\ v * inject_Z days <= 4.
Proof.
  intros Hlen Hdays. unfold calculate_difficulty_progression_rate.
  destruct l as [|i l']; [cbn in Hlen; lia|]. set (l := i :: l') in *.
  rewrite (proj2 (Z.ltb_ge _ _) Hlen).
  pose proof (in_timestamp_order_sorted l) as Ho.
  pose proof (in_timestamp_order_unique l) as Hu.
  pose proof (sorted_by_timestamp_len l) as Hsl.
  destruct (sorted_by_timestamp l) as [|earliest rest] eqn:Es;
    [unfold len in Hsl; cbn in Hsl; unfold len in Hlen; lia|].
  assert (Hrest : rest <> []).
  { intros ->. unfold len in Hsl, Hlen. cbn [length] in Hsl. lia. }
  destruct (exists_last Hrest) as (between & latest & ->).
  assert (HdQ : ~ inject_Z days == 0).
  { intros E. apply Hdays. apply (proj1 (inject_Z_injective days 0%Z)). exact E. }
  rewrite truediv_returns by exact HdQ.
  exists (inject_Z
            (difficulty_values
               (difficulty_level (last (earliest :: between ++ [latest]) i))
             - difficulty_values
                 (difficulty_level (hd i (earliest :: between ++ [latest]))))
          / inject_Z days), earliest, between, latest.
  split; [reflexivity|]. split; [exact Ho|]. split; [exact Hu|].
  assert (El : last (earliest :: between ++ [latest]) i = latest).
  { change (earliest :: between ++ [latest]) with ((earliest :: between) ++ [latest]).
    apply last_last. }
  rewrite El. cbn [hd]. split; [reflexivity|].
  set (d := (difficulty_values (difficulty_level latest)
             - difficulty_values (difficulty_level earliest))%Z).
  assert (E : inject_Z d / inject_Z days * inject_Z days == inject_Z d)
    by (field; exact HdQ).
  rewrite E.
  pose proof (difficulty_values_range (difficulty_level latest)).
  pose proof (difficulty_values_range (difficulty_level earliest)).
  change 4 with (inject_Z 4). change (- inject_Z 4) with (inject_Z (- 4)).
  rewrite <- !Zle_Qle. subst d. lia.
Qed.

(** Four interactions supplied latest first: the levels in timestamp
    order are 4, 3, 2, 1 and the rate over 7 days is -3/7. *)
Lemma progression_rate_value_witness :
  exists v,
    calculate_difficulty_progression_rate falling_evenly 7 = Returns v
    /\ v == - (3 # 7).
Proof.
  destruct (progression_rate_value falling_evenly 7)
    as (v & earliest & between & latest & Hr & Ho & _ & Hv & _).
  - vm_compute. discriminate.
  - discriminate.
  - exists v. split; [exact Hr|].
    apply in_timestamp_order_unique in Ho.
    assert (Es : sorted_by_timestamp falling_evenly
                 = [sample "c1" (at_time 9 0) ADVANCED true 4 0 1;
                    sample "c2" (at_time 9 10) INTERMEDIATE true 4 0 1;
                    sample "c3" (at_time 9 20) ELEMENTARY true 4 0 1;
                    sample "c4" (at_time 10 30) BEGINNER true 4 0 1])
      by (vm_compute; reflexivity).
    rewrite Es in Ho. injection Ho as -> Ho.
    destruct between as [|b1 [|b2 [|b3 between]]]; cbn [app] in Ho;
      try discriminate Ho.
    + injection Ho as _ _ ->. rewrite Hv. reflexivity.
    + injection Ho as _ _ _ Ho. destruct between; discriminate Ho.
Defined.

(** ** [estimate_mastery_time] *)

Lemma last_items_length {A : Type} (k : nat) (l : list A) :
  length (last_items k l) = Nat.min k (length l).
Proof. unfold last_items. rewrite length_skipn. lia. Qed.

Lemma recent_window_nonempty (l : list LearningInteraction) :
  l <> [] -> last_items (Z.to_nat (Z.min 10 (len l))) l <> [].
Proof.
  intros Hne E. apply (f_equal (@length _)) in E.
  rewrite last_items_length in E. pose proof (len_pos l Hne) as Hpos.
  unfold len in *. cbn [length] in E. lia.
Qed.

Lemma recent_accuracy_returns (l : list LearningInteraction) :
  l <> [] ->
  truediv (inject_Z (count_if is_correct (last_items (Z.to_nat (Z.min 10 (len l))) l)))
          (inject_Z (len (last_items (Z.to_nat (Z.min 10 (len l))) l)))
  = Returns (recent_accuracy l).
Proof.
  intros Hne. rewrite truediv_len by (apply recent_window_nonempty; exact Hne).
  now rewrite count_if_fraction.
Qed.

Lemma total_seconds_between_same (a : datetime) : total_seconds_between a a == 0.
Proof.
  unfold total_seconds_between.
  replace (((toordinal a - toordinal a) * 86400 + (seconds_of_day a - seconds_of_day a))
           * 1000000 + (microsecond a - microsecond a))%Z with 0%Z by lia.
  reflexivity.
Qed.

Section MasteryTimeFacts.
Variable timedelta_of_seconds : Q -> outcome timedelta.

Lemma mastery_below_threshold (first : LearningInteraction)
    (rest : list LearningInteraction) (threshold : Q) :
  recent_accuracy (first :: rest) < threshold ->
  estimate_mastery_time timedelta_of_seconds (first :: rest) threshold
  = if (1 <? len (first :: rest))%Z
    then
      improvement_rate <- truediv (recent_accuracy (first :: rest))
                                   (elapsed_seconds (first :: rest)) ;;
      if Qlt_le_dec 0 improvement_rate
      then
        estimated_seconds <- truediv (threshold - recent_accuracy (first :: rest))
                                      improvement_rate ;;
        estimate <- timedelta_of_seconds estimated_seconds ;;
        Returns (Some estimate)
      else Returns None
    else Returns None.
Proof.
  intros Hbelow. unfold estimate_mastery_time.
  rewrite recent_accuracy_returns by discriminate. cbn [bind].
  destruct (Qle_bool threshold (recent_accuracy (first :: rest))) eqn:E.
  - apply Qle_bool_iff in E. lra.
  - reflexivity.
Qed.
End MasteryTimeFacts.

(** X8. Once the accuracy over the last ten interactions (all of them when
    fewer) reaches the threshold, [estimate_mastery_time] returns
    timedelta(0): it reads no timestamp and raises nothing, whatever the
    timestamps are. *)
Theorem mastery_reached (timedelta_of_seconds : Q -> outcome timedelta)
    (l : list LearningInteraction) (threshold : Q) :
  l <> [] ->
  threshold <= recent_accuracy l ->
  estimate_mastery_time timedelta_of_seconds l threshold = Returns (Some timedelta_zero).
Proof.
  intros Hne Hreached. unfold estimate_mastery_time.
  destruct l as [|first rest]; [congruence|].
  rewrite recent_accuracy_returns by discriminate. cbn [bind].
  apply Qle_bool_iff in Hreached. now rewrite Hreached.
Qed.

Lemma mastery_reached_witness :
  estimate_mastery_time whole_seconds (correct_answers_at 9 5) 0.85
  = Returns (Some timedelta_zero).
Proof.
  apply (mastery_reached whole_seconds (correct_answers_at 9 5) 0.85).
  - discriminate.
  - vm_compute. discriminate.
Defined.

(** A number that is clearly on one side of a threshold is on that side. *)
Lemma rounding_margin_small : 0 < rounding_margin /\ rounding_margin < 1.
Proof. split; reflexivity. Qed.

Lemma clearly_below_lt (x threshold : Q) :
  0 <= x -> clearly_below x threshold -> x < threshold.
Proof.
  unfold clearly_below. intros Hx H. destruct rounding_margin_small as [Hm0 Hm1].
  set (m := rounding_margin) in *. clearbody m.
  destruct (Qlt_le_dec 0 threshold) as [Ht|Ht]; [nra|].
  exfalso. assert (threshold * (1 - m) <= 0) by nra. lra.
Qed.


Lemma recent_accuracy_nonneg (l : list LearningInteraction) : 0 <= recent_accuracy l.
Proof. apply fraction_correct_nonneg. Qed.

(** X9. On two or more interactions whose recent accuracy is clearly below
    the threshold (by more than rounding can bridge),
    [estimate_mastery_time] raises ZeroDivisionError when the first and
    the last interaction of the sequence carry the same timestamp. *)
Theorem mastery_same_timestamp (timedelta_of_seconds : Q -> outcome timedelta)
    (first : LearningInteraction) (rest : list LearningInteraction) (threshold : Q) :
  rest <> [] ->
  clearly_below (recent_accuracy (first :: rest)) threshold ->
  timestamp (last rest first) = timestamp first ->
  estimate_mastery_time timedelta_of_seconds (first :: rest) threshold
  = Raises ZeroDivisionError.
Proof.
  intros Hne Hclear Hsame.
  pose proof (clearly_below_lt _ _ (recent_accuracy_nonneg _) Hclear) as Hbelow.
  rewrite (mastery_below_threshold _ _ _ _ Hbelow).
  assert (Hlen : (1 <? len (first :: rest))%Z = true).
  { apply Z.ltb_lt. rewrite len_cons. pose proof (len_pos rest Hne). lia. }
  rewrite Hlen. rewrite truediv_raises; [reflexivity|].
  unfold elapsed_seconds.
  replace (last (first :: rest) first) with (last rest first)
    by (destruct rest; [congruence | reflexivity]).
  rewrite Hsame. apply total_seconds_between_same.
Qed.

Lemma mastery_same_timestamp_witness :
  estimate_mastery_time whole_seconds logged_at_once 0.85 = Raises ZeroDivisionError.
Proof.
  apply (mastery_same_timestamp whole_seconds
           (sample "c1" (at_time 9 0) BEGINNER false 4 0 1)
           [sample "c2" (at_time 9 0) BEGINNER true 4 0 1] 0.85).
  - discriminate.
  - vm_compute. reflexivity.
  - reflexivity.
Defined.

(** X10. On two or more interactions with a positive recent accuracy below
    the threshold and a positive time from the first to the last
    interaction, [estimate_mastery_time] hands to timedelta(seconds=...)
    the positive estimate (threshold - accuracy) * elapsed / accuracy and
    returns what it gives. *)
Theorem mastery_estimate (timedelta_of_seconds : Q -> outcome timedelta)
    (l : list LearningInteraction) (threshold : Q) :
  (2 <= len l)%Z ->
  0 < recent_accuracy l ->
  recent_accuracy l < threshold ->
  0 < elapsed_seconds l ->
  exists seconds,
    estimate_mastery_time timedelta_of_seconds l threshold
    = (estimate <- timedelta_of_seconds seconds ;; Returns (Some estimate))
    /\ seconds == (threshold - recent_accuracy l) * elapsed_seconds l / recent_accuracy l
    /\ 0 < seconds.
Proof.
  intros Hlen Hacc Hbelow Helapsed.
  destruct l as [|first rest]; [cbn in Hlen; lia|].
  rewrite (mastery_below_threshold _ _ _ _ Hbelow).
  rewrite (proj2 (Z.ltb_lt _ _)) by lia.
  set (acc := recent_accuracy (first :: rest)) in *.
  set (el := elapsed_seconds (first :: rest)) in *. clearbody acc el.
  rewrite truediv_returns by lra. cbn [bind].
  assert (Hrate : 0 < acc / el) by (apply Qlt_shift_div_l; lra).
  destruct (Qlt_le_dec 0 (acc / el)) as [_|Hn]; [|lra].
  rewrite truediv_returns by lra. cbn [bind].
  eexists. split; [reflexivity|]. split.
  - field. split; lra.
  - apply Qlt_shift_div_l; lra.
Qed.

Lemma mastery_estimate_witness :
  exists seconds,
    estimate_mastery_time whole_seconds three_right_three_wrong 0.85
    = (estimate <- whole_seconds seconds ;; Returns (Some estimate))
    /\ seconds == (0.85 - recent_accuracy three_right_three_wrong)
                  * elapsed_seconds three_right_three_wrong
                  / recent_accuracy three_right_three_wrong
    /\ 0 < seconds.
Proof.
  apply (mastery_estimate whole_seconds three_right_three_wrong 0.85).
  - vm_compute. discriminate.
  - vm_compute. reflexivity.
  - vm_compute. reflexivity.
  - vm_compute. reflexivity.
Defined.

(** X11. [estimate_mastery_time] returns None, without raising, on the
    empty sequence, on a single interaction clearly below the threshold
    (by more than rounding can bridge), and on two or more interactions
    clearly below the threshold whose first-to-last time is not zero when
    no recent answer is correct or when the last interaction is earlier
    than the first. *)
Theorem mastery_no_estimate (timedelta_of_seconds : Q -> outcome timedelta)
    (threshold : Q) :
  estimate_mastery_time timedelta_of_seconds [] threshold = Returns None
  /\ (forall i,
        clearly_below (recent_accuracy [i]) threshold ->
        estimate_mastery_time timedelta_of_seconds [i] threshold = Returns None)
  /\ (forall l,
        (2 <= len l)%Z ->
        clearly_below (recent_accuracy l) threshold ->
        ~ elapsed_seconds l == 0 ->
        recent_accuracy l == 0 \/ elapsed_seconds l < 0 ->
        estimate_mastery_time timedelta_of_seconds l threshold = Returns None).
Proof.
  split; [reflexivity|]. split.
  - intros i Hclear.
    pose proof (clearly_below_lt _ _ (recent_accuracy_nonneg _) Hclear) as Hbelow.
    now rewrite (mastery_below_threshold _ _ _ _ Hbelow).
  - intros l Hlen Hclear Hel Hcase.
    pose proof (clearly_below_lt _ _ (recent_accuracy_nonneg _) Hclear) as Hbelow.
    destruct l as [|first rest]; [cbn in Hlen; lia|].
    rewrite (mastery_below_threshold _ _ _ _ Hbelow).
    rewrite (proj2 (Z.ltb_lt _ _)) by lia.
    pose proof (fraction_correct_nonneg
                  (last_items (Z.to_nat (Z.min 10 (len (first :: rest)))) (first :: rest)))
      as Hacc0.
    fold (recent_accuracy (first :: rest)) in Hacc0.
    set (acc := recent_accuracy (first :: rest)) in *.
    set (el := elapsed_seconds (first :: rest)) in *. clearbody acc el.
    rewrite truediv_returns by exact Hel. cbn [bind].
    destruct (Qlt_le_dec 0 (acc / el)) as [Hpos|_]; [|reflexivity].
    exfalso. destruct Hcase as [Hz|Hneg].
    + rewrite Hz in Hpos. unfold Qdiv in Hpos. rewrite Qmult_0_l in Hpos. lra.
    + assert (E : acc / el * el == acc) by (field; exact Hel).
      set (q := acc / el) in *. clearbody q.
      assert (Hprod : 0 < q * - el) by (apply Qmult_lt_0_compat; lra).
      lra.
Qed.

Lemma mastery_no_estimate_witness :
  estimate_mastery_time whole_seconds one_second_answer 2 = Returns None
  /\ estimate_mastery_time whole_seconds latest_first 0.85 = Returns None.
Proof.
  split.
  - apply (proj1 (proj2 (mastery_no_estimate whole_seconds 2))
             (sample "c1" (at_time 9 0) BEGINNER true 1 0 1)).
    vm_compute. reflexivity.
  - apply (proj2 (proj2 (mastery_no_estimate whole_seconds 0.85)) latest_first).
    + vm_compute. discriminate.
    + vm_compute. reflexivity.
    + vm_compute. discriminate.
    + right. vm_compute. reflexivity.
Defined.

(** ** Strengths and improvement areas *)






















(** ** Recommendations *)

Lemma adaptations_loop_flat_map (areas : list string) :
  forall acc, adaptations_loop areas acc = acc ++ flat_map adaptations_for areas.
Proof.
  induction areas as [|area areas IH]; intros acc; cbn [adaptations_loop flat_map].
  - now rewrite app_nil_r.
  - unfold adaptations_for at 1, additional_practice, pacing_adjustment.
    destruct (contains "vocabulary" (lower area)).
    + rewrite IH. now rewrite <- app_assoc.
    + destruct (contains "response time" (lower area)); rewrite IH;
        now rewrite <- ?app_assoc.
Qed.

Lemma content_types_loop_flat_map (found : list string) :
  forall acc, content_types_loop found acc = acc ++ flat_map types_for found.
Proof.
  induction found as [|s found IH]; intros acc; cbn [content_types_loop flat_map].
  - now rewrite app_nil_r.
  - unfold types_for at 1.
    destruct (contains "vocabulary" (lower s)).
    + rewrite IH. now rewrite <- app_assoc.
    + destruct (contains "conversation" (lower s)); rewrite IH;
        now rewrite <- ?app_assoc.
Qed.

Lemma generate_recommendations_fields (patterns : list LearningPattern)
    (found areas : list string) :
  adaptations (_generate_recommendations patterns found areas)
  = flat_map adaptations_for areas
  /\ content_types (_generate_recommendations patterns found areas)
     = match flat_map types_for found with
       | [] => [VOCABULARY; GRAMMAR]
       | _ :: _ => flat_map types_for found
       end.
Proof.
  unfold _generate_recommendations. cbn [adaptations content_types].
  now rewrite adaptations_loop_flat_map, content_types_loop_flat_map.
Qed.

Lemma flat_map_length_le {A B : Type} (f : A -> list B) (l : list A) :
  (forall a, length (f a) <= 1)%nat -> (length (flat_map f l) <= length l)%nat.
Proof.
  intros H. induction l as [|a l IH]; [cbn; lia|].
  cbn [flat_map]. rewrite length_app. cbn [length]. pose proof (H a). lia.
Qed.

(** X14. Whatever strengths and improvement areas it is given,
    [_generate_recommendations] recommends at least one content type, and
    only vocabulary, conversation and grammar: grammar only in the default
    pair [vocabulary, grammar], which is recommended exactly when no
    strength mentions vocabulary or conversation.  It emits at most one
    adaptation per improvement area, each an additional vocabulary
    practice or a pacing adjustment, and always a difficulty progression
    of 1.0 and a session of 20 minutes. *)
Theorem recommendations_shape (patterns : list LearningPattern)
    (found areas : list string) :
  content_types (_generate_recommendations patterns found areas) <> []
  /\ (forall c,
        In c (content_types (_generate_recommendations patterns found areas)) ->
        c = VOCABULARY \/ c = CONVERSATION \/ c = GRAMMAR)
  /\ (In GRAMMAR (content_types (_generate_recommendations patterns found areas))
      <-> content_types (_generate_recommendations patterns found areas)
          = [VOCABULARY; GRAMMAR])
  /\ (content_types (_generate_recommendations patterns found areas)
      = [VOCABULARY; GRAMMAR]
      <-> forall s, In s found -> contains "vocabulary" (lower s) = false
                                  /\ contains "conversation" (lower s) = false)
  /\ (length (adaptations (_generate_recommendations patterns found areas))
      <= length areas)%nat
  /\ (forall a,
        In a (adaptations (_generate_recommendations patterns found areas)) ->
        a = additional_practice \/ a = pacing_adjustment)
  /\ difficulty_progression (_generate_recommendations patterns found areas) == 1
  /\ session_length (_generate_recommendations patterns found areas)
     = {| td_days := 0; td_seconds := 1200; td_microseconds := 0 |}.
Proof.
  destruct (generate_recommendations_fields patterns found areas) as [Ha Hc].
  rewrite Ha, Hc.
  assert (Htypes : forall c, In c (flat_map types_for found) ->
                             c = VOCABULARY \/ c = CONVERSATION).
  { intros c Hin. apply in_flat_map in Hin. destruct Hin as (s & _ & Hc').
    unfold types_for in Hc'.
    destruct (contains "vocabulary" (lower s)); [destruct Hc' as [<-|[]]; tauto|].
    destruct (contains "conversation" (lower s)); [destruct Hc' as [<-|[]]; tauto|].
    destruct Hc'. }
  assert (Hnil : flat_map types_for found = []
                 <-> forall s, In s found -> contains "vocabulary" (lower s) = false
                                             /\ contains "conversation" (lower s) = false).
  { clear. induction found as [|s found IH]; cbn [flat_map].
    - split; [intros _ s [] | reflexivity].
    - unfold types_for at 1. split.
      + intros H s' [<-|Hs'].
        * destruct (contains "vocabulary" (lower s)); [discriminate|].
          destruct (contains "conversation" (lower s)); [discriminate|]. tauto.
        * destruct (contains "vocabulary" (lower s)); [discriminate|].
          destruct (contains "conversation" (lower s)); [discriminate|].
          apply IH; assumption.
      + intros H. destruct (H s (or_introl eq_refl)) as [-> ->]. cbn [app].
        apply IH. intros s' Hs'. apply H. now right. }
  set (T := flat_map types_for found) in *. clearbody T.
  split; [|split; [|split; [|split; [|split; [|split; [|split]]]]]].
  - destruct T; discriminate.
  - intros c Hin. destruct T as [|t ts].
    + destruct Hin as [<-|[<-|[]]]; tauto.
    + destruct (Htypes c Hin); tauto.
  - split.
    + intros Hin. destruct T as [|t ts]; [reflexivity|].
      destruct (Htypes GRAMMAR Hin); discriminate.
    + intros ->. right. now left.
  - split.
    + intros H. apply Hnil. destruct T as [|t ts]; [reflexivity|].
      exfalso.
      assert (Hg : In GRAMMAR (t :: ts)) by (rewrite H; right; now left).
      destruct (Htypes GRAMMAR Hg); discriminate.
    + intros H. apply Hnil in H. now rewrite H.
  - apply flat_map_length_le. intros a. unfold adaptations_for.
    destruct (contains "vocabulary" (lower a));
      [|destruct (contains "response time" (lower a))]; cbn; lia.
  - intros a Hin. apply in_flat_map in Hin. destruct Hin as (s & _ & Ha').
    unfold adaptations_for in Ha'.
    destruct (contains "vocabulary" (lower s)); [destruct Ha' as [<-|[]]; tauto|].
    destruct (contains "response time" (lower s)); [destruct Ha' as [<-|[]]; tauto|].
    destruct Ha'.
  - reflexivity.
  - reflexivity.
Qed.

(** ** The whole analysis *)










(** The progression score of a summary within the float range. *)
Lemma progression_returns_some (progress_data : dict string Q) :
  summary_in_float_range progress_data ->
  exists p, _calculate_progression_effectiveness progress_data = Returns p.
Proof.
  intros Hs. destruct progress_data as [|e d']; [eexists; reflexivity|].
  destruct (progression_returns (e :: d')) as (p & Hp & _);
    [discriminate | assumption | now exists p].
Qed.



(** ** Scores on arbitrary input *)



Lemma trend_unit (l : list LearningInteraction) :
  exists t, _calculate_difficulty_trend l = Returns t /\ unit_score_real t.
Proof.
  unfold unit_score_real.
  destruct (Z_lt_le_dec (len l) 3) as [H|H].
  - eexists. split; [apply (trend_short l H)|]. split; lra.
  - rewrite (trend_returns l H).
    destruct (Qeq_bool (covariation (order_indices (length l)) (order_indices (length l))) 0)
      eqn:Ex; cbn [orb]; [eexists; split; [reflexivity | split; lra]|].
    destruct (Qeq_bool (covariation (levels_in_time_order l) (levels_in_time_order l)) 0)
      eqn:Ey; [eexists; split; [reflexivity | split; lra]|].
    apply Qeq_bool_neq in Ex, Ey.
    pose proof (covariation_self_nonneg (order_indices (length l))) as Hx.
    pose proof (covariation_self_nonneg (levels_in_time_order l)) as Hy.
    assert (Hpos : 0 < covariation (order_indices (length l)) (order_indices (length l))
                       * covariation (levels_in_time_order l) (levels_in_time_order l))
      by (apply Qmult_lt_0_compat; lra).
    destruct (pearson_bounds _ _ Hpos) as [Hlo Hhi].
    eexists. split; [reflexivity|]. split; lra.
Qed.





(** ** The order of the input *)

Lemma insert_by_timestamp_swap_lt (x y : LearningInteraction) :
  datetime_ltb (timestamp x) (timestamp y) = true ->
  forall s,
    insert_by_timestamp x (insert_by_timestamp y s)
    = insert_by_timestamp y (insert_by_timestamp x s).
Proof.
  intros Hxy. pose proof (datetime_ltb_asym _ _ Hxy) as Hyx.
  induction s as [|z s IH]; cbn [insert_by_timestamp].
  - now rewrite Hxy, Hyx.
  - destruct (datetime_ltb (timestamp z) (timestamp x)) eqn:Ezx.
    + rewrite (datetime_ltb_trans _ _ _ Ezx Hxy). cbn [insert_by_timestamp].
      rewrite Ezx, (datetime_ltb_trans _ _ _ Ezx Hxy). now rewrite IH.
    + cbn [insert_by_timestamp]. rewrite Hxy.
      destruct (datetime_ltb (timestamp z) (timestamp y)) eqn:Ezy;
        cbn [insert_by_timestamp]; now rewrite ?Ezx, ?Hyx, ?Ezy.
Qed.

Lemma insert_by_timestamp_swap (x y : LearningInteraction) (s : list LearningInteraction) :
  timestamp x <> timestamp y ->
  insert_by_timestamp x (insert_by_timestamp y s)
  = insert_by_timestamp y (insert_by_timestamp x s).
Proof.
  intros Hne. destruct (datetime_ltb_total _ _ Hne) as [H|H].
  - now apply insert_by_timestamp_swap_lt.
  - symmetry. now apply insert_by_timestamp_swap_lt.
Qed.

Lemma sorted_by_timestamp_permutation (l l' : list LearningInteraction) :
  Permutation l l' ->
  distinct_timestamps l ->
  sorted_by_timestamp l = sorted_by_timestamp l'.
Proof.
  unfold distinct_timestamps.
  induction 1 as [|x l l' Hp IH|x y l|l l' l'' Hp1 IH1 Hp2 IH2]; intros Hnd.
  - reflexivity.
  - cbn [sorted_by_timestamp fold_right]. fold (sorted_by_timestamp l).
    fold (sorted_by_timestamp l'). rewrite IH; [reflexivity|].
    cbn [map] in Hnd. now inversion Hnd.
  - cbn [sorted_by_timestamp fold_right]. fold (sorted_by_timestamp l).
    apply insert_by_timestamp_swap.
    cbn [map] in Hnd. inversion Hnd as [|? ? Hnot _]; subst.
    intros E. apply Hnot. left. now symmetry.
  - rewrite IH1 by assumption. apply IH2.
    eapply Permutation_NoDup; [|exact Hnd]. now apply Permutation_map.
Qed.

(** X19. When no two interactions carry the same timestamp, the order in
    which the interactions are supplied does not matter to the difficulty
    trend and to the difficulty progression rate: any rearrangement of
    the input gives the same result.  With equal timestamps it can
    matter: three interactions logged at once at rising levels have the
    trend 1, the same three the other way round the trend 0. *)
Theorem input_order_irrelevant :
  (forall l l' days,
     Permutation l l' ->
     distinct_timestamps l ->
     _calculate_difficulty_trend l = _calculate_difficulty_trend l'
     /\ calculate_difficulty_progression_rate l days
        = calculate_difficulty_progression_rate l' days)
  /\ (Permutation rising_at_once (rev rising_at_once)
      /\ _calculate_difficulty_trend rising_at_once = Returns 1%R
      /\ _calculate_difficulty_trend (rev rising_at_once) = Returns 0%R).
Proof.
  split.
  - intros l l' days Hp Hnd.
    pose proof (sorted_by_timestamp_permutation l l' Hp Hnd) as Hs.
    assert (Hlen : len l = len l').
    { unfold len. now rewrite (Permutation_length Hp). }
    split.
    + unfold _calculate_difficulty_trend. now rewrite Hs, Hlen.
    + unfold calculate_difficulty_progression_rate.
      destruct l as [|i l0], l' as [|i' l0'];
        try (apply Permutation_length in Hp; discriminate); [reflexivity|].
      rewrite <- Hlen. destruct (len (i :: l0) <? 2)%Z; [reflexivity|].
      destruct (progression_rate_levels i (i :: l0)) as [H1 H2]; [discriminate|].
      destruct (progression_rate_levels i' (i' :: l0')) as [H1' H2']; [discriminate|].
      rewrite H1, H2, H1', H2'.
      unfold earliest_level, latest_level, levels_in_time_order. now rewrite Hs.
  - split; [apply Permutation_rev|]. split.
    + apply (trend_constant_step rising_at_once 1 1);
        [vm_compute; discriminate | vm_compute; reflexivity | reflexivity].
    + apply (trend_constant_step (rev rising_at_once) 3 (-1));
        [vm_compute; discriminate | vm_compute; reflexivity | reflexivity].
Qed.

Lemma input_order_irrelevant_witness :
  _calculate_difficulty_trend rising_evenly
  = _calculate_difficulty_trend (rev rising_evenly)
  /\ calculate_difficulty_progression_rate rising_evenly 7
     = calculate_difficulty_progression_rate (rev rising_evenly) 7.
Proof.
  apply (proj1 input_order_irrelevant rising_evenly (rev rising_evenly) 7%Z).
  - apply Permutation_rev.
  - unfold distinct_timestamps. repeat constructor; cbn; intuition discriminate.
Defined.

(** ** Grouping keeps every interaction *)

Section PartitionFacts.
Context {K A : Type} (eqb : K -> K -> bool) (key : A -> K).
Hypothesis eqb_spec : forall a b, eqb a b = true <-> a = b.

Lemma filter_disjoint_app (p q : A -> bool) (l : list A) :
  (forall a, p a = true -> q a = false) ->
  Permutation (filter p l ++ filter q l) (filter (fun a => p a || q a) l).
Proof.
  intros H. induction l as [|a l IH]; [constructor|]. cbn [filter].
  destruct (p a) eqn:Ep.
  - rewrite (H a Ep). cbn [orb app]. now constructor.
  - cbn [orb]. destruct (q a).
    + apply Permutation_sym. eapply perm_trans; [|apply Permutation_middle].
      constructor. now apply Permutation_sym.
    + exact IH.
Qed.

Lemma groups_cover (ks : list K) (l : list A) :
  NoDup ks ->
  Permutation (flat_map (fun k => filter (fun x => eqb (key x) k) l) ks)
              (filter (fun x => existsb (eqb (key x)) ks) l).
Proof.
  induction 1 as [|k ks Hnot Hnd IH]; cbn [flat_map existsb].
  - induction l; [constructor | assumption].
  - eapply perm_trans; [apply Permutation_app_head, IH|].
    apply filter_disjoint_app. intros a Ha. apply (proj1 (eqb_spec _ _)) in Ha.
    apply not_true_is_false. intros Hex. apply existsb_exists in Hex.
    destruct Hex as (k' & Hk' & E). apply (proj1 (eqb_spec _ _)) in E.
    apply Hnot. congruence.
Qed.

Lemma groups_partition (l : list A) :
  Permutation
    (flat_map (fun k => filter (fun x => eqb (key x) k) l) (distinct eqb (map key l)))
    l.
Proof.
  eapply perm_trans; [apply groups_cover, (distinct_NoDup eqb eqb_spec)|].
  rewrite forallb_filter_id; [apply Permutation_refl|].
  apply forallb_forall. intros x Hx. apply existsb_exists.
  exists (key x). split; [|now apply eqb_spec].
  apply (distinct_In eqb eqb_spec). now apply in_map.
Qed.
End PartitionFacts.

(** X20. The grouping loop of [_calculate_retention_effectiveness] loses
    and repeats no interaction: the groups have distinct content ids, none
    is empty, each holds the interactions of its content in the order of
    the input, and together the groups are a rearrangement of the
    input. *)
Theorem content_groups_partition (l : list LearningInteraction) :
  NoDup (map fst (group_by String.eqb content_id (fun i => i) l))
  /\ (forall c g,
        In (c, g) (group_by String.eqb content_id (fun i => i) l) ->
        g <> [] /\ g = interactions_on c l)
  /\ Permutation (concat (map snd (group_by String.eqb content_id (fun i => i) l))) l.
Proof.
  rewrite (group_by_distinct String.eqb content_id (fun i => i) String.eqb_eq).
  rewrite !map_map. cbn [fst snd]. rewrite map_id. split; [|split].
  - apply (distinct_NoDup String.eqb String.eqb_eq).
  - intros c g Hin. apply in_map_iff in Hin. destruct Hin as (k & E & Hk).
    injection E as <- <-. rewrite filed_under_content. split; [|reflexivity].
    apply (proj1 (distinct_In String.eqb String.eqb_eq _ _)) in Hk.
    apply in_map_iff in Hk. destruct Hk as (i & Hi & Hin).
    intros E. assert (H : In i (interactions_on (content_id i) l)).
    { unfold interactions_on. apply filter_In. split; [assumption|].
      apply String.eqb_refl. }
    rewrite Hi, E in H. exact H.
  - rewrite <- flat_map_concat_map.
    rewrite (flat_map_ext _ (fun c => filter (fun i => String.eqb (content_id i) c) l))
      by (intros c; apply filed_under_content).
    apply (groups_partition String.eqb content_id String.eqb_eq).
Qed.

Lemma flat_map_length_ge {A B : Type} (f : A -> list B) (q : A -> bool) (n : nat)
    (ks : list A) :
  (forall k, q k = true -> (n <= length (f k))%nat) ->
  (n * length (filter q ks) <= length (flat_map f ks))%nat.
Proof.
  intros H. induction ks as [|k ks IH]; [cbn; lia|].
  cbn [filter flat_map]. rewrite length_app.
  destruct (q k) eqn:E; cbn [length]; [pose proof (H k E)|]; lia.
Qed.

Lemma identify_patterns_record (first : LearningInteraction)
    (rest : list LearningInteraction) (progress_data retention_data : dict string Q) :
  qualifying_hours (first :: rest) <> [] ->
  _identify_learning_patterns_ai (first :: rest) progress_data retention_data
  = Returns
      [{| pattern_id := "optimal_timing_0";
          pattern_type := "optimal_timing";
          description := ("User performs best during hours: "
                          ++ str_int_list (qualifying_hours (first :: rest)))%string;
          effectiveness_score := 0.8;
          frequency := len (qualifying_hours (first :: rest));
          applicable_users := [user_id first];
          conditions := [("optimal_hours"%string, qualifying_hours (first :: rest))];
          outcomes := [("accuracy_improvement"%string, 0.2)] |}].
Proof.
  intros Hne. unfold _identify_learning_patterns_ai.
  rewrite best_hours_qualifying. cbn [bind].
  destruct (qualifying_hours (first :: rest)) as [|h hs]; [congruence|]. reflexivity.
Qed.

(** X21. A pattern emitted by [_identify_learning_patterns_ai] has the id
    "optimal_timing_0", names the user of the first interaction only, and
    records between 1 and len(interactions)/5 hours: five times its
    frequency never exceeds the number of interactions, and each recorded
    hour is the hour of some interaction. *)
Theorem emitted_pattern_bounds (l : list LearningInteraction)
    (progress_data retention_data : dict string Q) (p : LearningPattern) :
  _identify_learning_patterns_ai l progress_data retention_data = Returns [p] ->
  pattern_id p = "optimal_timing_0"%string
  /\ applicable_users p = map user_id (firstn 1 l)
  /\ (1 <= frequency p)%Z
  /\ (5 * frequency p <= len l)%Z
  /\ (forall h, In h (optimal_hours p) -> exists i, In i l /\ hour (timestamp i) = h).
Proof.
  intros Hp. destruct l as [|first rest]; [discriminate|].
  destruct (qualifying_hours (first :: rest)) as [|h0 hs] eqn:E.
  - destruct (identify_patterns_returns (first :: rest) progress_data retention_data)
      as (ps & Hr & Hnone & _).
    rewrite Hp in Hr. injection Hr as <-. specialize (Hnone E). discriminate.
  - rewrite identify_patterns_record in Hp by (rewrite E; discriminate).
    injection Hp as <-. cbn [pattern_id applicable_users frequency firstn map].
    split; [reflexivity|]. split; [reflexivity|]. split; [|split].
    + rewrite E, len_cons. pose proof (len_nonneg hs). lia.
    + pose proof (groups_partition Z.eqb (fun i => hour (timestamp i)) Z.eqb_eq
                    (first :: rest)) as Hperm.
      apply Permutation_length in Hperm.
      pose proof (flat_map_length_ge
                    (fun h => filter (fun x => (hour (timestamp x) =? h)%Z) (first :: rest))
                    (qualifyingb (first :: rest)) 5
                    (distinct Z.eqb (map (fun i => hour (timestamp i)) (first :: rest))))
        as Hge.
      rewrite Hperm in Hge. unfold qualifying_hours, hours_seen, len.
      assert (H5 : (5 * length (filter (qualifyingb (first :: rest))
                                  (distinct Z.eqb
                                     (map (fun i => hour (timestamp i)) (first :: rest))))
                    <= length (first :: rest))%nat).
      { apply Hge. intros h Hq. apply qualifyingb_spec in Hq. destruct Hq as [Hlen _].
        unfold at_hour, len in Hlen. lia. }
      lia.
    + intros h Hh. unfold optimal_hours, dict_get_default in Hh.
      cbn [conditions dict_get] in Hh. rewrite String.eqb_refl in Hh.
      unfold qualifying_hours in Hh. apply filter_In in Hh. destruct Hh as [Hh _].
      unfold hours_seen in Hh.
      apply (proj1 (distinct_In Z.eqb Z.eqb_eq _ _)) in Hh.
      apply in_map_iff in Hh. destruct Hh as (i & Hi & Hin). now exists i.
Qed.

Lemma emitted_pattern_bounds_witness :
  exists p,
    _identify_learning_patterns_ai (correct_answers_at 9 5 ++ correct_answers_at 14 6) [] []
    = Returns [p]
    /\ pattern_id p = "optimal_timing_0"%string
    /\ applicable_users p
       = map user_id (firstn 1 (correct_answers_at 9 5 ++ correct_answers_at 14 6))
    /\ (1 <= frequency p)%Z
    /\ (5 * frequency p <= len (correct_answers_at 9 5 ++ correct_answers_at 14 6))%Z
    /\ (forall h,
          In h (optimal_hours p) ->
          exists i,
            In i (correct_answers_at 9 5 ++ correct_answers_at 14 6)
            /\ hour (timestamp i) = h).
Proof.
  eexists. split; [reflexivity|].
  apply (emitted_pattern_bounds (correct_answers_at 9 5 ++ correct_answers_at 14 6) [] []).
  reflexivity.
Defined.

(** [identify_learning_patterns] returns no pattern, whatever the user
    data: its four detectors and its AI step are placeholders, and it does
    not call [_identify_learning_patterns_ai], which on five correct
    answers in one hour does emit a pattern. *)
Remark public_identification_finds_nothing :
  (forall user_interactions user_progress,
     identify_learning_patterns user_interactions user_progress = [])
  /\ (exists p,
        _identify_learning_patterns_ai (correct_answers_at 9 5) [] [] = Returns [p]
        /\ identify_learning_patterns (Some (correct_answers_at 9 5)) (Some []) = []).
Proof.
  split; [reflexivity|]. eexists. split; reflexivity.
Qed.

(** X22. The overall effectiveness an analysis reports lies between the
    smallest and the largest of the immediate, retention and progression
    effectiveness it reports, for every input and whatever the
    performance tracker does. *)
Theorem overall_between_scores (performance_manager : option (outcome unit))
    (user : string) (days : Z) (l : list LearningInteraction)
    (progress_data retention_data : dict string Q) :
  Qmin (Qmin (immediate_effectiveness
                (analyze_user_effectiveness performance_manager user days l
                   progress_data retention_data))
             (retention_effectiveness
                (analyze_user_effectiveness performance_manager user days l
                   progress_data retention_data)))
       (progression_effectiveness
          (analyze_user_effectiveness performance_manager user days l
             progress_data retention_data))
  <= overall_effectiveness
       (analyze_user_effectiveness performance_manager user days l
          progress_data retention_data)
  /\ overall_effectiveness
       (analyze_user_effectiveness performance_manager user days l
          progress_data retention_data)
     <= Qmax (Qmax (immediate_effectiveness
                      (analyze_user_effectiveness performance_manager user days l
                         progress_data retention_data))
                   (retention_effectiveness
                      (analyze_user_effectiveness performance_manager user days l
                         progress_data retention_data)))
             (progression_effectiveness
                (analyze_user_effectiveness performance_manager user days l
                   progress_data retention_data)).
Proof.
  assert (H : forall i r p,
             Qmin (Qmin i r) p <= i * 0.4 + r * 0.4 + p * 0.2
             /\ i * 0.4 + r * 0.4 + p * 0.2 <= Qmax (Qmax i r) p).
  { intros i r p.
    pose proof (Q.le_min_l (Qmin i r) p). pose proof (Q.le_min_r (Qmin i r) p).
    pose proof (Q.le_min_l i r). pose proof (Q.le_min_r i r).
    pose proof (Q.le_max_l (Qmax i r) p). pose proof (Q.le_max_r (Qmax i r) p).
    pose proof (Q.le_max_l i r). pose proof (Q.le_max_r i r).
    set (m := Qmin (Qmin i r) p) in *. set (M := Qmax (Qmax i r) p) in *.
    set (m' := Qmin i r) in *. set (M' := Qmax i r) in *. clearbody m M m' M'.
    split; lra. }
  destruct (analyze_scores performance_manager user days l progress_data retention_data)
    as [-> | (i & r & p & ps & _ & _ & _ & ->)].
  - split; vm_compute; discriminate.
  - apply H.
Qed.

(** X23. [_calculate_difficulty_trend] never raises and its value lies in
    [0,1] for every input: the correlation it rescales is within
    [-1, 1]. *)
Theorem difficulty_trend_range (l : list LearningInteraction) :
  exists t, _calculate_difficulty_trend l = Returns t /\ (0 <= t <= 1)%R.
Proof. exact (trend_unit l). Qed.

(** X24. On a summary of numbers [_calculate_progression_effectiveness]
    raises nothing but OverflowError, and this only when a field is beyond
    the range of a float; the score it returns never exceeds 1, and is
    negative only when some field of the summary is. *)
Theorem progression_on_any_summary (progress_data : dict string Q) :
  (summary_in_float_range progress_data ->
   exists v, _calculate_progression_effectiveness progress_data = Returns v)
  /\ (forall e,
        _calculate_progression_effectiveness progress_data = Raises e ->
        e = OverflowError /\ ~ summary_in_float_range progress_data)
  /\ (forall v,
        _calculate_progression_effectiveness progress_data = Returns v ->
        v <= 1
        /\ (0 <= dict_get_default String.eqb "difficulty_progression"%string 0 progress_data ->
            0 <= dict_get_default String.eqb "mastery_rate"%string 0 progress_data ->
            0 <= dict_get_default String.eqb "learning_velocity"%string 0 progress_data ->
            0 <= v)).
Proof.
  split; [|split].
  - apply progression_returns_some.
  - apply progression_raises.
  - intros v Hv. destruct progress_data as [|e d'].
    + injection Hv as <-. split; [lra | intros _ _ _; lra].
    + destruct (progression_cases (e :: d')) as [(v' & Hr & Hf) | [Hr _]];
        [discriminate | | congruence].
      assert (v' = v) by congruence. subst v'. rewrite Hf.
      unfold progression_formula, normalized.
      set (dp := dict_get_default _ "difficulty_progression"%string _ _).
      set (mr := dict_get_default _ "mastery_rate"%string _ _).
      set (lv := dict_get_default _ "learning_velocity"%string _ _).
      clearbody dp mr lv.
      split; [|intros Hdp Hmr Hlv];
        qmin_cases (dp / 5) 1; qmin_cases (mr / 1) 1; qmin_cases (lv / 10) 1; qlra.
Qed.
